(** * HabitTracker: the habit store and the rate guard

    A shallow embedding of [services/data_manager.py],
    [middlewares/throttling.py], the handlers of the habit dialogue in
    [routers/commands.py], the habit keyboard of [keyboards/inline.py] and
    the quote client of [services/api_client.py], followed by the
    properties of the specification that concern them and by further
    properties of the code.

    Conventions.
    - A Python [str] is the list of its Unicode code points; [len] is
      [length], [+] is [++], [<] is the lexicographic order on code points.
    - A Python [dict] is an insertion-ordered association list ([dict_set]
      overwrites in place or appends); the three per-user maps of the
      middlewares, whose iteration order is never observed, are [gmap]s.
    - In the store, which only writes them down with [isoformat], a [date]
      and a naive [datetime] are the records of their fields.  In the
      middlewares, which only subtract and compare them, a [datetime] is
      its number of microseconds on the local time line and a [timedelta]
      a number of microseconds.  With that reading
      [(a - b).total_seconds() < k] for an integer [k] of seconds is
      [a - b < k * 1000000], and likewise for [<=].
    - Every read of the clock ([datetime.now()], [date.today()]), the
      identifier drawn by [uuid.uuid4()] and the outcome of [_save_data]
      (the file write succeeds or raises) are arguments of the operation
      that performs them.
    - [datetime.fromisoformat] and [str.lower] are not modelled: the
      functions that call them take them as a parameter, and what is
      proved of these functions holds whatever the parameter is. *)

From Stdlib Require Import ZArith String Ascii Lia.
From Stdlib Require Import DecimalFacts DecimalPos DecimalZ.
From stdpp Require Import base numbers option list gmap lexico sorting.

Local Open Scope Z_scope.

(** ** Python strings *)

Abbreviation str := (list N).

Module PyStr.

(** An ASCII literal as a [str]. *)
Definition lit (s : string) : str := N_of_ascii <$> list_ascii_of_string s.

(** [str.isspace] on one code point: the characters Python 3 classifies
    as whitespace. *)
Definition isspace (c : N) : bool :=
  bool_decide (c ∈ [9; 10; 11; 12; 13; 28; 29; 30; 31; 32; 133; 160; 5760;
                    8192; 8193; 8194; 8195; 8196; 8197; 8198; 8199; 8200;
                    8201; 8202; 8232; 8233; 8239; 8287; 12288]%N).

Fixpoint lstrip (s : str) : str :=
  match s with
  | c :: s' => if isspace c then lstrip s' else s
  | [] => []
  end.

Definition rstrip (s : str) : str := reverse (lstrip (reverse s)).

(** [s.strip()] *)
Definition strip (s : str) : str := rstrip (lstrip s).

Fixpoint uint_codes (u : Decimal.uint) : str :=
  match u with
  | Decimal.Nil => []
  | Decimal.D0 u => 48%N :: uint_codes u
  | Decimal.D1 u => 49%N :: uint_codes u
  | Decimal.D2 u => 50%N :: uint_codes u
  | Decimal.D3 u => 51%N :: uint_codes u
  | Decimal.D4 u => 52%N :: uint_codes u
  | Decimal.D5 u => 53%N :: uint_codes u
  | Decimal.D6 u => 54%N :: uint_codes u
  | Decimal.D7 u => 55%N :: uint_codes u
  | Decimal.D8 u => 56%N :: uint_codes u
  | Decimal.D9 u => 57%N :: uint_codes u
  end.

(** [str(n)] for an [int]. *)
Definition str_of_int (n : Z) : str :=
  match Z.to_int n with
  | Decimal.Pos u => uint_codes u
  | Decimal.Neg u => 45%N :: uint_codes u
  end.

(** ["%0<w>d" % n]: decimal, padded with zeros on the left to width [w];
    the sign, when there is one, counts in the width. *)
Definition zero_padded (w : nat) (n : Z) : str :=
  match Z.to_int n with
  | Decimal.Pos u =>
      let ds := uint_codes u in replicate (w - length ds) 48%N ++ ds
  | Decimal.Neg u =>
      let ds := uint_codes u in
      45%N :: replicate (w - 1 - length ds) 48%N ++ ds
  end.

(** [a < b] and [a <= b] on strings. *)
Definition str_lt (a b : str) : Prop := lexico a b.
Definition str_le (a b : str) : Prop := ¬ lexico b a.

(** Reading decimal digits back, to state that the conversions above
    lose nothing. *)
Definition is_digit (c : N) : Prop := (48 <= c <= 57)%N.
Definition digit_step (acc : Z) (c : N) : Z := 10 * acc + (Z.of_N c - 48).
Definition digits_value (s : str) : Z := foldl digit_step 0 s.
Definition decode_int (s : str) : Z :=
  match s with
  | 45%N :: s' => - digits_value s'
  | _ => digits_value s
  end.

(** [s.split(sep)] for a separator [sep] of one character: the pieces
    between the separators, empty ones included. *)
Fixpoint split (sep : N) (s : str) : list str :=
  match s with
  | [] => [[]]
  | c :: s' =>
      if decide (c = sep) then [] :: split sep s'
      else
        match split sep s' with
        | w :: ws => (c :: w) :: ws
        | [] => [[c]]
        end
  end.

(** [s.startswith(prefix)] *)
Fixpoint startswith (s prefix : str) : bool :=
  match prefix, s with
  | [], _ => true
  | p :: prefix', c :: s' => bool_decide (c = p) && startswith s' prefix'
  | _ :: _, [] => false
  end.

(** [str.lower] on the letters A to Z, the other characters being kept:
    what [str.lower] does on ASCII text. *)
Definition ascii_lower (s : str) : str :=
  (λ c, if decide (65 <= c <= 90)%N then (c + 32)%N else c) <$> s.

End PyStr.

(** ** [datetime.date]

    The proleptic Gregorian calendar of the [datetime] module: a date is a
    year, a month and a day; arithmetic goes through the ordinal of the
    day, 0001-01-01 being day 1, and leaves the supported range with an
    [OverflowError] (here [None]). *)

Module PyDate.

Record date := mkdate { year : Z; month : Z; day : Z }.

Definition MAXORDINAL : Z := 3652059.
Definition DI400Y : Z := 146097.
Definition DI100Y : Z := 36524.
Definition DI4Y : Z := 1461.

Definition DAYS_IN_MONTH : list Z :=
  [-1; 31; 28; 31; 30; 31; 30; 31; 31; 30; 31; 30; 31].
Definition DAYS_BEFORE_MONTH : list Z :=
  [-1; 0; 31; 59; 90; 120; 151; 181; 212; 243; 273; 304; 334].

Definition index (table : list Z) (i : Z) : Z :=
  default (-1) (table !! Z.to_nat i).

Definition is_leap (y : Z) : bool :=
  (y mod 4 =? 0) && (negb (y mod 100 =? 0) || (y mod 400 =? 0)).

Definition days_before_year (y : Z) : Z :=
  let y := y - 1 in y * 365 + y / 4 - y / 100 + y / 400.

Definition days_in_month (y m : Z) : Z :=
  if (m =? 2) && is_leap y then 29 else index DAYS_IN_MONTH m.

Definition days_before_month (y m : Z) : Z :=
  index DAYS_BEFORE_MONTH m + (if (2 <? m) && is_leap y then 1 else 0).

Definition ymd2ord (y m d : Z) : Z :=
  days_before_year y + days_before_month y m + d.

Definition ord2ymd (n : Z) : date :=
  let n := n - 1 in
  let n400 := n / DI400Y in
  let n := n mod DI400Y in
  let y := n400 * 400 + 1 in
  let n100 := n / DI100Y in
  let n := n mod DI100Y in
  let n4 := n / DI4Y in
  let n := n mod DI4Y in
  let n1 := n / 365 in
  let n := n mod 365 in
  let y := y + (n100 * 100 + n4 * 4 + n1) in
  if (n1 =? 4) || (n100 =? 4) then mkdate (y - 1) 12 31
  else
    let leapyear := (n1 =? 3) && (negb (n4 =? 24) || (n100 =? 3)) in
    let m := Z.shiftr (n + 50) 5 in
    let preceding :=
      index DAYS_BEFORE_MONTH m + (if (2 <? m) && leapyear then 1 else 0) in
    if n <? preceding then
      let m := m - 1 in
      let preceding :=
        preceding
        - (index DAYS_IN_MONTH m + (if (m =? 2) && leapyear then 1 else 0)) in
      mkdate y m (n - preceding + 1)
    else mkdate y m (n - preceding + 1).

Definition toordinal (d : date) : Z := ymd2ord (year d) (month d) (day d).

(** [d - timedelta(days=n)] *)
Definition sub_days (d : date) (n : Z) : option date :=
  let o := toordinal d + - n in
  if (0 <? o) && (o <=? MAXORDINAL) then Some (ord2ymd o) else None.

(** [d.isoformat()], that is ["%04d-%02d-%02d"]. *)
Definition isoformat (d : date) : str :=
  PyStr.zero_padded 4 (year d) ++ [45%N] ++ PyStr.zero_padded 2 (month d)
    ++ [45%N] ++ PyStr.zero_padded 2 (day d).

(** What the constructor of [date] accepts. *)
Definition valid (d : date) : Prop :=
  1 <= year d <= 9999 ∧ 1 <= month d <= 12
  ∧ 1 <= day d <= days_in_month (year d) (month d).

(** The same without the upper bound on the year. *)
Definition well_formed (d : date) : Prop :=
  1 <= year d ∧ 1 <= month d <= 12
  ∧ 1 <= day d <= days_in_month (year d) (month d).

Definition nonneg (d : date) : Prop :=
  0 <= year d ∧ 0 <= month d ∧ 0 <= day d.

Definition leap_days (y : Z) : Z := if is_leap y then 1 else 0.

(** The last lines of [ord2ymd]: month and day from the leap flag and the
    offset [n] in the year. *)
Definition month_day (leapyear : bool) (y n : Z) : date :=
  let m := Z.shiftr (n + 50) 5 in
  let preceding :=
    index DAYS_BEFORE_MONTH m + (if (2 <? m) && leapyear then 1 else 0) in
  if n <? preceding then
    let m := m - 1 in
    let preceding :=
      preceding
      - (index DAYS_IN_MONTH m + (if (m =? 2) && leapyear then 1 else 0)) in
    mkdate y m (n - preceding + 1)
  else mkdate y m (n - preceding + 1).

(** [days_before_month] and [days_in_month] from the leap flag. *)
Definition before_month (leap : bool) (m : Z) : Z :=
  index DAYS_BEFORE_MONTH m + (if (2 <? m) && leap then 1 else 0).
Definition in_month (leap : bool) (m : Z) : Z :=
  if (m =? 2) && leap then 29 else index DAYS_IN_MONTH m.

(** Every day [d] of every month [m], in a leap year or not, comes back
    from its offset in the year: a table of 2 x 12 x 31 entries. *)
Definition month_day_table_ok : bool :=
  forallb (λ leap, forallb (λ m, forallb (λ d,
      let r := before_month leap m + d - 1 in
      let x := month_day leap 0 r in
      negb (d <=? in_month leap m)
      || ((0 <=? r) && (r <? 365 + (if leap then 1 else 0))
          && (month x =? m) && (day x =? d)
          && (negb (r =? 365) || ((m =? 12) && (d =? 31)))))
    (seqZ 1 31)) (seqZ 1 12)) [true; false].

(** The day after [d]. *)
Definition next_day (d : date) : date :=
  if day d <? days_in_month (year d) (month d)
  then mkdate (year d) (month d) (day d + 1)
  else if month d <? 12 then mkdate (year d) (month d + 1) 1
  else mkdate (year d + 1) 1 1.

(** The date [i] days before [today]. *)
Definition days_ago (today : date) (i : Z) : date :=
  ord2ymd (toordinal today - i).

(** *** [datetime.datetime], naive *)

Record datetime := mkdatetime {
  dt_date : date;
  hour : Z;
  minute : Z;
  second : Z;
  microsecond : Z
}.

(** [_format_time(hh, mm, ss, us)] with the default [timespec]: the
    microseconds are left out when they are 0. *)
Definition format_time (hh mm ss us : Z) : str :=
  PyStr.zero_padded 2 hh ++ [58%N] ++ PyStr.zero_padded 2 mm ++ [58%N]
  ++ PyStr.zero_padded 2 ss
  ++ (if us =? 0 then [] else [46%N] ++ PyStr.zero_padded 6 us).

(** [t.isoformat()] *)
Definition datetime_isoformat (t : datetime) : str :=
  (isoformat (dt_date t) ++ [84%N])
  ++ format_time (hour t) (minute t) (second t) (microsecond t).

Definition datetime_valid (t : datetime) : Prop :=
  valid (dt_date t) ∧ 0 <= hour t < 24 ∧ 0 <= minute t < 60
  ∧ 0 <= second t < 60 ∧ 0 <= microsecond t < 1000000.

(** [a < b] on [datetime]s. *)
Definition datetime_lt (a b : datetime) : Prop :=
  lexico
    (year (dt_date a), (month (dt_date a), (day (dt_date a),
      (hour a, (minute a, (second a, microsecond a))))))
    (year (dt_date b), (month (dt_date b), (day (dt_date b),
      (hour b, (minute b, (second b, microsecond b)))))).

(** [t - timedelta(days=n)]: the time of day stays, the date goes [n]
    days back; [None] is the [OverflowError]. *)
Definition datetime_sub_days (t : datetime) (n : Z) : option datetime :=
  match sub_days (dt_date t) n with
  | Some d => Some (mkdatetime d (hour t) (minute t) (second t) (microsecond t))
  | None => None
  end.

(** [t.replace(hour=0, minute=0, second=0, microsecond=0)] *)
Definition start_of_day (t : datetime) : datetime :=
  mkdatetime (dt_date t) 0 0 0 0.

End PyDate.

(** ** Python dictionaries

    Insertion-ordered: iterating visits the keys in the order in which they
    were first inserted, [d[k] = v] keeps the position of a key that is
    already there. *)

Abbreviation dict K V := (list (K * V)).

Section PyDict.
Context {K V : Type} `{EqDecision K}.

(** [d.get(k)] *)
Fixpoint dict_get (d : dict K V) (k : K) : option V :=
  match d with
  | [] => None
  | (k', v) :: d' => if decide (k' = k) then Some v else dict_get d' k
  end.

(** [k in d] *)
Definition dict_mem (d : dict K V) (k : K) : bool :=
  match dict_get d k with Some _ => true | None => false end.

(** [d[k] = v] *)
Fixpoint dict_set (d : dict K V) (k : K) (v : V) : dict K V :=
  match d with
  | [] => [(k, v)]
  | (k', v') :: d' =>
      if decide (k' = k) then (k, v) :: d' else (k', v') :: dict_set d' k v
  end.

(** [del d[k]], for a key that is there *)
Definition dict_del (d : dict K V) (k : K) : dict K V :=
  filter (λ kv, kv.1 ≠ k) d.

(** [d.values()] *)
Definition dict_values (d : dict K V) : list V := d.*2.

(** [d.keys()] *)
Definition dict_keys (d : dict K V) : list K := d.*1.
End PyDict.

(** [l.sort(key=...)] with string keys: the stable sort, by insertion. *)
Section PySort.
Context {A : Type} (key : A → str).

Fixpoint insert_by (x : A) (l : list A) : list A :=
  match l with
  | [] => [x]
  | y :: l' =>
      if decide (lexico (key y) (key x)) then y :: insert_by x l' else x :: l
  end.

Definition sort_by (l : list A) : list A := foldr insert_by [] l.
End PySort.

(** ** [services/data_manager.py] *)

Module DataManager.
Import PyStr PyDate.

Record user := mkuser {
  user_user_id : Z;
  user_created_at : str;
  user_last_active : str;
  user_language : option str
}.

Record habit := mkhabit {
  habit_id : str;
  habit_user_id : Z;
  habit_name : str;
  habit_frequency : str;
  habit_created_at : str;
  habit_active : option bool;
  habit_deleted_at : option str
}.

Record checkin := mkcheckin {
  checkin_id : str;
  checkin_user_id : Z;
  checkin_habit_id : str;
  checkin_date : str;
  checkin_timestamp : str
}.

Record ban := mkban {
  ban_user_id : Z;
  ban_reason : str;
  ban_banned_by : Z;
  ban_banned_at : str
}.

(** [self.data] *)
Record t := mk {
  users : dict str user;
  habits : dict str habit;
  checkins : dict str checkin;
  banned_users : dict str ban;
  total_commands : Z
}.

(** [self.data] as [__init__] leaves it. *)
Definition init : t := mk [] [] [] [] 0.

Definition with_users (dm : t) (x : dict str user) : t :=
  mk x (habits dm) (checkins dm) (banned_users dm) (total_commands dm).
Definition with_habits (dm : t) (x : dict str habit) : t :=
  mk (users dm) x (checkins dm) (banned_users dm) (total_commands dm).
Definition with_checkins (dm : t) (x : dict str checkin) : t :=
  mk (users dm) (habits dm) x (banned_users dm) (total_commands dm).
Definition with_banned_users (dm : t) (x : dict str ban) : t :=
  mk (users dm) (habits dm) (checkins dm) x (total_commands dm).
Definition with_total_commands (dm : t) (x : Z) : t :=
  mk (users dm) (habits dm) (checkins dm) (banned_users dm) x.

(** The result of an operation that lets the exception of [_save_data]
    through to its caller. *)
Inductive completion := Returned | Raised.

Definition _save_data (save_ok : bool) : completion :=
  if save_ok then Returned else Raised.

(** What a [try: ...; await self._save_data(); return True] /
    [except Exception: return False] block returns. *)
Definition saved_or_false (save_ok : bool) : bool :=
  match _save_data save_ok with Returned => true | Raised => false end.

Definition get_user (dm : t) (user_id : Z) : option user :=
  dict_get (users dm) (str_of_int user_id).

(** [now1], [now2] and [now3] are the three reads of the clock, the first
    two made only for a new user. *)
Definition set_user_language (dm : t) (now1 now2 now3 : datetime)
    (save_ok : bool)
    (user_id : Z) (language : str) : t * completion :=
  let user_key := str_of_int user_id in
  let u :=
    match dict_get (users dm) user_key with
    | Some u => u
    | None =>
        mkuser user_id (datetime_isoformat now1) (datetime_isoformat now2) None
    end in
  let u := mkuser (user_user_id u) (user_created_at u) (user_last_active u)
             (Some language) in
  let u := mkuser (user_user_id u) (user_created_at u)
             (datetime_isoformat now3)
             (user_language u) in
  (with_users dm (dict_set (users dm) user_key u), _save_data save_ok).

Definition update_user_activity (dm : t) (now : datetime) (save_ok : bool)
    (user_id : Z) : t * completion :=
  let user_key := str_of_int user_id in
  match dict_get (users dm) user_key with
  | Some u =>
      let u := mkuser (user_user_id u) (user_created_at u)
                 (datetime_isoformat now)
                 (user_language u) in
      (with_users dm (dict_set (users dm) user_key u), _save_data save_ok)
  | None => (dm, Returned)
  end.

(** [uuid] is the identifier that [uuid.uuid4()] draws. *)
Definition add_habit (dm : t) (uuid : str) (now : datetime) (save_ok : bool)
    (user_id : Z) (name frequency : str) : t * bool :=
  let habit_id := uuid in
  let habit_data :=
    mkhabit habit_id user_id name frequency (datetime_isoformat now)
      (Some true) None in
  (with_habits dm (dict_set (habits dm) habit_id habit_data),
   saved_or_false save_ok).

(** [habit_data.get("active", True)] *)
Definition get_active (h : habit) : bool := default true (habit_active h).

Definition get_user_habits (dm : t) (user_id : Z) : list habit :=
  let user_habits :=
    filter (λ h, habit_user_id h = user_id ∧ get_active h = true)
      (dict_values (habits dm)) in
  sort_by habit_created_at user_habits.

Definition get_habit (dm : t) (user_id : Z) (habit_id : str) : option habit :=
  match dict_get (habits dm) habit_id with
  | Some h => if decide (habit_user_id h = user_id) then Some h else None
  | None => None
  end.

Definition delete_habit (dm : t) (now : datetime) (save_ok : bool)
    (user_id : Z) (habit_id : str) : t * bool :=
  match get_habit dm user_id habit_id with
  | Some h =>
      let h := mkhabit (DataManager.habit_id h) (habit_user_id h)
                 (habit_name h) (habit_frequency h) (habit_created_at h)
                 (Some false) (Some (datetime_isoformat now)) in
      (with_habits dm (dict_set (habits dm) habit_id h),
       saved_or_false save_ok)
  | None => (dm, false)
  end.

(** [f"{habit_id}_{day}"] *)
Definition checkin_key (habit_id day : str) : str :=
  habit_id ++ [95%N] ++ day.

(** [today] is the date [date.today()] returns, [now] the timestamp. *)
Definition record_checkin (dm : t) (today : date) (now : datetime)
    (save_ok : bool) (user_id : Z) (habit_id : str) : t * bool :=
  let today := isoformat today in
  let checkin_id := checkin_key habit_id today in
  if dict_mem (checkins dm) checkin_id then (dm, false)
  else
    let checkin_data :=
      mkcheckin checkin_id user_id habit_id today (datetime_isoformat now) in
    (with_checkins dm (dict_set (checkins dm) checkin_id checkin_data),
     saved_or_false save_ok).

Definition is_checked_in_today (dm : t) (today : date)
    (user_id : Z) (habit_id : str) : bool :=
  let today := isoformat today in
  let checkin_id := checkin_key habit_id today in
  match dict_get (checkins dm) checkin_id with
  | Some c => bool_decide (checkin_user_id c = user_id)
  | None => false
  end.

(** The body of [for i in range(365)], from the indices still to visit:
    [None] is the [OverflowError] of the date subtraction. *)
Fixpoint streak_loop (dm : t) (current_date : date) (user_id : Z)
    (habit_id : str) (range : list Z) (streak : Z) : option Z :=
  match range with
  | [] => Some streak
  | i :: range' =>
      match sub_days current_date i with
      | None => None
      | Some check_date =>
          let checkin_id := checkin_key habit_id (isoformat check_date) in
          match dict_get (checkins dm) checkin_id with
          | Some c =>
              if decide (checkin_user_id c = user_id)
              then streak_loop dm current_date user_id habit_id range'
                     (streak + 1)
              else Some streak
          | None => Some streak
          end
      end
  end.

Definition get_current_streak (dm : t) (today : date)
    (user_id : Z) (habit_id : str) : Z :=
  match streak_loop dm today user_id habit_id (seqZ 0 365) 0 with
  | Some streak => streak
  | None => 0
  end.

Definition get_total_checkins (dm : t) (user_id : Z) (habit_id : str) : Z :=
  foldl
    (λ count c,
       if decide (checkin_user_id c = user_id ∧ checkin_habit_id c = habit_id)
       then count + 1 else count)
    0 (dict_values (checkins dm)).

Definition ban_user (dm : t) (now : datetime) (save_ok : bool)
    (user_id : Z) (reason : str) (banned_by : Z) : t * bool :=
  let user_key := str_of_int user_id in
  (with_banned_users dm
     (dict_set (banned_users dm) user_key
        (mkban user_id reason banned_by (datetime_isoformat now))),
   saved_or_false save_ok).

Definition unban_user (dm : t) (save_ok : bool)
    (user_id unbanned_by : Z) : t * bool :=
  let user_key := str_of_int user_id in
  if dict_mem (banned_users dm) user_key
  then (with_banned_users dm (dict_del (banned_users dm) user_key),
        saved_or_false save_ok)
  else (dm, false).

Definition is_user_banned (dm : t) (user_id : Z) : bool :=
  dict_mem (banned_users dm) (str_of_int user_id).

Definition get_ban_status (dm : t) (user_id : Z) : bool * option ban :=
  let ban_info := dict_get (banned_users dm) (str_of_int user_id) in
  (bool_decide (is_Some ban_info), ban_info).

Definition increment_command_count (dm : t) (save_ok : bool) : t * completion :=
  (with_total_commands dm (total_commands dm + 1), _save_data save_ok).

(** The two functions below read time stamps back with
    [datetime.fromisoformat], which is taken as it comes: any function
    from strings to naive time stamps, [None] where parsing, or comparing
    what was parsed with a naive time stamp, raises. *)
Section reading_time_stamps.
Variable fromisoformat : str → option datetime.

(** [None] is the exception that leaves the function: the
    [OverflowError] of the subtraction or what [fromisoformat] raises. *)
Definition get_all_active_users (dm : t) (now : datetime)
    : option (list user) :=
  match datetime_sub_days now 7 with
  | None => None
  | Some week_ago =>
      foldl
        (λ acc user_data,
           match acc with
           | None => None
           | Some active_users =>
               if is_user_banned dm (user_user_id user_data)
               then Some active_users
               else
                 match user_last_active user_data with
                 | [] => Some active_users
                 | _ :: _ =>
                     match fromisoformat (user_last_active user_data) with
                     | None => None
                     | Some last_active =>
                         if decide (datetime_lt last_active week_ago)
                         then Some active_users
                         else Some (active_users ++ [user_data])
                     end
                 end
           end)
        (Some []) (dict_values (users dm))
  end.

(** What [get_bot_statistics] returns.  [stats_avg_habits_per_user]
    holds the two operands of the division, of which the code returns
    the quotient as a [float]. *)
Record statistics := mkstatistics {
  stats_total_users : Z;
  stats_active_users_7d : Z;
  stats_new_users_today : Z;
  stats_russian_users : Z;
  stats_english_users : Z;
  stats_total_habits : Z;
  stats_active_habits : Z;
  stats_most_popular_frequency : str;
  stats_total_checkins : Z;
  stats_checkins_today : Z;
  stats_avg_habits_per_user : Z * Z;
  stats_banned_users : Z;
  stats_total_commands : Z
}.

(** [count + 1] when the time stamp, if there is one, is not before
    [since], and [count] otherwise; [None] when reading it raises. *)
Definition count_since (stamp : str) (since : datetime) (count : Z)
    : option Z :=
  match stamp with
  | [] => Some count
  | _ :: _ =>
      match fromisoformat stamp with
      | None => None
      | Some at_ =>
          if decide (datetime_lt at_ since) then Some count
          else Some (count + 1)
      end
  end.

(** The loop over the habits that fills [frequency_count]. *)
Definition frequency_count (dm : t) : dict str Z :=
  foldl
    (λ frequency_count habit,
       if get_active habit then
         let freq := habit_frequency habit in
         dict_set frequency_count freq
           (default 0 (dict_get frequency_count freq) + 1)
       else frequency_count)
    [] (dict_values (habits dm)).

(** [max(d, key=d.get)] for a dictionary that is not empty: the first
    of the keys with the greatest value. *)
Definition max_key (d : dict str Z) : option str :=
  match dict_keys d with
  | [] => None
  | k :: ks =>
      Some (foldl
              (λ best k,
                 if decide (default 0 (dict_get d best)
                            < default 0 (dict_get d k))
                 then k else best)
              k ks)
  end.

(** [now] and [today] are what [datetime.now()] and [date.today()]
    return; [None] is the empty dictionary that is returned when an
    exception was raised. *)
Definition get_bot_statistics (dm : t) (now : datetime) (today : date)
    : option statistics :=
  match datetime_sub_days now 7 with
  | None => None
  | Some week_ago =>
      let today_start := start_of_day now in
      let total_users := Z.of_nat (length (users dm)) in
      let counted :=
        foldl
          (λ acc user_data,
             match acc with
             | None => None
             | Some (active_users_7d, new_users_today, russian_users,
                     english_users) =>
                 match count_since (user_last_active user_data) week_ago
                         active_users_7d with
                 | None => None
                 | Some active_users_7d =>
                     match count_since (user_created_at user_data)
                             today_start new_users_today with
                     | None => None
                     | Some new_users_today =>
                         let lang :=
                           default (lit "en") (user_language user_data) in
                         if decide (lang = lit "ru")
                         then Some (active_users_7d, new_users_today,
                                    russian_users + 1, english_users)
                         else Some (active_users_7d, new_users_today,
                                    russian_users, english_users + 1)
                     end
                 end
             end)
          (Some (0, 0, 0, 0)) (dict_values (users dm)) in
      match counted with
      | None => None
      | Some (active_users_7d, new_users_today, russian_users,
              english_users) =>
          let active_habits :=
            Z.of_nat (length (filter (λ h, get_active h = true)
                                (dict_values (habits dm)))) in
          let total_habits := Z.of_nat (length (habits dm)) in
          let most_popular_frequency :=
            default (lit "daily") (max_key (frequency_count dm)) in
          let total_checkins := Z.of_nat (length (checkins dm)) in
          let today_str := isoformat today in
          let checkins_today :=
            foldl
              (λ checkins_today checkin,
                 if decide (checkin_date checkin = today_str)
                 then checkins_today + 1 else checkins_today)
              0 (dict_values (checkins dm)) in
          let avg_habits_per_user := (active_habits, Z.max total_users 1) in
          Some (mkstatistics total_users active_users_7d new_users_today
                  russian_users english_users total_habits active_habits
                  most_popular_frequency total_checkins checkins_today
                  avg_habits_per_user
                  (Z.of_nat (length (banned_users dm)))
                  (total_commands dm))
      end
  end.

End reading_time_stamps.

(** One mutating operation of the store, for any reads of the clock, any
    drawn identifier and any outcome of the file write.  ([_load_data]
    brings back what [_save_data] wrote, a state gone through before.) *)
Inductive step : t → t → Prop :=
| step_set_user_language dm n1 n2 n3 ok u l :
    step dm (set_user_language dm n1 n2 n3 ok u l).1
| step_update_user_activity dm now ok u :
    step dm (update_user_activity dm now ok u).1
| step_add_habit dm uuid now ok u name freq :
    step dm (add_habit dm uuid now ok u name freq).1
| step_delete_habit dm now ok u h :
    step dm (delete_habit dm now ok u h).1
| step_record_checkin dm today now ok u h :
    step dm (record_checkin dm today now ok u h).1
| step_ban_user dm now ok u reason by_ :
    step dm (ban_user dm now ok u reason by_).1
| step_unban_user dm ok u by_ :
    step dm (unban_user dm ok u by_).1
| step_increment_command_count dm ok :
    step dm (increment_command_count dm ok).1.

(** The states the store goes through, started empty. *)
Definition reachable (dm : t) : Prop := rtc step init dm.

(** *** Vocabulary of the properties *)

(** The habit and the day a check-in record is for. *)
Definition checkin_slot (c : checkin) : str * str :=
  (checkin_habit_id c, checkin_date c).

(** No two check-in records for one habit and one day. *)
Definition at_most_one_checkin (dm : t) : Prop :=
  NoDup (checkin_slot <$> dict_values (checkins dm)).

(** Every check-in record sits under the key made of its own habit and
    day, and no key is there twice. *)
Definition checkins_well_keyed (dm : t) : Prop :=
  NoDup (dict_keys (checkins dm))
  ∧ Forall (λ kv, kv.1 = checkin_key (checkin_habit_id kv.2) (checkin_date kv.2))
      (checkins dm).

(** The date of every check-in record was written by [isoformat]. *)
Definition checkins_dated (dm : t) : Prop :=
  Forall (λ kv, ∃ d, checkin_date kv.2 = isoformat d) (checkins dm).

(** The store holds a check-in of [user_id] for [habit_id] on day [d]. *)
Definition checked_in (dm : t) (user_id : Z) (habit_id : str) (d : date)
    : Prop :=
  ∃ c, dict_get (checkins dm) (checkin_key habit_id (isoformat d)) = Some c
       ∧ checkin_user_id c = user_id.

(** The habits [get_user_habits] keeps. *)
Definition listed (user_id : Z) (h : habit) : Prop :=
  habit_user_id h = user_id ∧ get_active h = true.

(** *** Sample data *)

Definition sample_today : date := mkdate 2024 3 1.
Definition sample_now : datetime := mkdatetime sample_today 8 0 0 0.
Definition sample_later : datetime := mkdatetime (mkdate 2024 3 2) 9 0 0 0.
Definition sample_habit : str := lit "h1".

(** User 1 checks in for [sample_habit] on each of the [n] days up to
    [sample_today]. *)
Definition sample_run (n : Z) : t :=
  foldl (λ dm i,
           (record_checkin dm (days_ago sample_today i) sample_now true 1
              sample_habit).1)
        init (reverse (seqZ 0 n)).

(** One habit of user 1, created by [add_habit]. *)
Definition sample_store : t :=
  (add_habit init sample_habit sample_now true 1 (lit "Read") (lit "daily")).1.

(** The record [add_habit] has stored in [sample_store]. *)
Definition sample_record : habit :=
  mkhabit sample_habit 1 (lit "Read") (lit "daily")
    (datetime_isoformat sample_now) (Some true) None.

(** User 1 has checked in for [sample_habit] on [sample_today]. *)
Definition sample_checked : t :=
  (record_checkin init sample_today sample_now true 1 sample_habit).1.

(** User 42 is banned. *)
Definition sample_banned : t :=
  (ban_user init sample_now true 42 (lit "spam") 1).1.

(** Users 1 and 2 have chosen a language. *)
Definition sample_two_users : t :=
  (set_user_language
     (set_user_language init sample_now sample_now sample_now true 1
        (lit "en")).1
     sample_now sample_now sample_now true 2 (lit "ru")).1.

(** And user 2 is banned. *)
Definition sample_users : t :=
  (ban_user sample_two_users sample_later true 2 (lit "spam") 1).1.


End DataManager.


(** ** [keyboards/inline.py] *)

Module Keyboards.
Import PyStr DataManager.

Record InlineKeyboardButton := mkbutton {
  text : str;
  callback_data : str
}.

(** A keyboard is the list of its rows.  [cancel_text] is the text that
    [localization.get_text("cancel_button", lang)] gives. *)
Definition get_habits_keyboard (cancel_text : str) (habits : list habit)
    (action : str) : list (list InlineKeyboardButton) :=
  let keyboard_buttons :=
    (λ habit,
       let habit_id := habit_id habit in
       let habit_name := habit_name habit in
       let frequency := habit_frequency habit in
       let display_name :=
         if decide (length habit_name ≤ 25)%nat then habit_name
         else take 22 habit_name ++ lit "..." in
       let button_text := display_name ++ lit " (" ++ frequency ++ lit ")" in
       let callback_data := action ++ [95%N] ++ habit_id in
       [mkbutton button_text callback_data]) <$> habits in
  keyboard_buttons ++ [[mkbutton cancel_text (lit "cancel")]].

(** The [callback_data] of the buttons, row after row. *)
Definition keyboard_data (keyboard : list (list InlineKeyboardButton))
    : list str :=
  callback_data <$> concat keyboard.

End Keyboards.

(** ** [routers/commands.py]: the handlers of the habit dialogue *)

Module Commands.
Import PyStr.

(** [states/habit_states.py] *)
Inductive HabitCreationStates :=
| waiting_for_name
| waiting_for_frequency
| confirming_creation.

(** The [FSMContext] of one user: the current state and, of the data
    bag, the one key the dialogue uses. *)
Record FSMContext := mkfsm {
  fsm_state : option HabitCreationStates;
  fsm_habit_name : option str
}.

(** The localisation key of the answer that is sent. *)
Inductive answer :=
| habit_name_length_error
| add_habit_frequency_prompt.

(** The handler registered for [waiting_for_name]; [text] is
    [message.text], which is [None] for a message without text, and
    [None] as a result is the [AttributeError] of [None.strip()]. *)
Definition process_habit_name (text : option str) (state : FSMContext)
    : option (FSMContext * answer) :=
  match text with
  | None => None
  | Some text =>
      let habit_name := strip text in
      if decide (length habit_name < 2 ∨ 50 < length habit_name)%nat
      then Some (state, habit_name_length_error)
      else
        let state := mkfsm (fsm_state state) (Some habit_name) in
        let state := mkfsm (Some waiting_for_frequency) (fsm_habit_name state) in
        Some (state, add_habit_frequency_prompt)
  end.

(** The values of [frequency_map] in [process_habit_frequency]. *)
Definition FREQUENCIES : list str :=
  [lit "daily"; lit "weekly"; lit "3_times_week"].

(** [cmd_add_habit]: the dialogue starts, the data bag is left alone. *)
Definition cmd_add_habit (state : FSMContext) : FSMContext :=
  mkfsm (Some waiting_for_name) (fsm_habit_name state).

(** [frequency_map] in [process_habit_frequency]; the keys in Russian are
    written by their code points. *)
Definition frequency_map : dict str str :=
  [ (lit "daily", lit "daily");
    ([1082; 1072; 1078; 1076; 1099; 1081; 32; 1076; 1077; 1085; 1100]%N,
     lit "daily");
    ([1077; 1078; 1077; 1076; 1085; 1077; 1074; 1085; 1086]%N, lit "daily");
    (lit "weekly", lit "weekly");
    ([1077; 1078; 1077; 1085; 1077; 1076; 1077; 1083; 1100; 1085; 1086]%N,
     lit "weekly");
    ([1088; 1072; 1079; 32; 1074; 32; 1085; 1077; 1076; 1077; 1083; 1102]%N,
     lit "weekly");
    (lit "3 times a week", lit "3_times_week");
    ([51; 32; 1088; 1072; 1079; 1072; 32; 1074; 32; 1085; 1077; 1076; 1077;
      1083; 1102]%N,
     lit "3_times_week") ].

(** What the handlers below answer: the localisation key of the text and
    what is filled in. *)
Inductive frequency_answer :=
| invalid_frequency_error
| habit_created_success (habit_name frequency : str)
| habit_creation_error.

Inductive checkin_answer :=
| already_checked_in
| checkin_success (habit_name : str) (quote : option str)
| checkin_error.

Inductive deletion_answer :=
| habit_not_found
| habit_deleted_success (habit_name : str)
| habit_deletion_error.

Section handlers.
Import DataManager PyDate.

(** [str.lower], taken as it comes. *)
Variable lower : str → str.

(** The handler registered for [waiting_for_frequency].  [None] is the
    exception that leaves the handler: the [AttributeError] for a message
    without text, the [KeyError] for a data bag without the name. *)
Definition process_habit_frequency (dm : DataManager.t) (uuid : str)
    (now : datetime) (save_ok : bool) (user_id : Z) (text : option str)
    (state : FSMContext)
    : option (DataManager.t * FSMContext * frequency_answer) :=
  match text with
  | None => None
  | Some text =>
      let frequency_text := lower (strip text) in
      match dict_get frequency_map frequency_text with
      | None | Some [] => Some (dm, state, invalid_frequency_error)
      | Some frequency =>
          match fsm_habit_name state with
          | None => None
          | Some habit_name =>
              let '(dm, success) :=
                add_habit dm uuid now save_ok user_id habit_name frequency in
              let reply :=
                if success then habit_created_success habit_name frequency
                else habit_creation_error in
              Some (dm, mkfsm None None, reply)
          end
      end
  end.

End handlers.

(** [callback.data.split("_")[1]]; [None] is the [IndexError]. *)
Definition callback_arg (data : str) : option str :=
  split 95%N data !! 1%nat.

(** The handler of the callback queries whose data start with
    ["checkin_"].  [today1] and [today2] are the dates that
    [is_checked_in_today] and [record_checkin] read, [quote] is what
    [quote_client.get_random_quote()] returns. *)
Definition process_habit_checkin (dm : DataManager.t)
    (today1 today2 : PyDate.date) (now : PyDate.datetime) (save_ok : bool)
    (quote : option str) (user_id : Z) (data : str)
    : option (DataManager.t * checkin_answer) :=
  match callback_arg data with
  | None => None
  | Some habit_id =>
      let already_checked :=
        DataManager.is_checked_in_today dm today1 user_id habit_id in
      if already_checked then Some (dm, already_checked_in)
      else
        let '(dm, success) :=
          DataManager.record_checkin dm today2 now save_ok user_id habit_id in
        if success then
          let habit := DataManager.get_habit dm user_id habit_id in
          let habit_name :=
            match habit with
            | Some h => DataManager.habit_name h
            | None => lit "Unknown"
            end in
          let quote :=
            match quote with
            | Some (c :: q) => Some (c :: q)
            | _ => None
            end in
          Some (dm, checkin_success habit_name quote)
        else Some (dm, checkin_error)
  end.

(** The handler of the callback queries whose data start with
    ["delete_"]. *)
Definition process_habit_deletion (dm : DataManager.t)
    (now : PyDate.datetime) (save_ok : bool) (user_id : Z) (data : str)
    : option (DataManager.t * deletion_answer) :=
  match callback_arg data with
  | None => None
  | Some habit_id =>
      match DataManager.get_habit dm user_id habit_id with
      | None => Some (dm, habit_not_found)
      | Some habit =>
          let '(dm, success) :=
            DataManager.delete_habit dm now save_ok user_id habit_id in
          if success
          then Some (dm, habit_deleted_success (DataManager.habit_name habit))
          else Some (dm, habit_deletion_error)
      end
  end.

End Commands.

(** ** [middlewares/throttling.py] *)

(** What the middlewares look at in an update. *)
Inductive event_type := Message | CallbackQuery | OtherUpdate.

Record event := mkevent {
  event_kind : event_type;
  from_user : option Z
}.

(** The first lines of both [__call__]s. *)
Definition event_user_id (e : event) : option Z :=
  match event_kind e with
  | Message => from_user e
  | CallbackQuery => from_user e
  | OtherUpdate => None
  end.

(** A message of user 7. *)
Definition sample_event : event := mkevent Message (Some 7).

Definition SECOND : Z := 1000000.
Definition HOUR : Z := 3600 * SECOND.

Module ThrottlingMiddleware.

Record t := mk {
  rate_limit : Z;               (* seconds *)
  user_requests : gmap Z Z
}.

(** [__init__] with the [THROTTLE_RATE_LIMIT] of [config/settings.py]. *)
Definition init : t := mk 1 ∅.

(** What [__call__] does with the update: it calls the handler, or it
    drops the update after answering with the time left to wait. *)
Inductive outcome :=
| Handled
| Dropped (wait_time : Z).

(** The wait time of the message that is sent. *)
Definition _send_throttling_message (s : t) (time_diff : Z) : Z :=
  rate_limit s * SECOND - time_diff.

(** [None] for [False]; [Some w] for [True], the message with wait time
    [w] having been sent. *)
Definition _is_rate_limited (s : t) (user_id now : Z) : option Z :=
  match user_requests s !! user_id with
  | None => None
  | Some last_request =>
      let time_diff := now - last_request in
      if decide (time_diff < rate_limit s * SECOND)
      then Some (_send_throttling_message s time_diff)
      else None
  end.

Definition _cleanup_old_entries (s : t) (now : Z) : t :=
  let cutoff_time := now - HOUR in
  let users_to_remove :=
    (filter (λ kv, kv.2 < cutoff_time) (map_to_list (user_requests s))).*1 in
  mk (rate_limit s)
     (foldl (λ m user_id, delete user_id m) (user_requests s) users_to_remove).

(** [t_check], [t_store] and [t_clean] are the reads of the clock in
    [_is_rate_limited], in [__call__] and in [_cleanup_old_entries]. *)
Definition __call__ (s : t) (e : event) (t_check t_store t_clean : Z)
    : t * outcome :=
  match event_user_id e with
  | None => (s, Handled)
  | Some user_id =>
      match _is_rate_limited s user_id t_check with
      | Some wait_time => (s, Dropped wait_time)
      | None =>
          let s := mk (rate_limit s) (<[user_id := t_store]> (user_requests s)) in
          let s := _cleanup_old_entries s t_clean in
          (s, Handled)
      end
  end.

(** One update with the three reads of the clock of its [__call__]. *)
Record call := mkcall {
  call_event : event;
  call_t_check : Z;
  call_t_store : Z;
  call_t_clean : Z
}.

(** [__call__] on one update after the other: what becomes of each. *)
Fixpoint run (s : t) (calls : list call) : list outcome :=
  match calls with
  | [] => []
  | c :: calls' =>
      let '(s, o) :=
        __call__ s (call_event c) (call_t_check c) (call_t_store c)
          (call_t_clean c) in
      o :: run s calls'
  end.

(** The clock does not go back: the reads are in order, from [t0] on. *)
Fixpoint clock_monotone (t0 : Z) (calls : list call) : Prop :=
  match calls with
  | [] => True
  | c :: calls' =>
      t0 <= call_t_check c ∧ call_t_check c <= call_t_store c
      ∧ call_t_store c <= call_t_clean c
      ∧ clock_monotone (call_t_clean c) calls'
  end.

(** Three messages of user 7, at 0 s, 0.5 s and 1.5 s. *)
Definition sample_calls : list call :=
  [ mkcall sample_event 0 0 0;
    mkcall sample_event 500000 500000 500000;
    mkcall sample_event 1500000 1500000 1500000 ].

End ThrottlingMiddleware.

Module AntiFloodMiddleware.

Record t := mk {
  flood_threshold : Z;
  flood_window : Z;             (* seconds *)
  user_message_count : gmap Z (list Z);
  penalties : gmap Z Z
}.

(** [__init__] with its default arguments. *)
Definition init : t := mk 5 10 ∅ ∅.

Definition with_user_message_count (s : t) (x : gmap Z (list Z)) : t :=
  mk (flood_threshold s) (flood_window s) x (penalties s).
Definition with_penalties (s : t) (x : gmap Z Z) : t :=
  mk (flood_threshold s) (flood_window s) (user_message_count s) x.

(** The update is handled, dropped because the user is serving a
    penalty, or dropped with a new penalty of that many seconds. *)
Inductive outcome :=
| Handled
| Penalized
| Flood (penalty_duration : Z).

Definition _is_penalized (s : t) (user_id now : Z) : t * bool :=
  match penalties s !! user_id with
  | None => (s, false)
  | Some penalty_end =>
      if decide (penalty_end <= now)
      then (with_penalties s (delete user_id (penalties s)), false)
      else (s, true)
  end.

(** Returns the duration, in seconds, that the answer announces. *)
Definition _apply_penalty (s : t) (user_id now : Z) : t * Z :=
  let penalty_duration := 30 in
  let penalty_duration :=
    if decide (is_Some (penalties s !! user_id))
    then Z.min (penalty_duration * 3) 900
    else penalty_duration in
  let penalty_end := now + penalty_duration * SECOND in
  (with_penalties s (<[user_id := penalty_end]> (penalties s)),
   penalty_duration).

(** [t_pen], [now] and [t_apply] are the reads of the clock in
    [_is_penalized], in [__call__] and in [_apply_penalty]. *)
Definition __call__ (s : t) (e : event) (t_pen now t_apply : Z)
    : t * outcome :=
  match event_user_id e with
  | None => (s, Handled)
  | Some user_id =>
      let '(s, penalized) := _is_penalized s user_id t_pen in
      if penalized then (s, Penalized)
      else
        let s :=
          if decide (is_Some (user_message_count s !! user_id)) then s
          else with_user_message_count s
                 (<[user_id := []]> (user_message_count s)) in
        let window :=
          filter (λ msg_time, now - msg_time <= flood_window s * SECOND)
            (default [] (user_message_count s !! user_id)) in
        let s := with_user_message_count s
                   (<[user_id := window]> (user_message_count s)) in
        let window := default [] (user_message_count s !! user_id) ++ [now] in
        let s := with_user_message_count s
                   (<[user_id := window]> (user_message_count s)) in
        if decide (flood_threshold s
                   < Z.of_nat (length (default [] (user_message_count s !! user_id))))
        then
          let '(s, penalty_duration) := _apply_penalty s user_id t_apply in
          (s, Flood penalty_duration)
        else (s, Handled)
  end.

(** The window [__call__] has stored for the user when it tests the
    threshold. *)
Definition window_after (s : t) (user_id now : Z) : list Z :=
  filter (λ msg_time, now - msg_time <= flood_window s * SECOND)
    (default [] (user_message_count s !! user_id))
  ++ [now].

(** Six messages, one second apart. *)
Definition sample_times : list Z :=
  [0; SECOND; 2 * SECOND; 3 * SECOND; 4 * SECOND; 5 * SECOND].

(** Messages of one user at the given times, every read of the clock
    within one call giving the same time. *)
Definition run (s : t) (user_id : Z) (times : list Z) : t * list outcome :=
  foldl (λ '(s, os) now,
           let '(s, o) := __call__ s (mkevent Message (Some user_id)) now now now in
           (s, os ++ [o]))
        (s, []) times.

(** One update with the three reads of the clock of its [__call__]. *)
Record call := mkcall {
  call_event : event;
  call_t_pen : Z;
  call_now : Z;
  call_t_apply : Z
}.

(** [__call__] on one update after the other: what becomes of each. *)
Fixpoint run_calls (s : t) (calls : list call) : list outcome :=
  match calls with
  | [] => []
  | c :: calls' =>
      let '(s, o) :=
        __call__ s (call_event c) (call_t_pen c) (call_now c)
          (call_t_apply c) in
      o :: run_calls s calls'
  end.

(** The clock does not go back: the reads are in order, from [t0] on. *)
Fixpoint clock_monotone (t0 : Z) (calls : list call) : Prop :=
  match calls with
  | [] => True
  | c :: calls' =>
      t0 <= call_t_pen c ∧ call_t_pen c <= call_now c
      ∧ call_now c <= call_t_apply c
      ∧ clock_monotone (call_t_apply c) calls'
  end.

(** The times of the updates of the user [u] that were handled. *)
Fixpoint handled_times (u : Z) (calls : list call) (outcomes : list outcome)
    : list Z :=
  match calls, outcomes with
  | c :: calls', o :: outcomes' =>
      match o with
      | Handled =>
          if decide (event_user_id (call_event c) = Some u)
          then call_now c :: handled_times u calls' outcomes'
          else handled_times u calls' outcomes'
      | _ => handled_times u calls' outcomes'
      end
  | _, _ => []
  end.

(** Seven messages of user 7, one second apart. *)
Definition sample_calls : list call :=
  (λ i, mkcall sample_event (i * SECOND) (i * SECOND) (i * SECOND))
  <$> [0; 1; 2; 3; 4; 5; 6].

(** User 7 after five messages one second apart, and after the sixth,
    which brings the penalty. *)
Definition sample_before_flood : t := (run init 7 (take 5 sample_times)).1.
Definition sample_flooded : t :=
  (__call__ sample_before_flood sample_event
     (5 * SECOND) (5 * SECOND) (5 * SECOND)).1.

End AntiFloodMiddleware.


(** ** [services/api_client.py]: the quote client and its cache *)

Module QuoteAPIClient.
Import PyStr.

(** [settings.QUOTE_CACHE_DURATION], in seconds. *)
Definition QUOTE_CACHE_DURATION : Z := 12 * 60 * 60.

Record cached_item := mkitem {
  data : str;
  expires_at : Z;
  cached_at : Z
}.

Record t := mk {
  cache : dict str cached_item
}.

Definition init : t := mk [].


(** What becomes of [_fetch_quote_from_api()]: it returns a quote or
    [None], or it raises. *)
Inductive fetch :=
| Returns (quote : option str)
| Raises.

Definition _is_cache_valid (s : t) (cache_key : str) (now : Z) : bool :=
  match dict_get (cache s) cache_key with
  | None => false
  | Some cached_item => bool_decide (now < expires_at cached_item)
  end.

(** [now1] and [now2] are the two reads of the clock. *)
Definition _cache_quote (s : t) (cache_key quote : str) (now1 now2 : Z) : t :=
  let expires_at := now1 + QUOTE_CACHE_DURATION * SECOND in
  mk (dict_set (cache s) cache_key (mkitem quote expires_at now2)).

(** [fallback] is the quote that [random.choice(self.fallback_quotes)]
    draws. *)
Definition _get_fallback_quote (fallback : str) : str := fallback.

(** [t_valid], [t_exp] and [t_cached] are the reads of the clock in
    [_is_cache_valid] and in [_cache_quote], [fetched] is what becomes of
    the request.  The result is the [Optional[str]] returned;
    [self.cache[cache_key]["data"]] finds the key, which
    [_is_cache_valid] has just seen. *)
Definition get_random_quote (s : t) (t_valid : Z) (fetched : fetch)
    (t_exp t_cached : Z) (fallback : str) : t * option str :=
  let cache_key := lit "random_quote" in
  if _is_cache_valid s cache_key t_valid
  then (s, data <$> dict_get (cache s) cache_key)
  else
    match fetched with
    | Returns (Some (c :: q)) =>
        let quote := c :: q in
        (_cache_quote s cache_key quote t_exp t_cached, Some quote)
    | Returns _ => (s, Some (_get_fallback_quote fallback))
    | Raises => (s, Some (_get_fallback_quote fallback))
    end.


End QuoteAPIClient.

(** * Properties *)

(** ** Dictionaries *)

Section dict_facts.
Context {K V : Type} `{EqDecision K}.
Implicit Types (d : dict K V) (k : K) (v : V).

Lemma dict_get_set_eq d k v : dict_get (dict_set d k v) k = Some v.
Proof.
  induction d as [|[k' v'] d IH]; cbn.
  - by rewrite decide_True.
  - destruct (decide (k' = k)); cbn.
    + by rewrite decide_True.
    + by rewrite decide_False.
Qed.

Lemma dict_get_set_ne d k k' v :
  k ≠ k' → dict_get (dict_set d k v) k' = dict_get d k'.
Proof.
  intros Hne. induction d as [|[k0 v0] d IH]; cbn.
  - by rewrite decide_False.
  - destruct (decide (k0 = k)) as [->|]; cbn.
    + by rewrite !decide_False.
    + by rewrite IH.
Qed.

Lemma dict_get_None d k : dict_get d k = None ↔ k ∉ dict_keys d.
Proof.
  unfold dict_keys. induction d as [|[k' v'] d IH]; cbn.
  - split; [intros _; apply not_elem_of_nil|done].
  - rewrite not_elem_of_cons. destruct (decide (k' = k)) as [Heq|Hne].
    + split; [done|]. intros [Hk _]. by destruct Hk.
    + rewrite IH. split; [done|]. by intros [_ ?].
Qed.

Lemma dict_get_Some_elem d k v : dict_get d k = Some v → (k, v) ∈ d.
Proof.
  induction d as [|[k' v'] d IH]; cbn; [done|].
  destruct (decide (k' = k)) as [->|].
  - intros [= ->]. by left.
  - intros. right. auto.
Qed.

Lemma dict_mem_true d k : dict_mem d k = true ↔ is_Some (dict_get d k).
Proof.
  unfold dict_mem. by destruct (dict_get d k).
Qed.

Lemma dict_mem_false d k : dict_mem d k = false ↔ dict_get d k = None.
Proof. unfold dict_mem. by destruct (dict_get d k). Qed.

(** A new key goes to the end. *)
Lemma dict_set_fresh d k v : dict_get d k = None → dict_set d k v = d ++ [(k, v)].
Proof.
  induction d as [|[k' v'] d IH]; cbn; [done|].
  destruct (decide (k' = k)); [done|]. intros. by rewrite IH.
Qed.

(** A key that is there keeps its place, and the other entries stay. *)
Lemma dict_set_keys d k v :
  is_Some (dict_get d k) → dict_keys (dict_set d k v) = dict_keys d.
Proof.
  unfold dict_keys. induction d as [|[k' v'] d IH]; cbn.
  - by intros [? ?].
  - destruct (decide (k' = k)) as [->|]; cbn; [done|]. intros. by rewrite IH.
Qed.

Lemma dict_set_elem_other d k v old x :
  dict_get d k = Some old → x ∈ d → x ≠ (k, old) → x ∈ dict_set d k v.
Proof.
  induction d as [|[k' v'] d IH]; cbn; [done|].
  destruct (decide (k' = k)) as [->|].
  - intros [= ->] Hx Hne. apply elem_of_cons in Hx as [->|Hx]; [done|]. by right.
  - intros Hg Hx Hne. apply elem_of_cons in Hx as [->|Hx]; [by left|].
    right. by apply IH.
Qed.


Lemma dict_get_del_eq d k : dict_get (dict_del d k) k = None.
Proof.
  apply dict_get_None. unfold dict_del, dict_keys.
  intros Hin. apply list_elem_of_fmap in Hin as ([k' v'] & -> & Hin).
  apply list_elem_of_filter in Hin as [Hne _]. done.
Qed.

Lemma dict_get_del_ne d k k' :
  k ≠ k' → dict_get (dict_del d k) k' = dict_get d k'.
Proof.
  intros Hne. unfold dict_del. induction d as [|[k0 v0] d IH]; [done|].
  rewrite filter_cons. cbn [fst]. destruct (decide (k0 ≠ k)) as [Hk|Hk]; cbn.
  - by rewrite IH.
  - apply dec_stable in Hk as ->. by rewrite decide_False.
Qed.
End dict_facts.

(** ** The calendar *)

Section calendar.
Import PyStr PyDate.

Lemma ord2ymd_eq n :
  ord2ymd n =
    let n := n - 1 in
    let n400 := n / DI400Y in
    let n := n mod DI400Y in
    let n100 := n / DI100Y in
    let n := n mod DI100Y in
    let n4 := n / DI4Y in
    let n := n mod DI4Y in
    let n1 := n / 365 in
    let n := n mod 365 in
    let y := n400 * 400 + 1 + (n100 * 100 + n4 * 4 + n1) in
    if (n1 =? 4) || (n100 =? 4) then mkdate (y - 1) 12 31
    else month_day ((n1 =? 3) && (negb (n4 =? 24) || (n100 =? 3))) y n.
Proof. reflexivity. Qed.

Lemma year_split (Y : Z) :
  0 <= Y →
  ∃ a c f g,
    Y = 400 * a + 100 * c + 4 * f + g
    ∧ 0 <= a ∧ 0 <= c <= 3 ∧ 0 <= f <= 24 ∧ 0 <= g <= 3
    ∧ Y / 4 = 100 * a + 25 * c + f ∧ Y / 100 = 4 * a + c ∧ Y / 400 = a
    ∧ leap_days (Y + 1) = (if (g =? 3) && (negb (f =? 24) || (c =? 3)) then 1 else 0).
Proof.
  intros HY.
  set (a := Y / 400). set (b := Y mod 400).
  set (c := b / 100). set (e := b mod 100).
  set (f := e / 4). set (g := e mod 4).
  assert (Hab : Y = 400 * a + b ∧ 0 <= b < 400)
    by (subst a b; Z.div_mod_to_equations; lia).
  assert (Hce : b = 100 * c + e ∧ 0 <= e < 100)
    by (subst c e; Z.div_mod_to_equations; lia).
  assert (Hfg : e = 4 * f + g ∧ 0 <= g < 4)
    by (subst f g; Z.div_mod_to_equations; lia).
  exists a, c, f, g.
  assert (H4 : Y / 4 = 100 * a + 25 * c + f)
    by (symmetry; apply (Z.div_unique _ _ _ g); lia).
  assert (H100 : Y / 100 = 4 * a + c)
    by (symmetry; apply (Z.div_unique _ _ _ e); lia).
  split_and!; try lia.
  unfold leap_days, is_leap.
  assert (Hm4 : (Y + 1) mod 4 = (g + 1) mod 4).
  { replace (Y + 1) with (g + 1 + (100 * a + 25 * c + f) * 4) by lia.
    apply Z_mod_plus_full. }
  assert (Hm100 : (Y + 1) mod 100 = (e + 1) mod 100).
  { replace (Y + 1) with (e + 1 + (4 * a + c) * 100) by lia.
    apply Z_mod_plus_full. }
  assert (Hm400 : (Y + 1) mod 400 = (b + 1) mod 400).
  { replace (Y + 1) with (b + 1 + a * 400) by lia.
    apply Z_mod_plus_full. }
  rewrite Hm4, Hm100, Hm400.
  assert (Hg : ((g + 1) mod 4 =? 0) = (g =? 3))
    by (Z.div_mod_to_equations; lia).
  assert (He : ((e + 1) mod 100 =? 0) = (f =? 24) && (g =? 3))
    by (Z.div_mod_to_equations; lia).
  assert (Hb : ((b + 1) mod 400 =? 0) = (c =? 3) && (f =? 24) && (g =? 3))
    by (Z.div_mod_to_equations; lia).
  rewrite Hg, He, Hb.
  destruct (g =? 3), (f =? 24), (c =? 3); reflexivity.
Qed.

Lemma div_mod_eq (n d q r : Z) :
  n = d * q + r → 0 <= r < d → n / d = q ∧ n mod d = r.
Proof.
  intros Hn Hr. split.
  - symmetry. by apply (Z.div_unique _ _ _ r); [left|].
  - symmetry. by apply (Z.mod_unique _ _ q); [left|].
Qed.

Lemma ord2ymd_year (y r : Z) :
  1 <= y → 0 <= r < 365 + leap_days y →
  ord2ymd (days_before_year y + r + 1)
  = if r =? 365 then mkdate y 12 31 else month_day (is_leap y) y r.
Proof.
  intros Hy Hr.
  destruct (year_split (y - 1)) as (a & c & f & g & HY & Ha & Hc & Hf & Hg & H4 & H100 & H400 & Hleap);
    [lia|].
  replace (y - 1 + 1) with y in Hleap by lia.
  assert (HN : days_before_year y + r + 1 - 1
               = 146097 * a + (36524 * c + 1461 * f + 365 * g + r)).
  { unfold days_before_year. cbv zeta. rewrite H4, H100, H400. lia. }
  assert (Hisleap : is_leap y = (g =? 3) && (negb (f =? 24) || (c =? 3))).
  { unfold leap_days in Hleap. destruct (is_leap y), ((g =? 3) && _); congruence. }
  rewrite ord2ymd_eq. cbv zeta. rewrite HN. unfold DI400Y, DI100Y, DI4Y.
  unfold leap_days in Hr. rewrite Hisleap in Hr |- *.
  destruct (div_mod_eq (146097 * a + (36524 * c + 1461 * f + 365 * g + r)) 146097 a
              (36524 * c + 1461 * f + 365 * g + r)) as [-> ->]; [lia| |].
  { destruct (g =? 3) eqn:?, (f =? 24) eqn:?, (c =? 3) eqn:?; simpl in Hr; lia. }
  destruct (decide (r = 365)) as [Er|Er].
  - (* the last day of a leap year *)
    subst r. change (365 =? 365) with true. cbv iota.
    assert (g = 3) by (destruct (Z.eqb_spec g 3); [done|simpl in Hr; lia]).
    subst g.
    destruct (decide (f = 24)) as [Ef|Ef].
    + subst f.
      assert (c = 3) by (destruct (Z.eqb_spec c 3); [done|simpl in Hr; lia]).
      subst c. replace (36524 * 3 + 1461 * 24 + 365 * 3 + 365) with 146096 by lia.
      change (146096 / 36524) with 4. change (146096 mod 36524) with 0.
      change (0 / 1461) with 0. change (0 mod 1461) with 0.
      change (0 / 365) with 0. change (0 mod 365) with 0.
      change (4 =? 4) with true. rewrite orb_true_r. f_equal. lia.
    + destruct (div_mod_eq (36524 * c + 1461 * f + 365 * 3 + 365) 36524 c
                  (1461 * f + 365 * 3 + 365)) as [-> ->]; [lia|lia|].
      destruct (div_mod_eq (1461 * f + 365 * 3 + 365) 1461 f 1460) as [-> ->];
        [lia|lia|].
      change (1460 / 365) with 4. change (1460 mod 365) with 0.
      change (4 =? 4) with true. cbv iota beta. simpl orb. cbv iota.
      f_equal. lia.
  - destruct (Z.eqb_spec r 365) as [?|_]; [done|].
    assert (Hr' : 0 <= r < 365) by (destruct (_ && _) in Hr; lia).
    destruct (div_mod_eq (36524 * c + 1461 * f + 365 * g + r) 36524 c
                (1461 * f + 365 * g + r)) as [-> ->]; [lia|lia|].
    destruct (div_mod_eq (1461 * f + 365 * g + r) 1461 f (365 * g + r)) as [-> ->];
      [lia|lia|].
    destruct (div_mod_eq (365 * g + r) 365 g r) as [-> ->]; [lia|lia|].
    destruct (Z.eqb_spec g 4) as [?|_]; [lia|].
    destruct (Z.eqb_spec c 4) as [?|_]; [lia|].
    simpl orb. cbv iota.
    f_equal. lia.
Qed.

Lemma month_day_table_ok_true : month_day_table_ok = true.
Proof. vm_compute. reflexivity. Qed.

Lemma month_day_year leap y n :
  month_day leap y n
  = mkdate y (month (month_day leap 0 n)) (day (month_day leap 0 n)).
Proof. unfold month_day. cbv zeta. by destruct (n <? _). Qed.

Lemma month_day_spec leap y m d :
  1 <= m <= 12 → 1 <= d <= in_month leap m →
  let r := before_month leap m + d - 1 in
  0 <= r < 365 + (if leap then 1 else 0)
  ∧ month_day leap y r = mkdate y m d
  ∧ (r = 365 → m = 12 ∧ d = 31).
Proof.
  intros Hm Hd r.
  assert (Hd31 : d <= 31).
  { unfold in_month, index in Hd.
    assert (Hmm : m = 1 ∨ m = 2 ∨ m = 3 ∨ m = 4 ∨ m = 5 ∨ m = 6 ∨ m = 7 ∨ m = 8
                 ∨ m = 9 ∨ m = 10 ∨ m = 11 ∨ m = 12) by lia.
    destruct leap; repeat (destruct Hmm as [->|Hmm]; [simpl in Hd; lia|]);
      subst m; simpl in Hd; lia. }
  pose proof month_day_table_ok_true as Hok. unfold month_day_table_ok in Hok.
  assert (Hleap : In leap [true; false]) by (destruct leap; simpl; tauto).
  assert (Hinm : In m (seqZ 1 12)) by (apply list_elem_of_In, elem_of_seqZ; lia).
  assert (Hind : In d (seqZ 1 31)) by (apply list_elem_of_In, elem_of_seqZ; lia).
  pose proof (proj1 (forallb_forall _ _) Hok leap Hleap) as Hok1.
  pose proof (proj1 (forallb_forall _ _) Hok1 m Hinm) as Hok2.
  pose proof (proj1 (forallb_forall _ _) Hok2 d Hind) as Hok3.
  clear Hok Hok1 Hok2. cbv beta zeta in Hok3. fold r in Hok3.
  assert (Hle : (d <=? in_month leap m) = true) by (apply Z.leb_le; lia).
  rewrite Hle in Hok3. cbn [negb orb] in Hok3.
  apply andb_prop in Hok3 as [Hok3 H5]. apply andb_prop in Hok3 as [Hok3 H4].
  apply andb_prop in Hok3 as [Hok3 H3]. apply andb_prop in Hok3 as [H1 H2].
  apply Z.leb_le in H1. apply Z.ltb_lt in H2.
  apply Z.eqb_eq in H3. apply Z.eqb_eq in H4.
  rewrite month_day_year, H3, H4.
  split_and!; try done.
  intros E. rewrite E in H5. cbn in H5.
  apply andb_prop in H5 as [H5 H6].
  apply Z.eqb_eq in H5. apply Z.eqb_eq in H6. done.
Qed.

Lemma before_month_eq y m : days_before_month y m = before_month (is_leap y) m.
Proof. reflexivity. Qed.

Lemma in_month_eq y m : days_in_month y m = in_month (is_leap y) m.
Proof. reflexivity. Qed.

Lemma valid_well_formed d : valid d → well_formed d.
Proof. unfold valid, well_formed. lia. Qed.

(** [date.fromordinal(d.toordinal()) == d] *)
Lemma ord2ymd_toordinal d : well_formed d → ord2ymd (toordinal d) = d.
Proof.
  destruct d as [y m d]. unfold well_formed, toordinal, ymd2ord. cbn [year month day].
  intros (Hy & Hm & Hd). rewrite in_month_eq in Hd. rewrite before_month_eq.
  destruct (month_day_spec (is_leap y) y m d Hm Hd) as (Hr & Hmd & H365).
  replace (days_before_year y + before_month (is_leap y) m + d)
    with (days_before_year y + (before_month (is_leap y) m + d - 1) + 1) by lia.
  rewrite ord2ymd_year; [|done|done].
  destruct (Z.eqb_spec (before_month (is_leap y) m + d - 1) 365) as [E|_]; [|done].
  destruct (H365 E) as [-> ->]. done.
Qed.

Lemma days_before_year_next y :
  1 <= y → days_before_year (y + 1) = days_before_year y + 365 + leap_days y.
Proof.
  intros Hy.
  destruct (year_split (y - 1)) as (a & c & f & g & HY & Ha & Hc & Hf & Hg & H4 & H100 & H400 & Hleap);
    [lia|].
  replace (y - 1 + 1) with y in Hleap by lia.
  unfold days_before_year. cbv zeta. rewrite H4, H100, H400, Hleap.
  replace (y + 1 - 1) with y by lia.
  destruct (decide (g = 3)) as [->|Hg3].
  - destruct (decide (f = 24)) as [->|Hf24].
    + destruct (decide (c = 3)) as [->|Hc3].
      * assert (y / 4 = 100 * a + 100 ∧ y / 100 = 4 * a + 4 ∧ y / 400 = a + 1)
          as (-> & -> & ->) by (Z.div_mod_to_equations; lia).
        simpl. lia.
      * assert (y / 4 = 100 * a + 25 * c + 25 ∧ y / 100 = 4 * a + c + 1 ∧ y / 400 = a)
          as (-> & -> & ->) by (Z.div_mod_to_equations; lia).
        destruct (Z.eqb_spec c 3); [done|]. simpl. lia.
    + assert (y / 4 = 100 * a + 25 * c + f + 1 ∧ y / 100 = 4 * a + c ∧ y / 400 = a)
        as (-> & -> & ->) by (Z.div_mod_to_equations; lia).
      destruct (Z.eqb_spec f 24); [done|]. simpl. lia.
  - assert (y / 4 = 100 * a + 25 * c + f ∧ y / 100 = 4 * a + c ∧ y / 400 = a)
      as (-> & -> & ->) by (Z.div_mod_to_equations; lia).
    destruct (Z.eqb_spec g 3); [done|]. simpl. lia.
Qed.

Lemma days_before_year_mono y y' :
  1 <= y <= y' → days_before_year y <= days_before_year y'.
Proof. unfold days_before_year. intros H. cbv zeta. Z.div_mod_to_equations. lia. Qed.

Lemma toordinal_bounds d :
  well_formed d →
  days_before_year (year d) < toordinal d <= days_before_year (year d + 1).
Proof.
  destruct d as [y m d]. unfold well_formed, toordinal, ymd2ord. cbn [year month day].
  intros (Hy & Hm & Hd). rewrite in_month_eq in Hd. rewrite before_month_eq.
  destruct (month_day_spec (is_leap y) y m d Hm Hd) as (Hr & _ & _).
  rewrite days_before_year_next by done. unfold leap_days. lia.
Qed.

Lemma toordinal_range d : valid d → 1 <= toordinal d <= MAXORDINAL.
Proof.
  intros Hv. pose proof (toordinal_bounds d (valid_well_formed d Hv)) as Hb.
  destruct Hv as (Hy & _).
  pose proof (days_before_year_mono 1 (year d) ltac:(lia)) as H1.
  pose proof (days_before_year_mono (year d + 1) 10000 ltac:(lia)) as H2.
  change (days_before_year 1) with 0 in H1.
  change (days_before_year 10000) with 3652059 in H2.
  unfold MAXORDINAL. lia.
Qed.

Lemma before_month_next leap m :
  1 <= m < 12 →
  before_month leap (m + 1) = before_month leap m + in_month leap m
  ∧ 1 <= in_month leap (m + 1).
Proof.
  intros Hm.
  assert (Hmm : m = 1 ∨ m = 2 ∨ m = 3 ∨ m = 4 ∨ m = 5 ∨ m = 6 ∨ m = 7 ∨ m = 8
                 ∨ m = 9 ∨ m = 10 ∨ m = 11) by lia.
  destruct Hmm as [->|[->|[->|[->|[->|[->|[->|[->|[->|[->| ->]]]]]]]]]];
    destruct leap; by vm_compute.
Qed.

Lemma next_day_spec d :
  well_formed d →
  well_formed (next_day d) ∧ toordinal (next_day d) = toordinal d + 1.
Proof.
  destruct d as [y m d]. unfold well_formed, next_day, toordinal, ymd2ord.
  cbn [year month day]. intros (Hy & Hm & Hd).
  destruct (Z.ltb_spec d (days_in_month y m)) as [Hlt|Hge]; cbn [year month day].
  - lia.
  - assert (d = days_in_month y m) as -> by lia. clear Hd Hge.
    destruct (Z.ltb_spec m 12) as [Hm12|Hm12]; cbn [year month day].
    + rewrite !in_month_eq, !before_month_eq.
      destruct (before_month_next (is_leap y) m) as [-> ?]; lia.
    + assert (m = 12) as -> by lia.
      rewrite days_before_year_next by done.
      rewrite !in_month_eq, !before_month_eq. unfold leap_days.
      assert (Hdec : ∀ leap, before_month leap 12 + in_month leap 12
                             = 365 + (if leap then 1 else 0)
                             ∧ before_month leap 1 = 0 ∧ in_month leap 1 = 31)
        by (intros []; by vm_compute).
      destruct (Hdec (is_leap y)) as (? & _ & _).
      destruct (Hdec (is_leap (y + 1))) as (_ & -> & ->). lia.
Qed.

Lemma toordinal_onto n :
  1 <= n → ∃ d, well_formed d ∧ toordinal d = n.
Proof.
  intros Hn. pattern n. apply (Zlt_lower_bound_ind _ 1); [|done].
  clear n Hn. intros n IH Hn.
  destruct (decide (n = 1)) as [->|Hne].
  - exists (mkdate 1 1 1). by vm_compute.
  - destruct (IH (n - 1)) as (d & Hd & Ho); [lia|].
    exists (next_day d). destruct (next_day_spec d Hd) as [? ->]. split; [done|lia].
Qed.

(** [date.fromordinal(n).toordinal() == n] *)
Lemma toordinal_ord2ymd n :
  1 <= n → well_formed (ord2ymd n) ∧ toordinal (ord2ymd n) = n.
Proof.
  intros Hn. destruct (toordinal_onto n Hn) as (d & Hd & <-).
  by rewrite ord2ymd_toordinal.
Qed.

Lemma ord2ymd_valid n : 1 <= n <= MAXORDINAL → valid (ord2ymd n).
Proof.
  intros Hn. destruct (toordinal_ord2ymd n) as [Hwf Ho]; [lia|].
  pose proof (toordinal_bounds _ Hwf) as Hb. rewrite Ho in Hb.
  destruct Hwf as (Hy & Hm & Hd). split_and!; try lia.
  destruct (decide (year (ord2ymd n) <= 9999)) as [|Hbig]; [done|].
  pose proof (days_before_year_mono 10000 (year (ord2ymd n)) ltac:(lia)) as H.
  change (days_before_year 10000) with 3652059 in H.
  unfold MAXORDINAL in Hn. lia.
Qed.

End calendar.

(** ** Strings of digits *)

Section digits.
Import PyStr PyDate.

Lemma uint_codes_digits u : Forall is_digit (uint_codes u).
Proof.
  induction u; cbn [uint_codes]; constructor; try done; unfold is_digit; lia.
Qed.

Lemma foldl_uint_codes l acc :
  foldl digit_step (Z.pos acc) (uint_codes l) = Z.pos (Pos.of_uint_acc l acc).
Proof.
  revert acc. induction l; intros acc; cbn [uint_codes foldl Pos.of_uint_acc];
    [done|..]; rewrite <- IHl; f_equal; unfold digit_step; lia.
Qed.

Lemma digits_value_uint u : digits_value (uint_codes u) = Z.of_N (Pos.of_uint u).
Proof.
  unfold digits_value.
  induction u; cbn [uint_codes foldl Pos.of_uint]; [done|done|..];
    cbn [Z.of_N]; rewrite <- foldl_uint_codes; f_equal.
Qed.

Lemma digits_value_zeros k s :
  digits_value (replicate k 48%N ++ s) = digits_value s.
Proof. unfold digits_value. induction k; [done|]. cbn. exact IHk. Qed.

Lemma to_int_nonneg n :
  0 <= n → ∃ u, Z.to_int n = Decimal.Pos u ∧ Z.of_N (Pos.of_uint u) = n.
Proof.
  intros Hn. destruct n as [|p|p]; [| |lia].
  - by exists (Decimal.D0 Decimal.Nil).
  - exists (Pos.to_uint p). split; [done|].
    by rewrite DecimalPos.Unsigned.of_to.
Qed.

Lemma digits_value_zero_padded w n :
  0 <= n → digits_value (zero_padded w n) = n.
Proof.
  intros Hn. unfold zero_padded.
  destruct (to_int_nonneg n Hn) as (u & -> & Hu).
  by rewrite digits_value_zeros, digits_value_uint.
Qed.

Lemma zero_padded_digits w n : 0 <= n → Forall is_digit (zero_padded w n).
Proof.
  intros Hn. unfold zero_padded.
  destruct (to_int_nonneg n Hn) as (u & -> & Hu).
  apply Forall_app. split; [|apply uint_codes_digits].
  apply Forall_replicate. unfold is_digit. lia.
Qed.

Lemma zero_padded_inj w n n' :
  0 <= n → 0 <= n' → zero_padded w n = zero_padded w n' → n = n'.
Proof.
  intros Hn Hn' E. rewrite <- (digits_value_zero_padded w n Hn).
  rewrite E. by apply digits_value_zero_padded.
Qed.

(** Splitting at the first, or at the last, occurrence of a separator. *)
Lemma app_cons_inj_first {A} (x : A) l1 r1 l2 r2 :
  x ∉ l1 → x ∉ l2 → l1 ++ x :: r1 = l2 ++ x :: r2 → l1 = l2 ∧ r1 = r2.
Proof.
  revert l2. induction l1 as [|a l1 IH]; intros [|b l2] H1 H2 E; simplify_eq/=.
  - done.
  - exfalso. apply H2. by left.
  - exfalso. apply H1. by left.
  - rewrite not_elem_of_cons in H1, H2.
    destruct (IH l2) as [-> ->]; tauto.
Qed.

Lemma app_cons_inj_last {A} (x : A) l1 r1 l2 r2 :
  x ∉ r1 → x ∉ r2 → l1 ++ x :: r1 = l2 ++ x :: r2 → l1 = l2 ∧ r1 = r2.
Proof.
  intros H1 H2 E. apply (f_equal reverse) in E.
  rewrite !reverse_app, !reverse_cons, <- !(assoc_L (++)) in E. cbn in E.
  apply app_cons_inj_first in E as [E1 E2]; [|by rewrite elem_of_reverse..].
  split.
  - by apply (inj reverse).
  - by apply (inj reverse).
Qed.

Lemma digit_not (c x : N) : is_digit c → (x < 48 ∨ 57 < x)%N → c ≠ x.
Proof. unfold is_digit. lia. Qed.

Lemma digits_not_elem (s : str) (x : N) :
  Forall is_digit s → (x < 48 ∨ 57 < x)%N → x ∉ s.
Proof.
  intros Hs Hx Hin. rewrite Forall_forall in Hs.
  specialize (Hs _ Hin). unfold is_digit in Hs. lia.
Qed.

Lemma isoformat_inj d d' :
  nonneg d → nonneg d' → isoformat d = isoformat d' → d = d'.
Proof.
  destruct d as [y m d], d' as [y' m' d']. unfold nonneg, isoformat.
  cbn [year month day]. intros (Hy & Hm & Hd) (Hy' & Hm' & Hd') E.
  cbn [app] in E.
  apply app_cons_inj_first in E as [Ey E];
    [|apply digits_not_elem; [by apply zero_padded_digits|lia]..].
  apply app_cons_inj_first in E as [Em Ed];
    [|apply digits_not_elem; [by apply zero_padded_digits|lia]..].
  apply zero_padded_inj in Ey, Em, Ed; try done. by subst.
Qed.

Lemma zero_padded_no_underscore w n : 95%N ∉ zero_padded w n.
Proof.
  unfold zero_padded. destruct (Z.to_int n) as [u|u].
  - rewrite not_elem_of_app. split.
    + intros H. by apply elem_of_replicate in H as [? _].
    + apply digits_not_elem; [apply uint_codes_digits|lia].
  - rewrite not_elem_of_cons, not_elem_of_app. split; [done|]. split.
    + intros H. by apply elem_of_replicate in H as [? _].
    + apply digits_not_elem; [apply uint_codes_digits|lia].
Qed.

(** No ["_"] in a date, so that the key of a check-in splits in one way. *)
Lemma isoformat_no_underscore d : 95%N ∉ isoformat d.
Proof.
  unfold isoformat. rewrite !not_elem_of_app, !not_elem_of_cons.
  pose proof (zero_padded_no_underscore 4 (year d)).
  pose proof (zero_padded_no_underscore 2 (month d)).
  pose proof (zero_padded_no_underscore 2 (day d)).
  pose proof (not_elem_of_nil 95%N). done.
Qed.

Lemma foldl_digit_step l acc :
  foldl digit_step acc l = acc * 10 ^ Z.of_nat (length l) + digits_value l.
Proof.
  unfold digits_value. revert acc. induction l as [|c l IH]; intros acc.
  - cbn. lia.
  - cbn [foldl length]. rewrite IH, (IH (digit_step 0 c)).
    unfold digit_step. rewrite Nat2Z.inj_succ, Z.pow_succ_r by lia. lia.
Qed.

Lemma digits_value_cons c l :
  digits_value (c :: l)
  = (Z.of_N c - 48) * 10 ^ Z.of_nat (length l) + digits_value l.
Proof.
  unfold digits_value at 1. cbn [foldl]. rewrite foldl_digit_step.
  unfold digit_step. lia.
Qed.

Lemma digits_value_bounds l :
  Forall is_digit l → 0 <= digits_value l < 10 ^ Z.of_nat (length l).
Proof.
  induction 1 as [|c l Hc Hl IH].
  - cbn. lia.
  - rewrite digits_value_cons. cbn [length].
    rewrite Nat2Z.inj_succ, Z.pow_succ_r by lia.
    unfold is_digit in Hc. nia.
Qed.

(** Among strings of digits of one length, the order of the strings is
    the order of the numbers. *)
Lemma digits_lexico x y :
  Forall is_digit x → Forall is_digit y → length x = length y →
  lexico x y ↔ digits_value x < digits_value y.
Proof.
  intros Hx. revert y. induction Hx as [|c x Hc Hx IH]; intros y Hy Hlen.
  - destruct y; [|done]. cbn. split; [done|lia].
  - destruct y as [|d y]; [done|]. apply Forall_cons in Hy as [Hd Hy].
    cbn [length] in Hlen. assert (Hlen' : length x = length y) by lia.
    rewrite !digits_value_cons, <- Hlen'.
    pose proof (digits_value_bounds x Hx) as Bx.
    pose proof (digits_value_bounds y Hy) as By. rewrite <- Hlen' in By.
    specialize (IH y Hy Hlen').
    change (lexico (c :: x) (d :: y)) with ((c < d)%N ∨ c = d ∧ lexico x y).
    rewrite IH. unfold is_digit in Hc, Hd.
    split.
    + intros [Hlt|[-> Hlt]]; nia.
    + intros Hlt. destruct (decide (c = d)) as [->|Hne]; [right; split; [done|lia]|].
      left. nia.
Qed.

Lemma length_uint_codes u : length (uint_codes u) = Decimal.nb_digits u.
Proof. induction u; cbn; congruence. Qed.

(** The decimal writing of a positive number does not start with 0. *)
Lemma to_uint_head p u : Pos.to_uint p ≠ Decimal.D0 u.
Proof.
  intros E.
  assert (Hn : Pos.to_uint p = Decimal.unorm (Pos.to_uint p)).
  { rewrite <- DecimalPos.Unsigned.to_of, DecimalPos.Unsigned.of_to. done. }
  rewrite E in Hn at 2. rewrite DecimalFacts.unorm_D0 in Hn.
  assert (Hcase : u = Decimal.Nil ∨ u ≠ Decimal.Nil)
    by (destruct u; [by left|by right..]).
  destruct Hcase as [->|Hu].
  - by apply (DecimalPos.Unsigned.to_uint_nonzero p).
  - pose proof (DecimalFacts.nb_digits_unorm u Hu) as Hle.
    rewrite <- Hn, E in Hle. cbn in Hle. lia.
Qed.

Lemma length_digits_of_pos p w :
  Z.pos p < 10 ^ Z.of_nat w → (length (uint_codes (Pos.to_uint p)) <= w)%nat.
Proof.
  intros Hp.
  pose proof (digits_value_uint (Pos.to_uint p)) as Hv.
  rewrite DecimalPos.Unsigned.of_to in Hv. cbn [Z.of_N] in Hv.
  pose proof (uint_codes_digits (Pos.to_uint p)) as Hd.
  destruct (uint_codes (Pos.to_uint p)) as [|c l] eqn:E; [cbn; lia|].
  assert (Hc : c ≠ 48%N).
  { intros ->. destruct (Pos.to_uint p) as [|u|u|u|u|u|u|u|u|u|u] eqn:Eu;
      cbn in E; try discriminate E. by apply (to_uint_head p u). }
  apply Forall_cons in Hd as [Hcd Hl].
  rewrite digits_value_cons in Hv.
  pose proof (digits_value_bounds l Hl) as Bl.
  assert (Hpow : 10 ^ Z.of_nat (length l) < 10 ^ Z.of_nat w).
  { unfold is_digit in Hcd. nia. }
  apply Z.pow_lt_mono_r_iff in Hpow; [|lia|lia]. cbn [length]. lia.
Qed.

Lemma length_zero_padded w n :
  (0 < w)%nat → 0 <= n < 10 ^ Z.of_nat w → length (zero_padded w n) = w.
Proof.
  intros Hw Hn. unfold zero_padded. destruct n as [|p|p]; [| |lia].
  - cbn. rewrite length_app, length_replicate. cbn. lia.
  - cbn [Z.to_int]. rewrite length_app, length_replicate.
    pose proof (length_digits_of_pos p w ltac:(lia)). lia.
Qed.

(** The order of the numbers, in the order of their writings padded to one
    width. *)
Lemma zero_padded_lexico w a b :
  (0 < w)%nat → 0 <= a < 10 ^ Z.of_nat w → 0 <= b < 10 ^ Z.of_nat w →
  lexico (zero_padded w a) (zero_padded w b) ↔ a < b.
Proof.
  intros Hw Ha Hb.
  rewrite digits_lexico.
  - by rewrite !digits_value_zero_padded by lia.
  - apply zero_padded_digits. lia.
  - apply zero_padded_digits. lia.
  - by rewrite !length_zero_padded.
Qed.

Lemma lexico_cons (c d : N) (x y : str) :
  lexico (c :: x) (d :: y) ↔ (c < d)%N ∨ c = d ∧ lexico x y.
Proof. done. Qed.

Lemma lexico_app (x x' y y' : str) :
  length x = length x' →
  lexico (x ++ y) (x' ++ y') ↔ lexico x x' ∨ x = x' ∧ lexico y y'.
Proof.
  revert x'. induction x as [|c x IH]; intros [|d x'] Hlen; try done.
  - cbn. split; [by right|]. by intros [[]|[_ ?]].
  - cbn [app length] in *. rewrite !lexico_cons, IH by lia.
    split.
    + intros [?|[-> [?|[-> ?]]]]; [by left; left|by left; right|by right].
    + intros [[?|[-> ?]]|[[= -> ->] ?]]; [by left|by right; split; [|left]|].
      right. split; [done|]. by right.
Qed.

(** A field of width [w], then the rest. *)
Lemma lexico_field w a b (r r' : str) :
  (0 < w)%nat → 0 <= a < 10 ^ Z.of_nat w → 0 <= b < 10 ^ Z.of_nat w →
  lexico (zero_padded w a ++ r) (zero_padded w b ++ r')
  ↔ a < b ∨ a = b ∧ lexico r r'.
Proof.
  intros Hw Ha Hb. rewrite lexico_app by (by rewrite !length_zero_padded).
  rewrite zero_padded_lexico by done.
  split.
  - intros [?|[E ?]]; [by left|]. right. split; [|done].
    apply (zero_padded_inj w); [lia|lia|done].
  - intros [?|[-> ?]]; [by left|by right].
Qed.

Lemma lexico_sep (c : N) (r r' : str) : lexico (c :: r) (c :: r') ↔ lexico r r'.
Proof.
  rewrite lexico_cons. split.
  - intros [?|[_ ?]]; [lia|done].
  - intros ?. by right.
Qed.

Lemma days_in_month_le y m : 1 <= m <= 12 → days_in_month y m <= 31.
Proof.
  intros Hm. rewrite in_month_eq.
  assert (Hmm : m = 1 ∨ m = 2 ∨ m = 3 ∨ m = 4 ∨ m = 5 ∨ m = 6 ∨ m = 7 ∨ m = 8
               ∨ m = 9 ∨ m = 10 ∨ m = 11 ∨ m = 12) by lia.
  destruct Hmm as [->|[->|[->|[->|[->|[->|[->|[->|[->|[->|[->| ->]]]]]]]]]]];
    destruct (is_leap y); by vm_compute.
Qed.

Lemma lexico_fraction us us' :
  0 <= us < 1000000 → 0 <= us' < 1000000 →
  lexico (if us =? 0 then [] else [46%N] ++ zero_padded 6 us)
         (if us' =? 0 then [] else [46%N] ++ zero_padded 6 us')
  ↔ us < us'.
Proof.
  intros Hu Hu'.
  destruct (Z.eqb_spec us 0) as [->|H0], (Z.eqb_spec us' 0) as [->|H0'].
  - split; [done|lia].
  - cbn. split; [lia|done].
  - cbn. split; [done|lia].
  - cbn [app]. rewrite lexico_sep.
    apply (zero_padded_lexico 6); [lia|done|done].
Qed.

(** The order of the ISO strings is the order of the times. *)
Lemma datetime_isoformat_lexico a b :
  datetime_valid a → datetime_valid b →
  lexico (datetime_isoformat a) (datetime_isoformat b) ↔ datetime_lt a b.
Proof.
  destruct a as [[y m d] hh mm ss us], b as [[y' m' d'] hh' mm' ss' us'].
  unfold datetime_valid, valid, datetime_isoformat, isoformat, format_time,
    datetime_lt.
  cbn [dt_date year month day hour minute second microsecond].
  intros ((Hy & Hm & Hd) & Hhh & Hmm & Hss & Hus)
         ((Hy' & Hm' & Hd') & Hhh' & Hmm' & Hss' & Hus').
  pose proof (days_in_month_le y m Hm). pose proof (days_in_month_le y' m' Hm').
  rewrite <- !(assoc_L (++)). cbn [app].
  rewrite (lexico_field 4) by (change (10 ^ Z.of_nat 4) with 10000; lia).
  rewrite lexico_sep.
  rewrite (lexico_field 2) by (change (10 ^ Z.of_nat 2) with 100; lia).
  rewrite lexico_sep.
  rewrite (lexico_field 2) by (change (10 ^ Z.of_nat 2) with 100; lia).
  rewrite lexico_sep.
  rewrite (lexico_field 2) by (change (10 ^ Z.of_nat 2) with 100; lia).
  rewrite lexico_sep.
  rewrite (lexico_field 2) by (change (10 ^ Z.of_nat 2) with 100; lia).
  rewrite lexico_sep.
  rewrite (lexico_field 2) by (change (10 ^ Z.of_nat 2) with 100; lia).
  rewrite lexico_fraction by done.
  done.
Qed.

Example datetime_isoformat_runs :
  datetime_isoformat (mkdatetime (mkdate 2024 3 1) 8 0 0 0)
  = lit "2024-03-01T08:00:00"
  ∧ datetime_isoformat (mkdatetime (mkdate 2024 3 1) 8 0 0 500)
    = lit "2024-03-01T08:00:00.000500".
Proof. by vm_compute. Qed.

Lemma uint_codes_head u c s : uint_codes u = c :: s → is_digit c.
Proof.
  intros E. pose proof (uint_codes_digits u) as H. rewrite E in H.
  by apply Forall_cons in H as [? _].
Qed.

Lemma decode_int_str_of_int n : decode_int (str_of_int n) = n.
Proof.
  unfold str_of_int.
  rewrite <- (DecimalZ.of_to n) at 2.
  destruct (Z.to_int n) as [u|u]; cbn [Z.of_int].
  - unfold decode_int. destruct (uint_codes u) as [|c s] eqn:E.
    + rewrite <- E. apply digits_value_uint.
    + pose proof (uint_codes_head _ _ _ E) as Hc.
      assert (c ≠ 45%N) by (unfold is_digit in Hc; lia).
      rewrite <- E.
      destruct c as [|p]; [apply digits_value_uint|].
      repeat (destruct p as [p|p|]; try apply digits_value_uint); done.
  - cbn [decode_int]. by rewrite digits_value_uint.
Qed.

(** [str(a) == str(b)] only for [a == b]. *)
Lemma str_of_int_inj a b : str_of_int a = str_of_int b → a = b.
Proof.
  intros E. rewrite <- (decode_int_str_of_int a), E.
  apply decode_int_str_of_int.
Qed.

End digits.

(** ** The store *)

Section store.
Import PyStr PyDate DataManager Commands.

Lemma checkin_key_inj h d h' d' :
  nonneg d → nonneg d' →
  checkin_key h (isoformat d) = checkin_key h' (isoformat d') →
  h = h' ∧ d = d'.
Proof.
  intros Hd Hd' E. unfold checkin_key in E. cbn [app] in E.
  apply app_cons_inj_last in E as [-> E]; [|apply isoformat_no_underscore..].
  split; [done|]. by apply isoformat_inj.
Qed.

Lemma checkin_key_split h day h' day' :
  95%N ∉ day → 95%N ∉ day' →
  checkin_key h day = checkin_key h' day' → h = h' ∧ day = day'.
Proof.
  intros Hd Hd' E. unfold checkin_key in E. cbn [app] in E.
  by apply app_cons_inj_last in E.
Qed.

Lemma well_keyed_at_most_one dm : checkins_well_keyed dm → at_most_one_checkin dm.
Proof.
  intros [Hnd Hk]. unfold at_most_one_checkin, dict_values.
  apply (NoDup_fmap_1 (λ s, checkin_key s.1 s.2)).
  rewrite <- !list_fmap_compose.
  replace ((λ s : str * str, checkin_key s.1 s.2) ∘ checkin_slot ∘ snd <$> checkins dm)
    with (dict_keys (checkins dm)); [done|].
  unfold dict_keys. apply Forall_fmap_ext. done.
Qed.

Lemma init_well_keyed : checkins_well_keyed init.
Proof. split; [apply NoDup_nil_2 | apply Forall_nil_2]. Qed.

Lemma record_checkin_eq dm today now ok u h :
  record_checkin dm today now ok u h
  = let key := checkin_key h (isoformat today) in
    if dict_mem (checkins dm) key then (dm, false)
    else (with_checkins dm
            (checkins dm ++ [(key, mkcheckin key u h (isoformat today)
                      (datetime_isoformat now))]),
          ok).
Proof.
  unfold record_checkin. cbv zeta.
  destruct (dict_mem _ _) eqn:E; [done|].
  apply dict_mem_false in E. rewrite (dict_set_fresh _ _ _ E).
  by destruct ok.
Qed.

Lemma record_checkin_well_keyed dm today now ok u h :
  checkins_well_keyed dm → checkins_well_keyed (record_checkin dm today now ok u h).1.
Proof.
  intros [Hnd Hk]. rewrite record_checkin_eq. cbv zeta.
  destruct (dict_mem _ _) eqn:E; [done|]. apply dict_mem_false, dict_get_None in E.
  split; cbn.
  - unfold dict_keys in *. rewrite fmap_app. apply NoDup_app. split_and!; [done| |].
    + intros k Hk1 Hk2. apply list_elem_of_singleton in Hk2 as ->. done.
    + apply NoDup_singleton.
  - apply Forall_app. split; [done|]. by apply Forall_singleton.
Qed.

Lemma record_checkin_dated dm today now ok u h :
  checkins_dated dm → checkins_dated (record_checkin dm today now ok u h).1.
Proof.
  intros Hd. rewrite record_checkin_eq. cbv zeta.
  destruct (dict_mem _ _); [done|]. cbn.
  apply Forall_app. split; [done|]. apply Forall_singleton. by eexists.
Qed.

Lemma step_checkins dm dm' :
  step dm dm' →
  checkins dm' = checkins dm
  ∨ ∃ today now ok u h, dm' = (record_checkin dm today now ok u h).1.
Proof.
  intros []; try (by left).
  - left. unfold update_user_activity. by destruct (dict_get _ _).
  - left. unfold delete_habit. by destruct (get_habit _ _ _).
  - right. eauto 10.
  - left. unfold unban_user. by destruct (dict_mem _ _).
Qed.

Lemma step_well_keyed dm dm' :
  step dm dm' → checkins_well_keyed dm → checkins_well_keyed dm'.
Proof.
  intros Hs Hk. destruct (step_checkins _ _ Hs) as [E|(today & now & ok & u & h & ->)].
  - unfold checkins_well_keyed in *. by rewrite E.
  - by apply record_checkin_well_keyed.
Qed.

Lemma reachable_well_keyed dm : reachable dm → checkins_well_keyed dm.
Proof.
  unfold reachable. intros H.
  apply rtc_ind_r with (x := init) (P := checkins_well_keyed) in H; [done| |].
  - apply init_well_keyed.
  - intros ?? _ ?. by apply step_well_keyed.
Qed.

Lemma reachable_dated dm : reachable dm → checkins_dated dm.
Proof.
  unfold reachable. intros H.
  apply rtc_ind_r with (x := init) (P := checkins_dated) in H; [done| |].
  - apply Forall_nil_2.
  - intros dm1 dm2 _ Hs Hd.
    destruct (step_checkins _ _ Hs) as [E|(today & now & ok & u & h & ->)].
    + unfold checkins_dated in *. by rewrite E.
    + by apply record_checkin_dated.
Qed.

(** In a state the store reaches, the key of a habit and a day is there
    exactly when a check-in record for that habit and that day is. *)
Lemma checkin_key_present dm today h :
  reachable dm →
  dict_mem (checkins dm) (checkin_key h (isoformat today)) = true
  ↔ ∃ c, c ∈ dict_values (checkins dm)
         ∧ checkin_habit_id c = h ∧ checkin_date c = isoformat today.
Proof.
  intros Hr. destruct (reachable_well_keyed dm Hr) as [_ Hk].
  pose proof (reachable_dated dm Hr) as Hd. unfold checkins_dated in Hd.
  rewrite Forall_forall in Hk, Hd. rewrite dict_mem_true. split.
  - intros [c Hc]. apply dict_get_Some_elem in Hc.
    pose proof (Hk _ Hc) as Hkey. destruct (Hd _ Hc) as [d Hdate].
    cbn [fst snd] in Hkey, Hdate.
    apply checkin_key_split in Hkey as [Hh Hday];
      [|apply isoformat_no_underscore|rewrite Hdate; apply isoformat_no_underscore].
    exists c. split; [|done]. unfold dict_values.
    apply list_elem_of_fmap. by exists (checkin_key h (isoformat today), c).
  - intros (c & Hin & Hh & Hday). unfold dict_values in Hin.
    apply list_elem_of_fmap in Hin as ([k c'] & -> & Hin).
    pose proof (Hk _ Hin) as Hkey. cbn [fst snd] in Hkey, Hh, Hday.
    rewrite Hh, Hday in Hkey. subst k.
    destruct (dict_get (checkins dm) (checkin_key h (isoformat today))) eqn:E;
      [by eexists|].
    exfalso. apply dict_get_None in E. apply E. unfold dict_keys.
    apply list_elem_of_fmap. by eexists (_, c').
Qed.

Lemma sub_days_Some today i :
  0 < toordinal today - i <= MAXORDINAL →
  sub_days today i = Some (days_ago today i).
Proof.
  intros H. unfold sub_days, days_ago. cbv zeta.
  replace (toordinal today + - i) with (toordinal today - i) by lia.
  destruct (Z.ltb_spec 0 (toordinal today - i)); [|lia].
  destruct (Z.leb_spec (toordinal today - i) MAXORDINAL); [done|lia].
Qed.

Lemma days_ago_0 today : valid today → days_ago today 0 = today.
Proof.
  intros Hv. unfold days_ago. rewrite Z.sub_0_r.
  by apply ord2ymd_toordinal, valid_well_formed.
Qed.

Lemma streak_loop_spec dm today u h (len : nat) :
  ∀ a acc,
    (∀ i, a <= i < a + Z.of_nat len → 0 < toordinal today - i <= MAXORDINAL) →
    ∃ k, 0 <= k <= Z.of_nat len
      ∧ streak_loop dm today u h (seqZ a (Z.of_nat len)) acc = Some (acc + k)
      ∧ (∀ i, a <= i < a + k → checked_in dm u h (days_ago today i))
      ∧ (k < Z.of_nat len → ¬ checked_in dm u h (days_ago today (a + k))).
Proof.
  induction len as [|len IH]; intros a acc Hrange.
  - exists 0. split_and!; [lia|lia| |intros; lia|lia].
    cbn. f_equal. lia.
  - rewrite seqZ_cons by lia. cbn [streak_loop].
    rewrite sub_days_Some by (apply Hrange; lia).
    replace (Z.pred (Z.of_nat (S len))) with (Z.of_nat len) by lia.
    destruct (dict_get (checkins dm) (checkin_key h (isoformat (days_ago today a))))
      as [c|] eqn:Hget.
    + destruct (decide (checkin_user_id c = u)) as [Hu|Hu].
      * destruct (IH (Z.succ a) (acc + 1)) as (k & Hk & Hloop & Hall & Hstop).
        { intros i Hi. apply Hrange. lia. }
        exists (k + 1). split_and!; [lia|lia| | |].
        -- rewrite Hloop. f_equal. lia.
        -- intros i Hi. destruct (decide (i = a)) as [->|].
           ++ by exists c.
           ++ apply Hall. lia.
        -- intros Hlt. replace (a + (k + 1)) with (Z.succ a + k) by lia.
           apply Hstop. lia.
      * exists 0. split_and!; [lia|lia| | |].
        -- f_equal. lia.
        -- intros i Hi. lia.
        -- intros _ (c' & Hc' & Hu'). rewrite Z.add_0_r in Hc'. congruence.
    + exists 0. split_and!; [lia|lia| | |].
      * f_equal. lia.
      * intros i Hi. lia.
      * intros _ (c' & Hc' & _). rewrite Z.add_0_r in Hc'. congruence.
Qed.

Lemma current_streak_char dm today u h :
  valid today → 365 <= toordinal today →
  let n := get_current_streak dm today u h in
  0 <= n <= 365
  ∧ (∀ i, 0 <= i < n → checked_in dm u h (days_ago today i))
  ∧ (n < 365 → ¬ checked_in dm u h (days_ago today n)).
Proof.
  intros Hv Hord n. subst n. unfold get_current_streak.
  pose proof (toordinal_range today Hv) as Hr.
  destruct (streak_loop_spec dm today u h 365 0 0) as (k & Hk & Hloop & Hall & Hstop).
  { intros i Hi. lia. }
  change (Z.of_nat 365) with 365 in *. rewrite Hloop.
  rewrite Z.add_0_l in *. split_and!; [lia|lia|done|done].
Qed.

(** The streak is determined by the days that have a check-in. *)
Lemma current_streak_unique dm today u h k :
  valid today → 365 <= toordinal today →
  0 <= k <= 365 →
  (∀ i, 0 <= i < k → checked_in dm u h (days_ago today i)) →
  (k < 365 → ¬ checked_in dm u h (days_ago today k)) →
  get_current_streak dm today u h = k.
Proof.
  intros Hv Hord Hk Hall Hstop.
  destruct (current_streak_char dm today u h Hv Hord) as (Hn & Hall' & Hstop').
  set (n := get_current_streak dm today u h) in *.
  destruct (Z.lt_trichotomy n k) as [Hlt|[Heq|Hgt]]; [|done|].
  - exfalso. apply Hstop'; [lia|]. apply Hall. lia.
  - exfalso. apply Hstop; [lia|]. apply Hall'. lia.
Qed.

Lemma str_le_refl a : str_le a a.
Proof. unfold str_le. apply (irreflexivity lexico). Qed.

Lemma str_le_trans a b c : str_le a b → str_le b c → str_le a c.
Proof.
  unfold str_le. intros Hab Hbc Hca.
  destruct (trichotomy lexico a b) as [Hlt|[->|Hgt]]; [|done|done].
  apply Hbc. by transitivity a.
Qed.

Lemma str_lt_le a b : lexico a b → str_le a b.
Proof. unfold str_le. intros Hab Hba. by apply (irreflexivity lexico a); transitivity b. Qed.

Section sort_facts.
Context {A : Type} (key : A → str).
Lemma insert_by_Permutation x l : insert_by key x l ≡ₚ x :: l.
Proof.
  induction l as [|y l IH]; cbn; [done|].
  destruct (decide (lexico (key y) (key x))); [|done].
  rewrite IH. apply Permutation_swap.
Qed.

Lemma sort_by_Permutation l : sort_by key l ≡ₚ l.
Proof.
  induction l as [|x l IH]; cbn; [done|].
  fold (sort_by key l). by rewrite insert_by_Permutation, IH.
Qed.

Lemma insert_by_sorted x l :
  StronglySorted (λ x y, str_le (key x) (key y)) l → StronglySorted (λ x y, str_le (key x) (key y)) (insert_by key x l).
Proof.
  induction 1 as [|y l Hs IH Hy]; cbn.
  - repeat constructor.
  - destruct (decide (lexico (key y) (key x))) as [Hlt|Hge].
    + constructor; [done|].
      rewrite insert_by_Permutation. constructor; [|done].
      by apply str_lt_le.
    + constructor; [by constructor|].
      constructor; [done|].
      eapply Forall_impl; [exact Hy|]. intros z Hz.
      by eapply str_le_trans.
Qed.

Lemma sort_by_sorted l : StronglySorted (λ x y, str_le (key x) (key y)) (sort_by key l).
Proof.
  induction l as [|x l IH]; cbn; [constructor|].
  by apply insert_by_sorted.
Qed.

(** The sort is stable: the elements of one key stay in their order. *)
Lemma insert_by_stable k x l :
  filter (λ y, key y = k) (insert_by key x l)
  = filter (λ y, key y = k) (x :: l).
Proof.
  induction l as [|y l IH]; cbn [insert_by]; [done|].
  destruct (decide (lexico (key y) (key x))) as [Hlt|Hge]; [|done].
  rewrite filter_cons, IH, !filter_cons.
  destruct (decide (key y = k)) as [Hy|Hy], (decide (key x = k)) as [Hx|Hx];
    try done.
  exfalso. rewrite Hy, Hx in Hlt. by apply (irreflexivity lexico k).
Qed.

Lemma sort_by_stable k l :
  filter (λ y, key y = k) (sort_by key l) = filter (λ y, key y = k) l.
Proof.
  induction l as [|x l IH]; cbn [sort_by foldr]; [done|].
  fold (sort_by key l). by rewrite insert_by_stable, !filter_cons, IH.
Qed.
End sort_facts.

Lemma StronglySorted_lookup {A} (R : relation A) l i j x y :
  StronglySorted R l → (i < j)%nat → l !! i = Some x → l !! j = Some y → R x y.
Proof.
  intros Hs. revert i j. induction Hs as [|a l Hs IH Ha]; intros i j Hij Hi Hj.
  - done.
  - destruct j as [|j]; [lia|]. cbn in Hj. destruct i as [|i]; cbn in Hi.
    + injection Hi as <-. rewrite Forall_forall in Ha.
      apply Ha. by eapply list_elem_of_lookup_2.
    + apply (IH i j); [lia|done|done].
Qed.

(** Time stamps compare as the times they write. *)
Lemma str_le_datetime a b :
  datetime_valid a → datetime_valid b →
  str_le (datetime_isoformat a) (datetime_isoformat b) ↔ ¬ datetime_lt b a.
Proof.
  intros Ha Hb. unfold str_le. by rewrite datetime_isoformat_lexico.
Qed.

Lemma get_total_checkins_eq dm u h :
  get_total_checkins dm u h
  = Z.of_nat (length (filter (λ c, checkin_user_id c = u ∧ checkin_habit_id c = h)
                       (dict_values (checkins dm)))).
Proof.
  unfold get_total_checkins.
  generalize (dict_values (checkins dm)). intros l.
  rewrite <- (Z.add_0_l (Z.of_nat _)). generalize 0.
  induction l as [|c l IH]; intros n; cbn [foldl].
  - cbn. lia.
  - rewrite IH, filter_cons. destruct (decide _); cbn [length]; lia.
Qed.

Lemma ban_user_eq dm now ok u reason by_ :
  ban_user dm now ok u reason by_
  = (with_banned_users dm
       (dict_set (banned_users dm) (str_of_int u) (mkban u reason by_ (datetime_isoformat now))), ok).
Proof. unfold ban_user. by destruct ok. Qed.

Lemma is_user_banned_ban dm now ok u reason by_ :
  is_user_banned (ban_user dm now ok u reason by_).1 u = true.
Proof.
  rewrite ban_user_eq. unfold is_user_banned. cbn [fst banned_users with_banned_users].
  apply dict_mem_true. rewrite dict_get_set_eq. by eexists.
Qed.

Lemma unban_user_spec dm ok u by_ :
  (is_user_banned dm u = false → unban_user dm ok u by_ = (dm, false))
  ∧ (is_user_banned dm u = true →
     (unban_user dm ok u by_).2 = ok
     ∧ is_user_banned (unban_user dm ok u by_).1 u = false).
Proof.
  unfold unban_user, is_user_banned. cbv zeta.
  destruct (dict_mem (banned_users dm) (str_of_int u)) eqn:E; split; try done.
  intros _. cbn [fst snd banned_users with_banned_users]. split.
  - by destruct ok.
  - apply dict_mem_false, dict_get_del_eq.
Qed.

End store.

(** ** The rate guard *)

Section pacing.
Import ThrottlingMiddleware.

Lemma lookup_foldl_delete {V} (l : list Z) (m : gmap Z V) (k : Z) :
  foldl (λ m user_id, delete user_id m) m l !! k
  = if decide (k ∈ l) then None else m !! k.
Proof.
  revert m. induction l as [|x l IH]; intros m.
  - destruct (decide (k ∈ [])) as [H|H]; [by apply elem_of_nil in H | done].
  - cbn [foldl]. rewrite IH. destruct (decide (k = x)) as [->|Hne].
    + rewrite lookup_delete_eq.
      destruct (decide (x ∈ l)), (decide (x ∈ x :: l)) as [|H]; try done.
      all: exfalso; apply H, elem_of_cons; by left.
    + rewrite lookup_delete_ne by done.
      destruct (decide (k ∈ l)) as [H1|H1], (decide (k ∈ x :: l)) as [H2|H2];
        try done.
      * exfalso. apply H2, elem_of_cons. by right.
      * exfalso. apply elem_of_cons in H2 as [?|?]; done.
Qed.

Lemma cleanup_lookup s now u :
  user_requests (_cleanup_old_entries s now) !! u
  = match user_requests s !! u with
    | Some ts => if decide (ts < now - HOUR) then None else Some ts
    | None => None
    end.
Proof.
  unfold _cleanup_old_entries. simpl. rewrite lookup_foldl_delete.
  destruct (user_requests s !! u) as [ts|] eqn:E.
  - destruct (decide (u ∈ _)) as [H|H], (decide (ts < now - HOUR)) as [H'|H'];
      try done.
    + exfalso. apply list_elem_of_fmap in H as [[k v] [-> H]].
      apply list_elem_of_filter in H as [H1 H2]. apply elem_of_map_to_list in H2.
      simpl in *. congruence.
    + exfalso. apply H. apply list_elem_of_fmap. exists (u, ts). split; [done|].
      apply list_elem_of_filter. split; [done|]. by apply elem_of_map_to_list.
  - by destruct (decide (u ∈ _)).
Qed.

(** *** The pacing gate *)

Lemma is_rate_limited_Some s u now w :
  _is_rate_limited s u now = Some w
  ↔ ∃ last, user_requests s !! u = Some last
            ∧ now - last < rate_limit s * SECOND
            ∧ w = rate_limit s * SECOND - (now - last).
Proof.
  unfold _is_rate_limited, _send_throttling_message.
  destruct (user_requests s !! u) as [last|].
  - destruct (decide (now - last < rate_limit s * SECOND)); split.
    + intros [= <-]. eauto.
    + intros (? & [= <-] & _ & ->). done.
    + done.
    + intros (? & [= <-] & ? & _). lia.
  - split; [done|]. by intros (? & ? & _).
Qed.

Lemma is_rate_limited_None s u now :
  _is_rate_limited s u now = None
  ↔ ∀ last, user_requests s !! u = Some last
            → rate_limit s * SECOND <= now - last.
Proof.
  unfold _is_rate_limited.
  destruct (user_requests s !! u) as [last|]; [|done].
  destruct (decide (now - last < rate_limit s * SECOND)).
  - split; [done|]. intros H. specialize (H last eq_refl). lia.
  - split; [|done]. intros _ ? [= <-]. lia.
Qed.

End pacing.

Section flood.
Import AntiFloodMiddleware.

Lemma apply_penalty_duration s u now :
  (_apply_penalty s u now).2
  = if decide (is_Some (penalties s !! u)) then 90 else 30.
Proof. unfold _apply_penalty. cbn [snd]. by destruct (decide _). Qed.

Lemma is_penalized_false s u now s' :
  _is_penalized s u now = (s', false) →
  penalties s' !! u = None
  ∧ user_message_count s' = user_message_count s
  ∧ flood_threshold s' = flood_threshold s
  ∧ flood_window s' = flood_window s.
Proof.
  unfold _is_penalized. destruct (penalties s !! u) as [pe|] eqn:E.
  - destruct (decide (pe <= now)); intros [= <-]. cbn.
    by rewrite lookup_delete_eq.
  - by intros [= <-].
Qed.

Lemma call_flood s e t_pen now t_apply d :
  (__call__ s e t_pen now t_apply).2 = Flood d →
  ∃ u, event_user_id e = Some u
    ∧ d = 30
    ∧ user_message_count (__call__ s e t_pen now t_apply).1 !! u
      = Some (window_after s u now)
    ∧ flood_threshold s < Z.of_nat (length (window_after s u now))
    ∧ penalties (__call__ s e t_pen now t_apply).1 !! u
      = Some (t_apply + 30 * SECOND).
Proof.
  unfold __call__. destruct (event_user_id e) as [u|]; [|done].
  destruct (_is_penalized s u t_pen) as [s1 [|]] eqn:Hp; [done|].
  apply is_penalized_false in Hp as (Hpen & Hcnt & Hth & Hwin).
  set (s2 := if decide (is_Some (user_message_count s1 !! u)) then s1
             else with_user_message_count s1 (<[u:=[]]> (user_message_count s1))).
  assert (Hs2 : default [] (user_message_count s2 !! u)
                = default [] (user_message_count s !! u)
                ∧ penalties s2 = penalties s1 ∧ flood_threshold s2 = flood_threshold s
                ∧ flood_window s2 = flood_window s).
  { subst s2. destruct (decide (is_Some (user_message_count s1 !! u))) as [H|H].
    - by rewrite Hcnt.
    - cbn. rewrite lookup_insert_eq. rewrite Hcnt in H.
      apply eq_None_not_Some in H. by rewrite H. }
  destruct Hs2 as (Hw2 & Hp2 & Hth2 & Hwin2). clearbody s2.
  cbn [user_message_count with_user_message_count flood_window flood_threshold penalties].
  rewrite !lookup_insert_eq. cbn [default]. rewrite Hw2, Hwin2, Hth2.
  fold (window_after s u now).
  destruct (decide (flood_threshold s < _)) as [Hlt|]; [|done].
  unfold _apply_penalty. cbn [penalties with_user_message_count with_penalties
    user_message_count fst snd flood_threshold flood_window].
  rewrite Hp2, Hpen.
  destruct (decide (is_Some None)) as [[? ?]|_]; [done|].
  intros [= <-]. exists u. rewrite !lookup_insert_eq. done.
Qed.

End flood.

(** * The claims of the specification *)

(** ** The habit store *)

Section store_claims.
Import PyStr PyDate DataManager Commands.

Lemma foldl_reachable {A} (f : t → A → t) (l : list A) :
  (∀ dm x, step dm (f dm x)) → ∀ dm, reachable dm → reachable (foldl f dm l).
Proof.
  intros Hf. induction l as [|x l IH]; intros dm Hdm; cbn [foldl]; [done|].
  apply IH. unfold reachable in *. eapply rtc_r; [exact Hdm|apply Hf].
Qed.

Lemma sample_run_reachable n : reachable (sample_run n).
Proof.
  unfold sample_run. apply foldl_reachable; [|apply rtc_refl].
  intros dm i. constructor.
Qed.

(** C2.  [record_checkin] returns [False] and changes nothing when the key
    made of the habit and of today's date is in the check-in collection,
    whoever made that check-in; otherwise it appends exactly one record for
    the habit and today and returns [True] (the value is [save_ok]: [False]
    only if the file write raised).  In every state the store reaches from
    its initial one, by any of its mutating operations, no two check-in
    records are for the same habit and the same date, and the key is in the
    collection exactly when a record for that habit and that date is;
    different dates are written differently.  Two calls on one date for a
    habit not yet checked in return [True], then [False], the second
    whichever the user. *)
Theorem checkin_uniqueness :
  (∀ dm today now save_ok u h,
     let key := checkin_key h (isoformat today) in
     record_checkin dm today now save_ok u h
     = if dict_mem (checkins dm) key then (dm, false)
       else (with_checkins dm
               (checkins dm ++ [(key, mkcheckin key u h (isoformat today)
                      (datetime_isoformat now))]),
             save_ok))
  ∧ (∀ dm, reachable dm → at_most_one_checkin dm)
  ∧ (∀ dm today h,
       reachable dm →
       dict_mem (checkins dm) (checkin_key h (isoformat today)) = true
       ↔ ∃ c, c ∈ dict_values (checkins dm)
              ∧ checkin_habit_id c = h ∧ checkin_date c = isoformat today)
  ∧ (∀ d d', valid d → valid d' → isoformat d = isoformat d' → d = d')
  ∧ (∀ dm today now now' save_ok' u u' h,
       dict_mem (checkins dm) (checkin_key h (isoformat today)) = false →
       let r := record_checkin dm today now true u h in
       r.2 = true ∧ record_checkin r.1 today now' save_ok' u' h = (r.1, false)).
Proof.
  split; [|split; [|split; [|split]]].
  - intros. apply record_checkin_eq.
  - intros dm H. by apply well_keyed_at_most_one, reachable_well_keyed.
  - intros dm today h H. by apply checkin_key_present.
  - intros d d' Hd Hd'. apply isoformat_inj.
    + destruct Hd as (? & ? & ?). unfold nonneg. lia.
    + destruct Hd' as (? & ? & ?). unfold nonneg. lia.
  - intros dm today now now' ok' u u' h Hfree r. subst r.
    rewrite record_checkin_eq. cbv zeta. rewrite Hfree. cbn [fst snd].
    split; [done|]. rewrite record_checkin_eq. cbv zeta.
    cbn [checkins with_checkins].
    assert (dict_mem (checkins dm ++ [(checkin_key h (isoformat today),
              mkcheckin (checkin_key h (isoformat today)) u h (isoformat today)
                (datetime_isoformat now))])
              (checkin_key h (isoformat today)) = true) as ->; [|done].
    apply dict_mem_false in Hfree. rewrite <- (dict_set_fresh _ _ _ Hfree).
    apply dict_mem_true. rewrite dict_get_set_eq. by eexists.
Qed.

Lemma checkin_uniqueness_witness :
  at_most_one_checkin (sample_run 3)
  ∧ (record_checkin init sample_today sample_now true 1 sample_habit).2 = true
  ∧ record_checkin sample_checked sample_today sample_now false 2 sample_habit
    = (sample_checked, false).
Proof.
  destruct checkin_uniqueness as (_ & Hinv & _ & _ & Htwice). split.
  - apply Hinv, sample_run_reachable.
  - apply (Htwice init sample_today sample_now sample_now false 1 2 sample_habit).
    reflexivity.
Defined.

(** C3 (the code departs from the claim).  [ban_user] makes no test: on a
    user who is banned already it returns [True] again, when the file write
    succeeds, and puts the new record in the place of the old one. *)
Theorem ban_on_banned_user_succeeds dm now u reason by_ old :
  dict_get (banned_users dm) (str_of_int u) = Some old →
  let r := ban_user dm now true u reason by_ in
  is_user_banned dm u = true
  ∧ r.2 = true
  ∧ get_ban_status r.1 u
    = (true, Some (mkban u reason by_ (datetime_isoformat now))).
Proof.
  intros Hold r. subst r. rewrite ban_user_eq. cbn [fst snd].
  repeat apply conj.
  - unfold is_user_banned. apply dict_mem_true. by eexists.
  - done.
  - unfold get_ban_status. cbn [banned_users with_banned_users].
    rewrite dict_get_set_eq. done.
Qed.

Lemma ban_on_banned_user_succeeds_witness :
  is_user_banned sample_banned 42 = true
  ∧ (ban_user sample_banned sample_later true 42 (lit "again") 2).2 = true
  ∧ get_ban_status
      (ban_user sample_banned sample_later true 42 (lit "again") 2).1 42
    = (true, Some (mkban 42 (lit "again") 2 (datetime_isoformat sample_later))).
Proof.
  apply (ban_on_banned_user_succeeds sample_banned sample_later 42
           (lit "again") 2
           (mkban 42 (lit "spam") 1 (datetime_isoformat sample_now))).
  reflexivity.
Defined.

(** What holds of C3: a ban shows in [is_user_banned]; [unban_user] returns
    [False] and changes nothing for a user who is not banned, and otherwise
    removes the ban and returns [True] when the file write succeeds. *)
Lemma ban_then_unban dm now ok ok' u reason by_ by' :
  is_user_banned (ban_user dm now ok u reason by_).1 u = true
  ∧ (is_user_banned dm u = false → unban_user dm ok' u by' = (dm, false))
  ∧ (is_user_banned dm u = true →
     (unban_user dm ok' u by').2 = ok'
     ∧ is_user_banned (unban_user dm ok' u by').1 u = false).
Proof.
  split; [apply is_user_banned_ban|apply unban_user_spec].
Qed.

(** C4.  For a date [today] of the calendar that is at least its 365th
    day, [get_current_streak] is the number [n] of days with a check-in of
    that user for that habit, counted back from today without a gap: it is
    between 0 and 365, each of the [n] days from today back has one, and
    when [n] is under 365 the next day back has none.  [days_ago today i]
    is the calendar date [i] days before today, and today itself for 0.
    Check-ins today, yesterday and the day before but none before that give
    3; an empty collection gives 0; check-ins on all of the last 400 days
    give 365. *)
Theorem current_streak dm today u h :
  valid today → 365 <= toordinal today →
  let n := get_current_streak dm today u h in
  let has i := checked_in dm u h (days_ago today i) in
  days_ago today 0 = today
  ∧ (∀ i, 0 <= i < 365 →
       valid (days_ago today i)
       ∧ toordinal (days_ago today i) = toordinal today - i)
  ∧ 0 <= n <= 365
  ∧ (∀ i, 0 <= i < n → has i)
  ∧ (n < 365 → ¬ has n)
  ∧ (has 0 → has 1 → has 2 → ¬ has 3 → n = 3)
  ∧ (checkins dm = [] → n = 0)
  ∧ ((∀ i, 0 <= i < 400 → has i) → n = 365).
Proof.
  intros Hv Hord n has.
  pose proof (toordinal_range today Hv) as Hr.
  destruct (current_streak_char dm today u h Hv Hord) as (Hn & Hall & Hstop).
  fold n in Hn, Hall, Hstop.
  repeat apply conj.
  - by apply days_ago_0.
  - intros i Hi. unfold days_ago. split.
    + apply ord2ymd_valid. lia.
    + apply toordinal_ord2ymd. lia.
  - lia.
  - lia.
  - done.
  - done.
  - intros H0 H1 H2 H3.
    apply (current_streak_unique dm today u h 3 Hv Hord); [lia| |by intros _].
    intros i Hi. assert (i = 0 ∨ i = 1 ∨ i = 2) as [->|[->| ->]] by lia; done.
  - intros Hempty.
    apply (current_streak_unique dm today u h 0 Hv Hord); [lia|intros; lia|].
    intros _ (c & Hc & _). rewrite Hempty in Hc. done.
  - intros H400.
    apply (current_streak_unique dm today u h 365 Hv Hord); [lia| |lia].
    intros i Hi. apply H400. lia.
Qed.

Lemma sample_today_ok : valid sample_today ∧ 365 <= toordinal sample_today.
Proof. by vm_compute. Qed.

Lemma current_streak_witness :
  get_current_streak (sample_run 3) sample_today 1 sample_habit = 3.
Proof.
  destruct (current_streak (sample_run 3) sample_today 1 sample_habit)
    as (_ & _ & _ & _ & _ & H3 & _).
  - by vm_compute.
  - by vm_compute.
  - apply H3.
    + eexists. split; vm_compute; reflexivity.
    + eexists. split; vm_compute; reflexivity.
    + eexists. split; vm_compute; reflexivity.
    + intros (c & Hc & _). vm_compute in Hc. discriminate Hc.
Defined.

(** The three runs of the specification, by running the code. *)
Example current_streak_runs :
  get_current_streak (sample_run 3) sample_today 1 sample_habit = 3
  ∧ get_current_streak init sample_today 1 sample_habit = 0
  ∧ get_current_streak (sample_run 400) sample_today 1 sample_habit = 365.
Proof. by vm_compute. Qed.

(** Outside the calendar the subtraction raises and the result is 0,
    whatever the check-ins. *)
Example current_streak_first_day :
  get_current_streak
    (record_checkin init (mkdate 1 1 1) sample_now true 1 sample_habit).1
    (mkdate 1 1 1) 1 sample_habit = 0.
Proof. by vm_compute. Qed.

(** C6, as stated, fails: [add_habit] creates the habit for a name that
    strips to the empty string and a frequency outside the enumeration. *)
Lemma add_habit_accepts_anything :
  (length (strip (lit " ")) < 2)%nat
  ∧ (lit "hourly" ∉ FREQUENCIES)
  ∧ add_habit init (lit "id-1") sample_now true 7 (lit " ") (lit "hourly")
    = (with_habits init
         [(lit "id-1",
           mkhabit (lit "id-1") 7 (lit " ") (lit "hourly")
             (datetime_isoformat sample_now)
             (Some true) None)],
       true).
Proof.
  repeat apply conj.
  - vm_compute. lia.
  - vm_compute. intros H. repeat (apply elem_of_cons in H as [H|H]; [done|]).
    by apply elem_of_nil in H.
  - done.
Qed.

(** C6, amended.  The store validates nothing: for every name and every
    frequency [add_habit] stores a habit with these fields, active, under
    the identifier that was drawn, after the habits already there when the
    identifier is new, and returns a success flag, not the identifier:
    [True] unless the file write raised.  The length of the name is checked
    before, by the handler of the dialogue: a text whose stripped length is
    under 2 or over 50 is answered with the length error and leaves the
    dialogue where it was; any other text is kept, stripped, as the name,
    and the dialogue moves on to the frequency. *)
Theorem habit_creation_validation :
  (∀ dm uuid now save_ok u name frequency,
     let h :=
       mkhabit uuid u name frequency (datetime_isoformat now) (Some true) None in
     let r := add_habit dm uuid now save_ok u name frequency in
     r.2 = save_ok
     ∧ get_habit r.1 u uuid = Some h
     ∧ (dict_mem (habits dm) uuid = false →
        r.1 = with_habits dm (habits dm ++ [(uuid, h)])))
  ∧ (∀ text state,
       let name := strip text in
       ((length name < 2 ∨ 50 < length name)%nat →
        process_habit_name (Some text) state
        = Some (state, habit_name_length_error))
       ∧ ((2 <= length name <= 50)%nat →
          process_habit_name (Some text) state
          = Some (mkfsm (Some waiting_for_frequency) (Some name),
                  add_habit_frequency_prompt))).
Proof.
  split.
  - intros dm uuid now ok u name freq h r. subst r. unfold add_habit. cbv zeta.
    cbn [fst snd]. repeat apply conj.
    + by destruct ok.
    + unfold get_habit. cbn [habits with_habits]. rewrite dict_get_set_eq.
      cbn [habit_user_id]. by rewrite decide_True.
    + intros Hfresh. apply dict_mem_false in Hfresh.
      by rewrite (dict_set_fresh _ _ _ Hfresh).
  - intros text state name. unfold process_habit_name. fold name. split.
    + intros H. by rewrite decide_True.
    + intros H. rewrite decide_False by lia. done.
Qed.

Lemma habit_creation_validation_witness :
  sample_store = with_habits init [(sample_habit, sample_record)]
  ∧ process_habit_name (Some (lit " a ")) (mkfsm (Some waiting_for_name) None)
    = Some (mkfsm (Some waiting_for_name) None, habit_name_length_error)
  ∧ process_habit_name (Some (lit " Read ")) (mkfsm (Some waiting_for_name) None)
    = Some (mkfsm (Some waiting_for_frequency) (Some (lit "Read")),
            add_habit_frequency_prompt).
Proof.
  destruct habit_creation_validation as [Hadd Hname].
  repeat apply conj.
  - apply (Hadd init sample_habit sample_now true 1 (lit "Read") (lit "daily")).
    reflexivity.
  - apply (Hname (lit " a ") (mkfsm (Some waiting_for_name) None)).
    vm_compute. lia.
  - apply (Hname (lit " Read ") (mkfsm (Some waiting_for_name) None)).
    vm_compute. lia.
Defined.

(** C8.  [get_user_habits] returns the habits of the store that belong to
    the user and are active, each as often as it is stored, in ascending
    order of their creation time stamps, which is the order of the times
    that the stamps write, habits of one time stamp in the order of the
    store.  After [delete_habit] the habit is still stored,
    inactive, and is not listed, the other listed habits still are, and the
    check-ins are untouched: [get_total_checkins], which counts the records
    of the user and the habit whatever the habit's flag, gives what it gave
    before. *)
Theorem listing_and_soft_delete dm u :
  let l := get_user_habits dm u in
  l ≡ₚ filter (listed u) (dict_values (habits dm))
  ∧ (∀ h, h ∈ l
          ↔ h ∈ dict_values (habits dm) ∧ habit_user_id h = u ∧ get_active h = true)
  ∧ StronglySorted (λ a b, str_le (habit_created_at a) (habit_created_at b)) l
  ∧ (∀ i j a b ta tb,
       (i < j)%nat → l !! i = Some a → l !! j = Some b →
       datetime_valid ta → datetime_valid tb →
       habit_created_at a = datetime_isoformat ta →
       habit_created_at b = datetime_isoformat tb →
       ¬ datetime_lt tb ta)
  ∧ (∀ at_, filter (λ h, habit_created_at h = at_) l
            = filter (λ h, habit_created_at h = at_)
                (filter (listed u) (dict_values (habits dm))))
  ∧ (∀ u2 h2,
       get_total_checkins dm u2 h2
       = Z.of_nat (length (filter (λ c, checkin_user_id c = u2
                                        ∧ checkin_habit_id c = h2)
                             (dict_values (checkins dm)))))
  ∧ (∀ now save_ok hid h,
       dict_get (habits dm) hid = Some h → habit_user_id h = u →
       let dm' := (delete_habit dm now save_ok u hid).1 in
       (∃ h', dict_get (habits dm') hid = Some h' ∧ get_active h' = false
              ∧ h' ∉ get_user_habits dm' u)
       ∧ (∀ h2, h2 ∈ l → h2 ≠ h → h2 ∈ get_user_habits dm' u)
       ∧ checkins dm' = checkins dm
       ∧ (∀ u2 h2, get_total_checkins dm' u2 h2 = get_total_checkins dm u2 h2)).
Proof.
  intros l.
  assert (Hperm : l ≡ₚ filter (listed u) (dict_values (habits dm)))
    by apply sort_by_Permutation.
  assert (Hmem : ∀ dm0 h, h ∈ get_user_habits dm0 u
                 ↔ h ∈ dict_values (habits dm0) ∧ habit_user_id h = u
                   ∧ get_active h = true).
  { intros dm0 h. unfold get_user_habits. rewrite sort_by_Permutation.
    rewrite list_elem_of_filter. tauto. }
  repeat apply conj.
  - done.
  - apply Hmem.
  - apply (sort_by_sorted habit_created_at).
  - intros i j a b ta tb Hij Hi Hj Hta Htb Ea Eb.
    apply str_le_datetime; [done|done|]. rewrite <- Ea, <- Eb.
    apply (StronglySorted_lookup
             (λ x y, str_le (habit_created_at x) (habit_created_at y)) l i j a b);
      [|done|done|done].
    apply (sort_by_sorted habit_created_at).
  - intros at_. apply (sort_by_stable habit_created_at).
  - intros u2 h2. apply get_total_checkins_eq.
  - intros now ok hid h Hget Hu dm'.
    assert (Hdm' : dm' = with_habits dm (dict_set (habits dm) hid
              (mkhabit (habit_id h) (habit_user_id h) (habit_name h)
                 (habit_frequency h) (habit_created_at h) (Some false)
                 (Some (datetime_isoformat now))))).
    { subst dm'. unfold delete_habit, get_habit. rewrite Hget.
      rewrite decide_True by done. done. }
    repeat apply conj.
    + eexists. rewrite Hdm'. cbn [habits with_habits]. rewrite dict_get_set_eq.
      repeat apply conj; [done|done|]. rewrite Hmem. cbn. intros (_ & _ & ?). done.
    + intros h2 Hh2 Hne. apply Hmem. apply Hmem in Hh2 as (Hin & Hu2 & Hact).
      repeat apply conj; [|done|done].
      rewrite Hdm'. cbn [habits with_habits]. unfold dict_values in *.
      apply list_elem_of_fmap in Hin as ([k v] & -> & Hin).
      apply list_elem_of_fmap. exists (k, v). split; [done|].
      eapply dict_set_elem_other; [exact Hget|done|]. intros [= -> ->]. done.
    + by rewrite Hdm'.
    + intros u2 h2. rewrite !get_total_checkins_eq. by rewrite Hdm'.
Qed.

Lemma listing_and_soft_delete_witness :
  checkins (delete_habit sample_store sample_now true 1 sample_habit).1
  = checkins sample_store
  ∧ ∀ u2 h2,
      get_total_checkins
        (delete_habit sample_store sample_now true 1 sample_habit).1 u2 h2
      = get_total_checkins sample_store u2 h2.
Proof.
  destruct (listing_and_soft_delete sample_store 1)
    as (_ & _ & _ & _ & _ & _ & Hdel).
  destruct (Hdel sample_now true sample_habit sample_record) as (_ & _ & Hc & Ht).
  - reflexivity.
  - reflexivity.
  - split; [exact Hc|exact Ht].
Defined.

(** The listing of a store of three habits, one of them of another user,
    created out of order, and after the soft delete of one. *)
Example listing_runs :
  let add dm id now u :=
    (add_habit dm id now true u (lit "name") (lit "daily")).1 in
  let dm := add (add (add init (lit "b") sample_later 1)
                   (lit "a") (mkdatetime sample_today 8 0 0 500000) 1)
              (lit "c") sample_now 2 in
  habit_id <$> get_user_habits dm 1 = [lit "a"; lit "b"]
  ∧ habit_id <$> get_user_habits (delete_habit dm sample_now true 1 (lit "a")).1 1
    = [lit "b"].
Proof. by vm_compute. Qed.

(** C9.  When the key of the habit and of today holds a check-in of another
    user, [record_checkin] returns [False] and changes nothing, although
    [is_checked_in_today] is [False] for the user and the streak is 0; and
    the store reaches such a state. *)
Theorem checkin_actor_asymmetry :
  (∀ dm today now save_ok u h c,
     valid today → 365 <= toordinal today →
     dict_get (checkins dm) (checkin_key h (isoformat today)) = Some c →
     checkin_user_id c ≠ u →
     record_checkin dm today now save_ok u h = (dm, false)
     ∧ is_checked_in_today dm today u h = false
     ∧ get_current_streak dm today u h = 0)
  ∧ (∃ dm today u h c,
       reachable dm ∧ valid today ∧ 365 <= toordinal today
       ∧ dict_get (checkins dm) (checkin_key h (isoformat today)) = Some c
       ∧ checkin_user_id c ≠ u).
Proof.
  split.
  - intros dm today now ok u h c Hv Hord Hget Hu. repeat apply conj.
    + rewrite record_checkin_eq. cbv zeta.
      by rewrite (proj2 (dict_mem_true _ _) (mk_is_Some _ _ Hget)).
    + unfold is_checked_in_today. cbv zeta. rewrite Hget.
      by apply bool_decide_eq_false.
    + apply (current_streak_unique dm today u h 0 Hv Hord); [lia|intros; lia|].
      intros _ (c' & Hc' & Hu'). rewrite days_ago_0 in Hc' by done. congruence.
  - exists sample_checked, sample_today, 2, sample_habit.
    eexists. split; [apply rtc_once; constructor|].
    split; [by vm_compute|]. split; [by vm_compute|].
    split; [vm_compute; reflexivity|by vm_compute].
Qed.

Lemma checkin_actor_asymmetry_witness :
  record_checkin sample_checked sample_today sample_now true 2 sample_habit
  = (sample_checked, false)
  ∧ is_checked_in_today sample_checked sample_today 2 sample_habit = false
  ∧ get_current_streak sample_checked sample_today 2 sample_habit = 0.
Proof.
  destruct checkin_actor_asymmetry as [H _].
  apply (H sample_checked sample_today sample_now true 2 sample_habit
           (mkcheckin (checkin_key sample_habit (isoformat sample_today)) 1
              sample_habit (isoformat sample_today)
              (datetime_isoformat sample_now))).
  - by vm_compute.
  - by vm_compute.
  - vm_compute. reflexivity.
  - by vm_compute.
Defined.

(** C10.  [get_habit] does not look at the flag: it returns the habit of
    the user also after a soft delete, so that a second [delete_habit]
    returns [True] again and stores the new deletion time. *)
Theorem soft_deleted_habit_visible dm now1 now2 save_ok1 u hid h :
  dict_get (habits dm) hid = Some h → habit_user_id h = u →
  let deleted at_ :=
    mkhabit (habit_id h) (habit_user_id h) (habit_name h) (habit_frequency h)
      (habit_created_at h) (Some false) (Some at_) in
  let r1 := delete_habit dm now1 save_ok1 u hid in
  let r2 := delete_habit r1.1 now2 true u hid in
  get_habit dm u hid = Some h
  ∧ r1.2 = save_ok1
  ∧ get_habit r1.1 u hid = Some (deleted (datetime_isoformat now1))
  ∧ r2.2 = true
  ∧ get_habit r2.1 u hid = Some (deleted (datetime_isoformat now2)).
Proof.
  intros Hget Hu deleted r1 r2.
  assert (H0 : get_habit dm u hid = Some h).
  { unfold get_habit. rewrite Hget. by rewrite decide_True. }
  assert (Hr1 : r1 = (with_habits dm
                        (dict_set (habits dm) hid
                           (deleted (datetime_isoformat now1))),
                      save_ok1)).
  { subst r1. unfold delete_habit. rewrite H0. by destruct save_ok1. }
  assert (H1 : get_habit r1.1 u hid = Some (deleted (datetime_isoformat now1))).
  { rewrite Hr1. unfold get_habit. cbn [fst habits with_habits].
    rewrite dict_get_set_eq. cbn [habit_user_id deleted]. by rewrite decide_True. }
  assert (Hr2 : r2 = (with_habits r1.1
                        (dict_set (habits r1.1) hid
                           (deleted (datetime_isoformat now2))),
                      true)).
  { subst r2. unfold delete_habit. rewrite H1. done. }
  repeat apply conj.
  - done.
  - by rewrite Hr1.
  - done.
  - by rewrite Hr2.
  - rewrite Hr2. unfold get_habit. cbn [fst habits with_habits].
    rewrite dict_get_set_eq. cbn [habit_user_id deleted]. by rewrite decide_True.
Qed.

Lemma soft_deleted_habit_visible_witness :
  (delete_habit (delete_habit sample_store sample_now true 1 sample_habit).1
     sample_later true 1 sample_habit).2 = true
  ∧ get_habit
      (delete_habit (delete_habit sample_store sample_now true 1 sample_habit).1
         sample_later true 1 sample_habit).1 1 sample_habit
    = Some (mkhabit sample_habit 1 (lit "Read") (lit "daily")
              (datetime_isoformat sample_now) (Some false)
              (Some (datetime_isoformat sample_later))).
Proof.
  destruct (soft_deleted_habit_visible sample_store sample_now
              sample_later true 1 sample_habit sample_record)
    as (_ & _ & _ & H2 & H3).
  - reflexivity.
  - reflexivity.
  - split; [exact H2|exact H3].
Defined.

End store_claims.

(** ** The rate guard *)

Section pacing_claims.
Import ThrottlingMiddleware.

Lemma pacing_call s e u t_check t_store t_clean :
  event_user_id e = Some u →
  let r := __call__ s e t_check t_store t_clean in
  (∀ w, r.2 = Dropped w
        ↔ ∃ last, user_requests s !! u = Some last
                  ∧ t_check - last < rate_limit s * SECOND
                  ∧ w = rate_limit s * SECOND - (t_check - last))
  ∧ (r.2 = Handled
     ↔ ∀ last, user_requests s !! u = Some last
               → rate_limit s * SECOND <= t_check - last)
  ∧ (∀ w, r.2 = Dropped w → r.1 = s)
  ∧ (r.2 = Handled → t_clean - HOUR <= t_store →
     user_requests r.1 !! u = Some t_store)
  ∧ (r.2 = Handled → ∀ u', u' ≠ u →
     user_requests r.1 !! u'
     = match user_requests s !! u' with
       | Some ts => if decide (ts < t_clean - HOUR) then None else Some ts
       | None => None
       end)
  ∧ rate_limit r.1 = rate_limit s.
Proof.
  intros Hu r. subst r. unfold __call__. rewrite Hu.
  destruct (_is_rate_limited s u t_check) as [w0|] eqn:E; cbn [fst snd].
  - apply is_rate_limited_Some in E as (last & Hl & Hlt & ->).
    split; [|split; [|split; [|split; [|split]]]].
    + intros w. split.
      * intros [= <-]. eauto.
      * intros (last' & Hl' & _ & ->). congruence.
    + split; [done|]. intros H. specialize (H _ Hl). lia.
    + done.
    + done.
    + done.
    + done.
  - split; [|split; [|split; [|split; [|split]]]].
    + intros w. split; [done|]. intros (last & Hl & Hlt & _).
      pose proof (proj1 (is_rate_limited_None _ _ _) E _ Hl). lia.
    + split; [|done]. intros _. by apply (proj1 (is_rate_limited_None _ _ _)).
    + done.
    + intros _ Hclock. rewrite cleanup_lookup. cbn [user_requests].
      rewrite lookup_insert_eq.
      destruct (decide (t_store < t_clean - HOUR)); [lia|done].
    + intros _ u' Hne. rewrite cleanup_lookup. cbn [user_requests].
      by rewrite lookup_insert_ne.
    + done.
Qed.

(** C7.  For an update of an identified user, with [t_check] the time read
    for the test: the update is dropped exactly when a time of last
    acceptance is stored for the user and [t_check] is less than the
    interval after it, and handled otherwise; when it is dropped, the wait
    time sent is the interval less the time elapsed, and nothing is stored;
    when it is handled, the time [t_store] read next is stored for the
    user, the clock not having leapt an hour when it is read again for the
    clean-up, and the times stored for the other users stay, but for those
    over an hour old, which the clean-up removes.  Two messages 0.1 s apart with the interval of 1 s: the first
    is handled, the second dropped with a wait of 0.9 s. *)
Theorem pacing_gate :
  (∀ s e u t_check t_store t_clean,
     event_user_id e = Some u →
     let r := __call__ s e t_check t_store t_clean in
     (∀ w, r.2 = Dropped w
           ↔ ∃ last, user_requests s !! u = Some last
                     ∧ t_check - last < rate_limit s * SECOND
                     ∧ w = rate_limit s * SECOND - (t_check - last))
     ∧ (r.2 = Handled
        ↔ ∀ last, user_requests s !! u = Some last
                  → rate_limit s * SECOND <= t_check - last)
     ∧ (∀ w, r.2 = Dropped w → r.1 = s)
     ∧ (r.2 = Handled → t_clean - HOUR <= t_store →
        user_requests r.1 !! u = Some t_store)
     ∧ (r.2 = Handled → ∀ u', u' ≠ u →
        user_requests r.1 !! u'
        = match user_requests s !! u' with
          | Some ts => if decide (ts < t_clean - HOUR) then None else Some ts
          | None => None
          end))
  ∧ (∀ u t,
       let e := mkevent Message (Some u) in
       let r1 := __call__ init e t t t in
       let r2 := __call__ r1.1 e (t + 100000) (t + 100000) (t + 100000) in
       r1.2 = Handled ∧ r2.2 = Dropped 900000 ∧ r2.1 = r1.1).
Proof.
  split.
  - intros s e u t_check t_store t_clean Hu.
    destruct (pacing_call s e u t_check t_store t_clean Hu)
      as (H1 & H2 & H3 & H4 & H5 & _).
    split; [exact H1|split; [exact H2|split; [exact H3|split; [exact H4|exact H5]]]].
  - intros u t e r1 r2.
    assert (He : event_user_id e = Some u) by done.
    destruct (pacing_call init e u t t t He) as (_ & H2 & _ & H4 & _ & H5).
    fold r1 in H2, H4, H5.
    assert (Hr1 : r1.2 = Handled).
    { apply H2. intros last Hl. cbn in Hl. by rewrite lookup_empty in Hl. }
    assert (Hlast : user_requests r1.1 !! u = Some t).
    { apply H4; [done|]. unfold HOUR, SECOND. lia. }
    change (rate_limit init) with 1 in H5.
    destruct (pacing_call r1.1 e u (t + 100000) (t + 100000) (t + 100000) He)
      as (G1 & _ & G3 & _).
    fold r2 in G1, G3.
    assert (Hr2 : r2.2 = Dropped 900000).
    { apply G1. exists t. rewrite H5. unfold SECOND.
      split; [done|split; lia]. }
    split; [done|split; [done|]]. by apply (G3 900000).
Qed.

Lemma pacing_gate_witness :
  (__call__ init sample_event 0 0 0).2 = Handled
  ∧ user_requests (__call__ init sample_event 0 0 0).1 !! 7 = Some 0.
Proof.
  destruct pacing_gate as [H _].
  destruct (H init sample_event 7 0 0 0) as (_ & H2 & _ & H4 & _).
  - reflexivity.
  - assert (Hh : (__call__ init sample_event 0 0 0).2 = Handled) by reflexivity.
    split; [exact Hh|]. apply H4; [exact Hh|]. by vm_compute.
Defined.

End pacing_claims.

Section flood_claims.
Import AntiFloodMiddleware.

(** C1 (the code departs from the claim).  The duration [_apply_penalty]
    sets is 30 s for a user without an entry in the penalties and 90 s for a
    user with one, whatever the penalty before: three penalties in a row
    are of 30, 90 and 90 s, not 30, 90 and 270.  Through [__call__] the user
    never has an entry when the penalty is set, because [_is_penalized] has
    just answered [False]: every new penalty is of 30 s. *)
Theorem flood_penalty_escalation :
  (∀ s u now,
     (_apply_penalty s u now).2
     = if decide (is_Some (penalties s !! u)) then 90 else 30)
  ∧ (∀ s e t_pen now t_apply d,
       (__call__ s e t_pen now t_apply).2 = Flood d → d = 30)
  ∧ (_apply_penalty init 7 0).2 = 30
  ∧ (_apply_penalty (_apply_penalty init 7 0).1 7 SECOND).2 = 90
  ∧ (_apply_penalty
       (_apply_penalty (_apply_penalty init 7 0).1 7 SECOND).1 7 (2 * SECOND)).2
    = 90.
Proof.
  repeat apply conj.
  - apply apply_penalty_duration.
  - intros s e t_pen now t_apply d H.
    by destruct (call_flood _ _ _ _ _ _ H) as (u & _ & -> & _).
  - by vm_compute.
  - by vm_compute.
  - by vm_compute.
Qed.

Lemma flood_penalty_escalation_witness :
  (run init 7 sample_times).2
  = [Handled; Handled; Handled; Handled; Handled; Flood 30].
Proof.
  destruct flood_penalty_escalation as (_ & H & _).
  assert (Hrun : ∃ d, (run init 7 sample_times).2
                      = [Handled; Handled; Handled; Handled; Handled; Flood d]
                      ∧ (__call__ (run init 7 (take 5 sample_times)).1
                           (mkevent Message (Some 7))
                           (5 * SECOND) (5 * SECOND) (5 * SECOND)).2 = Flood d).
  { exists 30. by vm_compute. }
  destruct Hrun as (d & Hd & Hcall). rewrite Hd.
  by rewrite (H _ _ _ _ _ _ Hcall).
Defined.

(** C5, as stated, fails: the sixth message within the window brings the
    penalty, and the window of the user then holds the six time stamps. *)
Lemma flood_window_not_cleared :
  (run init 7 sample_times).2
  = [Handled; Handled; Handled; Handled; Handled; Flood 30]
  ∧ user_message_count (run init 7 sample_times).1 !! 7 = Some sample_times
  ∧ penalties (run init 7 sample_times).1 !! 7 = Some (35 * SECOND).
Proof. by vm_compute. Qed.

(** C5, amended.  When [__call__] puts the user under a penalty, the update
    is dropped and the penalty, of 30 s from the time read last, is stored;
    the window of the user is kept: it holds the time stamps that were
    within the flood window before, followed by that of the update, more
    of them than the threshold, and is not empty. *)
Theorem flood_penalty_keeps_window s e t_pen now t_apply d :
  (__call__ s e t_pen now t_apply).2 = Flood d →
  ∃ u, event_user_id e = Some u
    ∧ user_message_count (__call__ s e t_pen now t_apply).1 !! u
      = Some (window_after s u now)
    ∧ window_after s u now ≠ []
    ∧ flood_threshold s < Z.of_nat (length (window_after s u now))
    ∧ penalties (__call__ s e t_pen now t_apply).1 !! u
      = Some (t_apply + d * SECOND)
    ∧ d = 30.
Proof.
  intros H.
  destruct (call_flood _ _ _ _ _ _ H) as (u & Hu & -> & Hw & Hlen & Hp).
  exists u. repeat apply conj; try done.
  unfold window_after. intros E. by apply app_nil in E as [_ ?].
Qed.

Lemma flood_penalty_keeps_window_witness :
  ∃ u, event_user_id sample_event = Some u
    ∧ user_message_count
        (__call__ (run init 7 (take 5 sample_times)).1 sample_event
           (5 * SECOND) (5 * SECOND) (5 * SECOND)).1 !! u
      = Some (window_after (run init 7 (take 5 sample_times)).1 u (5 * SECOND))
    ∧ window_after (run init 7 (take 5 sample_times)).1 u (5 * SECOND) ≠ []
    ∧ flood_threshold (run init 7 (take 5 sample_times)).1
      < Z.of_nat (length (window_after (run init 7 (take 5 sample_times)).1 u
                            (5 * SECOND)))
    ∧ penalties
        (__call__ (run init 7 (take 5 sample_times)).1 sample_event
           (5 * SECOND) (5 * SECOND) (5 * SECOND)).1 !! u
      = Some (5 * SECOND + 30 * SECOND)
    ∧ 30 = 30.
Proof.
  apply (flood_penalty_keeps_window (run init 7 (take 5 sample_times)).1
           sample_event (5 * SECOND) (5 * SECOND) (5 * SECOND) 30).
  by vm_compute.
Defined.

End flood_claims.

(** * Further properties of the code *)

(** ** The habit store *)

Section store_extras.
Import PyStr PyDate DataManager.

Lemma dict_del_fresh {K V} `{EqDecision K} (d : dict K V) k :
  dict_get d k = None → dict_del d k = d.
Proof.
  unfold dict_del. induction d as [|[k' v'] d IH]; [done|]. cbn [dict_get].
  destruct (decide (k' = k)) as [->|Hne]; [done|]. intros Hg.
  rewrite filter_cons. cbn [fst]. rewrite decide_True by done.
  by rewrite IH.
Qed.

Lemma dict_del_set_fresh {K V} `{EqDecision K} (d : dict K V) k v :
  dict_get d k = None → dict_del (dict_set d k v) k = d.
Proof.
  intros Hg. rewrite (dict_set_fresh _ _ _ Hg). unfold dict_del.
  rewrite filter_app, filter_cons. cbn [fst].
  rewrite decide_False by (intros Hne; by apply Hne).
  rewrite filter_nil, app_nil_r. by apply dict_del_fresh.
Qed.

Lemma str_of_int_ne u v : v ≠ u → str_of_int u ≠ str_of_int v.
Proof. intros Hne E. by apply str_of_int_inj in E. Qed.

(** X1.  A ban and the lifting of a ban touch one user only: for every
    other user [get_ban_status] and [is_user_banned] answer as before,
    because the keys [str(user_id)] of different users differ; and the
    users, habits and check-ins of the store stay as they are. *)
Theorem ban_leaves_other_users dm now ok ok' u v reason by_ by' :
  v ≠ u →
  let banned := (ban_user dm now ok u reason by_).1 in
  let unbanned := (unban_user dm ok' u by').1 in
  get_ban_status banned v = get_ban_status dm v
  ∧ is_user_banned banned v = is_user_banned dm v
  ∧ get_ban_status unbanned v = get_ban_status dm v
  ∧ is_user_banned unbanned v = is_user_banned dm v
  ∧ (users banned, habits banned, checkins banned)
    = (users dm, habits dm, checkins dm)
  ∧ (users unbanned, habits unbanned, checkins unbanned)
    = (users dm, habits dm, checkins dm).
Proof.
  intros Hne banned unbanned. apply str_of_int_ne in Hne.
  assert (Hb : dict_get (banned_users banned) (str_of_int v)
               = dict_get (banned_users dm) (str_of_int v)).
  { subst banned. rewrite ban_user_eq. cbn [fst banned_users with_banned_users].
    by apply dict_get_set_ne. }
  assert (Hu : dict_get (banned_users unbanned) (str_of_int v)
               = dict_get (banned_users dm) (str_of_int v)).
  { subst unbanned. unfold unban_user. cbv zeta.
    destruct (dict_mem _ _); [|done].
    cbn [fst banned_users with_banned_users]. by apply dict_get_del_ne. }
  assert (Hb' : (users banned, habits banned, checkins banned)
                = (users dm, habits dm, checkins dm)).
  { subst banned. by rewrite ban_user_eq. }
  assert (Hu' : (users unbanned, habits unbanned, checkins unbanned)
                = (users dm, habits dm, checkins dm)).
  { subst unbanned. unfold unban_user. cbv zeta. by destruct (dict_mem _ _). }
  unfold get_ban_status, is_user_banned, dict_mem. by rewrite Hb, Hu.
Qed.

Lemma ban_leaves_other_users_witness :
  get_ban_status (ban_user sample_banned sample_later true 7 (lit "flood") 1).1 42
  = get_ban_status sample_banned 42
  ∧ is_user_banned (unban_user sample_banned true 7 1).1 42 = true.
Proof.
  destruct (ban_leaves_other_users sample_banned sample_later true true 7 42
              (lit "flood") 1 1) as (H1 & _ & _ & H4 & _).
  - lia.
  - split; [exact H1|]. rewrite H4. reflexivity.
Defined.

(** X2.  Lifting a ban undoes it: for a user who is not banned,
    [ban_user] stores the record that [get_ban_status] then returns, and
    [unban_user] after it gives back the store as it was before the ban,
    with [True] when its file write succeeds. *)
Theorem ban_unban_round_trip dm now ok ok' u reason by_ by' :
  is_user_banned dm u = false →
  let r := ban_user dm now ok u reason by_ in
  get_ban_status r.1 u
  = (true, Some (mkban u reason by_ (datetime_isoformat now)))
  ∧ unban_user r.1 ok' u by' = (dm, ok').
Proof.
  intros Hfree r. subst r. rewrite ban_user_eq. cbn [fst]. split.
  - unfold get_ban_status. cbn [banned_users with_banned_users].
    by rewrite dict_get_set_eq.
  - unfold unban_user. cbv zeta. cbn [banned_users with_banned_users].
    unfold dict_mem. rewrite dict_get_set_eq.
    apply dict_mem_false in Hfree. rewrite (dict_del_set_fresh _ _ _ Hfree).
    destruct dm, ok'; done.
Qed.

Lemma ban_unban_round_trip_witness :
  get_ban_status sample_banned 42
  = (true, Some (mkban 42 (lit "spam") 1 (datetime_isoformat sample_now)))
  ∧ unban_user sample_banned true 42 1 = (init, true).
Proof.
  apply (ban_unban_round_trip init sample_now true true 42 (lit "spam") 1 1).
  reflexivity.
Defined.

(** X3.  After [set_user_language] the record of the user holds the
    language and, as time of last activity, the time read last; a user
    who was there keeps the identifier and the time of creation of the
    record, a new user gets the time read first as time of creation.  The
    records of the other users, the habits, the check-ins and the bans
    stay, and the call raises exactly when the file write does, the
    language being set in memory all the same. *)
Theorem set_user_language_get_user dm n1 n2 n3 ok u l :
  let r := set_user_language dm n1 n2 n3 ok u l in
  get_user r.1 u
  = Some match get_user dm u with
         | Some old =>
             mkuser (user_user_id old) (user_created_at old)
               (datetime_isoformat n3) (Some l)
         | None =>
             mkuser u (datetime_isoformat n1) (datetime_isoformat n3) (Some l)
         end
  ∧ (∀ v, v ≠ u → get_user r.1 v = get_user dm v)
  ∧ (habits r.1, checkins r.1, banned_users r.1)
    = (habits dm, checkins dm, banned_users dm)
  ∧ r.2 = (if ok then Returned else Raised).
Proof.
  intros r. subst r. unfold set_user_language, get_user. cbv zeta.
  cbn [fst snd users with_users]. repeat apply conj.
  - rewrite dict_get_set_eq. by destruct (dict_get (users dm) (str_of_int u)).
  - intros v Hne. apply dict_get_set_ne. by apply str_of_int_ne.
  - done.
  - done.
Qed.

(** X4.  [update_user_activity] never registers a user: for a user
    without a record it changes nothing and does not write the file, so
    that it returns whatever the state of the disk; for a user with a
    record it changes the time of last activity only.  The keys of the
    users and the records of the other users are as before. *)
Theorem update_user_activity_known_users_only dm now ok u :
  let r := update_user_activity dm now ok u in
  (get_user dm u = None → r = (dm, Returned))
  ∧ (∀ old, get_user dm u = Some old →
       get_user r.1 u
       = Some (mkuser (user_user_id old) (user_created_at old)
                 (datetime_isoformat now) (user_language old))
       ∧ r.2 = (if ok then Returned else Raised))
  ∧ dict_keys (users r.1) = dict_keys (users dm)
  ∧ (∀ v, v ≠ u → get_user r.1 v = get_user dm v)
  ∧ (habits r.1, checkins r.1, banned_users r.1)
    = (habits dm, checkins dm, banned_users dm).
Proof.
  intros r. subst r. unfold update_user_activity, get_user. cbv zeta.
  destruct (dict_get (users dm) (str_of_int u)) as [old|] eqn:E;
    cbn [fst snd users with_users]; repeat apply conj; try done.
  - intros ? [= <-]. by rewrite dict_get_set_eq.
  - apply dict_set_keys. by rewrite E.
  - intros v Hne. apply dict_get_set_ne. by apply str_of_int_ne.
Qed.

Lemma update_user_activity_known_users_only_witness :
  update_user_activity init sample_now false 7 = (init, Returned).
Proof.
  destruct (update_user_activity_known_users_only init sample_now false 7)
    as (H & _).
  apply H. reflexivity.
Defined.

End store_extras.

Section store_extras_checkins.
Import PyStr PyDate DataManager.

Lemma dict_get_app_fresh {K V} `{EqDecision K} (d : dict K V) k v :
  dict_get d k = None → dict_get (d ++ [(k, v)]) k = Some v.
Proof.
  intros Hg. rewrite <- (dict_set_fresh _ _ _ Hg). apply dict_get_set_eq.
Qed.

Lemma is_checked_in_today_spec dm today u h :
  is_checked_in_today dm today u h = true ↔ checked_in dm u h today.
Proof.
  unfold is_checked_in_today, checked_in. cbv zeta.
  destruct (dict_get _ _) as [c|]; split.
  - intros Hb. apply bool_decide_eq_true in Hb. by exists c.
  - intros (c' & [= <-] & Hu). by apply bool_decide_eq_true.
  - done.
  - by intros (c' & ? & _).
Qed.

Lemma record_checkin_checked_in dm today now ok u h :
  dict_get (checkins dm) (checkin_key h (isoformat today)) = None →
  is_checked_in_today (record_checkin dm today now ok u h).1 today u h = true.
Proof.
  intros Hfree. rewrite record_checkin_eq. cbv zeta.
  rewrite (proj2 (dict_mem_false _ _) Hfree). cbn [fst].
  apply is_checked_in_today_spec. unfold checked_in.
  cbn [checkins with_checkins]. eexists.
  split; [by apply dict_get_app_fresh|done].
Qed.

(** X5.  A check-in that [record_checkin] takes counts once: when the key
    of the habit and of today is free, [get_total_checkins] of the user
    and the habit is one more after the call, that of every other user or
    habit is what it was, and [is_checked_in_today] answers [True] for the
    user. *)
Theorem record_checkin_counts_once dm today now ok u h :
  dict_mem (checkins dm) (checkin_key h (isoformat today)) = false →
  let dm' := (record_checkin dm today now ok u h).1 in
  get_total_checkins dm' u h = get_total_checkins dm u h + 1
  ∧ (∀ u' h', (u', h') ≠ (u, h) →
       get_total_checkins dm' u' h' = get_total_checkins dm u' h')
  ∧ is_checked_in_today dm' today u h = true.
Proof.
  intros Hfree dm'. subst dm'.
  split; [|split; [|by apply record_checkin_checked_in, dict_mem_false]].
  all: rewrite record_checkin_eq; cbv zeta; rewrite Hfree; cbn [fst].
  - rewrite !get_total_checkins_eq. cbn [checkins with_checkins].
    unfold dict_values. rewrite fmap_app, filter_app, length_app.
    cbn [fmap list_fmap snd]. rewrite filter_cons.
    rewrite decide_True by done. cbn. lia.
  - intros u' h' Hne. rewrite !get_total_checkins_eq.
    cbn [checkins with_checkins].
    unfold dict_values. rewrite fmap_app, filter_app, length_app.
    cbn [fmap list_fmap snd]. rewrite filter_cons.
    rewrite decide_False; [cbn; lia|]. cbn. intros [-> ->]. done.
Qed.

Lemma record_checkin_counts_once_witness :
  get_total_checkins sample_checked 1 sample_habit
  = get_total_checkins init 1 sample_habit + 1
  ∧ is_checked_in_today sample_checked sample_today 1 sample_habit = true.
Proof.
  destruct (record_checkin_counts_once init sample_today sample_now true 1
              sample_habit) as (H1 & _ & H3).
  - reflexivity.
  - split; [exact H1|exact H3].
Defined.

(** X6.  The streak and the check-in of today, for a date [today] of the
    calendar: without a check-in of the user for the habit today the
    streak is 0, whatever the days before; with one, the streak is at
    least 1 provided that [today] is at least the 365th day of the
    calendar, so that the loop does not leave it. *)
Theorem streak_starts_today dm today u h :
  valid today →
  (is_checked_in_today dm today u h = false →
   get_current_streak dm today u h = 0)
  ∧ (365 <= toordinal today →
     is_checked_in_today dm today u h = true →
     1 <= get_current_streak dm today u h <= 365).
Proof.
  intros Hv. pose proof (toordinal_range today Hv) as Hr. split.
  - intros Hno. unfold get_current_streak.
    rewrite seqZ_cons by lia. cbn [streak_loop].
    rewrite sub_days_Some by lia. rewrite days_ago_0 by done.
    unfold is_checked_in_today in Hno. cbv zeta in Hno.
    destruct (dict_get _ _) as [c|]; [|done].
    apply bool_decide_eq_false in Hno. by rewrite decide_False.
  - intros Hord Hyes.
    destruct (current_streak_char dm today u h Hv Hord) as (Hn & _ & Hstop).
    cbv zeta in *.
    destruct (decide (get_current_streak dm today u h = 0)) as [E|]; [|lia].
    exfalso. apply Hstop; [lia|]. rewrite E, days_ago_0 by done.
    by apply is_checked_in_today_spec.
Qed.

Lemma streak_starts_today_witness :
  get_current_streak sample_checked sample_today 2 sample_habit = 0
  ∧ 1 <= get_current_streak sample_checked sample_today 1 sample_habit <= 365.
Proof.
  assert (Hv : valid sample_today) by (by vm_compute).
  assert (Hord : 365 <= toordinal sample_today) by (by vm_compute).
  assert (H2 : is_checked_in_today sample_checked sample_today 2 sample_habit
               = false) by (vm_compute; reflexivity).
  assert (H1 : is_checked_in_today sample_checked sample_today 1 sample_habit
               = true) by (vm_compute; reflexivity).
  split.
  - exact (proj1 (streak_starts_today sample_checked sample_today 2
                    sample_habit Hv) H2).
  - exact (proj2 (streak_starts_today sample_checked sample_today 1
                    sample_habit Hv) Hord H1).
Defined.

(** X7.  A file write that fails is not undone in memory.  When the key of
    the habit and of today is free and the write raises, [record_checkin]
    returns [False], yet the check-in is in the store:
    [is_checked_in_today] answers [True], and the same call made again is
    turned down as a second check-in, also when the write would now
    succeed.  In the same way [add_habit] returns [False] and the habit is
    there and listed. *)
Theorem failed_write_is_kept dm today now now' ok' uuid u h name freq :
  dict_mem (checkins dm) (checkin_key h (isoformat today)) = false →
  let r := record_checkin dm today now false u h in
  let a := add_habit dm uuid now false u name freq in
  r.2 = false
  ∧ is_checked_in_today r.1 today u h = true
  ∧ record_checkin r.1 today now' ok' u h = (r.1, false)
  ∧ a.2 = false
  ∧ ∃ hb, get_habit a.1 u uuid = Some hb ∧ hb ∈ get_user_habits a.1 u.
Proof.
  intros Hfree r a.
  assert (Hin : is_checked_in_today r.1 today u h = true).
  { by apply record_checkin_checked_in, dict_mem_false. }
  repeat apply conj.
  - subst r. rewrite record_checkin_eq. cbv zeta. by rewrite Hfree.
  - done.
  - apply is_checked_in_today_spec in Hin as (c & Hc & _).
    rewrite (record_checkin_eq r.1). cbv zeta.
    by rewrite (proj2 (dict_mem_true _ _) (mk_is_Some _ _ Hc)).
  - done.
  - subst a. unfold add_habit. cbv zeta. cbn [fst]. eexists. split.
    + unfold get_habit. cbn [habits with_habits]. rewrite dict_get_set_eq.
      cbn [habit_user_id]. by rewrite decide_True.
    + unfold get_user_habits. rewrite sort_by_Permutation.
      apply list_elem_of_filter. split; [done|].
      cbn [habits with_habits]. unfold dict_values.
      apply list_elem_of_fmap. eexists (_, _). split; [done|].
      apply dict_get_Some_elem, dict_get_set_eq.
Qed.

Lemma failed_write_is_kept_witness :
  (record_checkin init sample_today sample_now false 1 sample_habit).2 = false
  ∧ is_checked_in_today
      (record_checkin init sample_today sample_now false 1 sample_habit).1
      sample_today 1 sample_habit = true.
Proof.
  destruct (failed_write_is_kept init sample_today sample_now sample_later true
              sample_habit 1 sample_habit (lit "Read") (lit "daily"))
    as (H1 & H2 & _).
  - reflexivity.
  - split; [exact H1|exact H2].
Defined.

End store_extras_checkins.

Section store_extras_habits.
Import PyStr PyDate DataManager.

(** X8.  A habit created under an identifier that is new joins the list
    of its owner and no other: after [add_habit], [get_user_habits] of the
    owner holds the new habit besides the habits it held, the lists of
    the other users are the same, and so is what [get_habit] returns for
    every other identifier. *)
Theorem add_habit_listing dm uuid now ok u name freq :
  dict_mem (habits dm) uuid = false →
  let h := mkhabit uuid u name freq (datetime_isoformat now) (Some true) None in
  let dm' := (add_habit dm uuid now ok u name freq).1 in
  get_user_habits dm' u ≡ₚ h :: get_user_habits dm u
  ∧ (∀ v, v ≠ u → get_user_habits dm' v = get_user_habits dm v)
  ∧ (∀ v id, id ≠ uuid → get_habit dm' v id = get_habit dm v id)
  ∧ (users dm', checkins dm', banned_users dm')
    = (users dm, checkins dm, banned_users dm).
Proof.
  intros Hfree h dm'. apply dict_mem_false in Hfree.
  assert (Hdm' : habits dm' = habits dm ++ [(uuid, h)]).
  { subst dm'. unfold add_habit. cbv zeta. cbn [fst habits with_habits].
    by rewrite (dict_set_fresh _ _ _ Hfree). }
  repeat apply conj.
  - unfold get_user_habits. rewrite !sort_by_Permutation, Hdm'.
    unfold dict_values. rewrite fmap_app, filter_app.
    cbn [fmap list_fmap snd]. rewrite filter_cons.
    rewrite decide_True by done. rewrite filter_nil.
    by rewrite <- Permutation_cons_append.
  - intros v Hne. unfold get_user_habits. rewrite Hdm'.
    unfold dict_values. rewrite fmap_app, filter_app.
    cbn [fmap list_fmap snd]. rewrite filter_cons.
    rewrite decide_False by (cbn; intros [? _]; congruence).
    by rewrite filter_nil, app_nil_r.
  - intros v id Hne. unfold get_habit. subst dm'. unfold add_habit. cbv zeta.
    cbn [fst habits with_habits]. by rewrite dict_get_set_ne.
  - done.
Qed.

Lemma add_habit_listing_witness :
  get_user_habits sample_store 1 ≡ₚ sample_record :: get_user_habits init 1
  ∧ get_user_habits sample_store 2 = get_user_habits init 2.
Proof.
  destruct (add_habit_listing init sample_habit sample_now true 1 (lit "Read")
              (lit "daily")) as (H1 & H2 & _).
  - reflexivity.
  - split; [exact H1|]. apply H2. lia.
Defined.

(** X9.  A habit is read and deleted by its owner only.  [get_habit]
    returns the habit stored under the identifier when its [user_id] is
    that of the caller, and nothing otherwise; [delete_habit] by any other
    user, or for an identifier that is not there, returns [False], leaves
    the store as it is and does not write the file. *)
Theorem habit_access_by_owner dm u id :
  (∀ h, get_habit dm u id = Some h
        ↔ dict_get (habits dm) id = Some h ∧ habit_user_id h = u)
  ∧ (dict_get (habits dm) id = None →
     ∀ now ok, delete_habit dm now ok u id = (dm, false))
  ∧ (∀ h, dict_get (habits dm) id = Some h → habit_user_id h ≠ u →
       get_habit dm u id = None
       ∧ ∀ now ok, delete_habit dm now ok u id = (dm, false)).
Proof.
  unfold delete_habit, get_habit. repeat apply conj.
  - intros h. destruct (dict_get (habits dm) id) as [h'|]; [|split; [done|by intros [? _]]].
    destruct (decide (habit_user_id h' = u)) as [Hu|Hu]; split.
    + by intros [= <-].
    + by intros [[= <-] _].
    + done.
    + intros [[= <-] ?]. done.
  - by intros ->.
  - intros h -> Hne. by rewrite decide_False.
Qed.

Lemma dict_set_keys_prefix {K V} `{EqDecision K} (d : dict K V) k v :
  dict_keys d `prefix_of` dict_keys (dict_set d k v).
Proof.
  destruct (dict_get d k) as [old|] eqn:E.
  - rewrite dict_set_keys by (by rewrite E). done.
  - rewrite (dict_set_fresh _ _ _ E). unfold dict_keys. rewrite fmap_app.
    by apply prefix_app_r.
Qed.

Lemma step_grows dm dm' :
  step dm dm' →
  checkins dm `prefix_of` checkins dm'
  ∧ dict_keys (habits dm) `prefix_of` dict_keys (habits dm')
  ∧ dict_keys (users dm) `prefix_of` dict_keys (users dm')
  ∧ total_commands dm <= total_commands dm'.
Proof.
  intros [].
  - cbn. split_and!; [done|done|apply dict_set_keys_prefix|lia].
  - unfold update_user_activity. cbv zeta.
    destruct (dict_get _ _); cbn; split_and!;
      [done|done|apply dict_set_keys_prefix|lia|done|done|done|lia].
  - cbn. split_and!; [done|apply dict_set_keys_prefix|done|lia].
  - unfold delete_habit. destruct (get_habit _ _ _); cbn; split_and!;
      [done|apply dict_set_keys_prefix|done|lia|done|done|done|lia].
  - rewrite record_checkin_eq. cbv zeta. destruct (dict_mem _ _); cbn;
      split_and!; [done|done|done|lia|by apply prefix_app_r|done|done|lia].
  - cbn. split_and!; [done|done|done|lia].
  - unfold unban_user. cbv zeta. destruct (dict_mem _ _); cbn;
      split_and!; [done|done|done|lia|done|done|done|lia].
  - cbn. split_and!; [done|done|done|lia].
Qed.

(** X10.  The store only grows.  Whatever operations lead from a state
    [dm] to a state [dm'], the check-in records of [dm] are in [dm'],
    unchanged and in their order, before those made since; every habit
    identifier and every user key of [dm] is still there, in its place;
    and the count of commands has not gone down.  No operation deletes or
    rewrites a check-in, or removes a habit or a user. *)
Theorem store_only_grows dm dm' :
  rtc step dm dm' →
  checkins dm `prefix_of` checkins dm'
  ∧ dict_keys (habits dm) `prefix_of` dict_keys (habits dm')
  ∧ dict_keys (users dm) `prefix_of` dict_keys (users dm')
  ∧ total_commands dm <= total_commands dm'.
Proof.
  intros H. induction H as [dm|dm dm1 dm2 Hs _ IH].
  - split_and!; [done|done|done|lia].
  - apply step_grows in Hs.
    destruct Hs as (H1 & H2 & H3 & H4), IH as (G1 & G2 & G3 & G4).
    split_and!; [by etrans|by etrans|by etrans|lia].
Qed.

Lemma store_only_grows_witness :
  checkins sample_checked
  `prefix_of` checkins (delete_habit sample_checked sample_later true 1
                          sample_habit).1.
Proof.
  destruct (store_only_grows sample_checked
              (delete_habit sample_checked sample_later true 1 sample_habit).1)
    as (H & _).
  - apply rtc_once. constructor.
  - exact H.
Defined.

Lemma days_ago_toordinal today i :
  1 <= toordinal today <= MAXORDINAL → 365 <= toordinal today → 0 <= i < 365 →
  toordinal (days_ago today i) = toordinal today - i.
Proof.
  intros Hr Hord Hi. unfold days_ago.
  destruct (toordinal_ord2ymd (toordinal today - i)) as [_ Ei]; [lia|]. exact Ei.
Qed.

Lemma days_ago_inj today i j :
  1 <= toordinal today <= MAXORDINAL → 365 <= toordinal today →
  0 <= i < 365 → 0 <= j < 365 →
  days_ago today i = days_ago today j → i = j.
Proof.
  intros Hr Hord Hi Hj E.
  assert (E' : toordinal (days_ago today i) = toordinal (days_ago today j))
    by (by rewrite E).
  rewrite !days_ago_toordinal in E' by done. lia.
Qed.

Lemma days_ago_nonneg today i :
  1 <= toordinal today <= MAXORDINAL → 365 <= toordinal today → 0 <= i < 365 →
  nonneg (days_ago today i).
Proof.
  intros Hr Hord Hi.
  assert (Hv : valid (days_ago today i)) by (apply ord2ymd_valid; lia).
  destruct Hv as (? & ? & ?). unfold nonneg. lia.
Qed.

(** The days of a streak are written differently. *)
Lemma streak_days_distinct today n :
  valid today → 365 <= toordinal today → 0 <= n <= 365 →
  NoDup ((λ i, isoformat (days_ago today i)) <$> seqZ 0 n).
Proof.
  intros Hv Hord Hn. apply toordinal_range in Hv.
  apply NoDup_fmap_2_strong; [|apply NoDup_seqZ].
  intros i j Hi Hj E. apply elem_of_seqZ in Hi, Hj.
  apply isoformat_inj in E.
  - apply (days_ago_inj today i j); [done|done|lia|lia|done].
  - apply days_ago_nonneg; [done|done|lia].
  - apply days_ago_nonneg; [done|done|lia].
Qed.

(** In a state the store reaches, each day of a streak has a record of
    the user for the habit. *)
Lemma streak_days_recorded dm today u h n :
  reachable dm →
  (∀ i, 0 <= i < n → checked_in dm u h (days_ago today i)) →
  ∀ day, day ∈ (λ i, isoformat (days_ago today i)) <$> seqZ 0 n →
  day ∈ checkin_date
        <$> filter (λ c, checkin_user_id c = u ∧ checkin_habit_id c = h)
              (dict_values (checkins dm)).
Proof.
  intros Hreach Hall day Hday.
  apply list_elem_of_fmap in Hday as (i & -> & Hi). apply elem_of_seqZ in Hi.
  destruct (Hall i) as (c & Hc & Hu); [lia|].
  apply dict_get_Some_elem in Hc.
  destruct (reachable_well_keyed dm Hreach) as [_ Hkeyed].
  destruct (proj1 (Forall_forall _ _) (reachable_dated dm Hreach) _ Hc)
    as (d' & Hd').
  pose proof (proj1 (Forall_forall _ _) Hkeyed _ Hc) as Hk.
  cbn [fst snd] in Hk, Hd'. rewrite Hd' in Hk.
  apply checkin_key_split in Hk as [Hh Hd];
    [|apply isoformat_no_underscore..].
  apply list_elem_of_fmap. exists c. split; [by rewrite Hd'|].
  apply list_elem_of_filter. split; [done|].
  unfold dict_values. apply list_elem_of_fmap.
  by exists (checkin_key h (isoformat (days_ago today i)), c).
Qed.

(** X11.  In every state the store reaches, and for a date [today] of the
    calendar that is at least its 365th day, the streak of a user for a
    habit is at most the number of check-ins [get_total_checkins] counts
    for them: the days of the streak have a record each. *)
Theorem streak_at_most_total dm today u h :
  reachable dm → valid today → 365 <= toordinal today →
  get_current_streak dm today u h <= get_total_checkins dm u h.
Proof.
  intros Hreach Hv Hord.
  destruct (current_streak_char dm today u h Hv Hord) as (Hn & Hall & _).
  pose proof (streak_days_distinct today _ Hv Hord Hn) as Hnd.
  pose proof (streak_days_recorded dm today u h _ Hreach Hall) as Hin.
  pose proof (submseteq_length _ _ (NoDup_submseteq _ _ Hnd Hin)) as Hlen.
  rewrite !length_fmap, length_seqZ in Hlen.
  rewrite get_total_checkins_eq. lia.
Qed.

Lemma streak_at_most_total_witness :
  get_current_streak (sample_run 3) sample_today 1 sample_habit
  <= get_total_checkins (sample_run 3) 1 sample_habit.
Proof.
  apply (streak_at_most_total (sample_run 3) sample_today 1 sample_habit).
  - apply sample_run_reachable.
  - by vm_compute.
  - by vm_compute.
Defined.

End store_extras_habits.

Section store_extras_broadcast.
Import PyStr PyDate DataManager.
Variable fromisoformat : str → option datetime.

(** The users the loop of [get_all_active_users] keeps. *)
Lemma active_users_loop dm week_ago (l : list user) : ∀ acc r,
  foldl
    (λ acc user_data,
       match acc with
       | None => None
       | Some active_users =>
           if is_user_banned dm (user_user_id user_data)
           then Some active_users
           else
             match user_last_active user_data with
             | [] => Some active_users
             | _ :: _ =>
                 match fromisoformat (user_last_active user_data) with
                 | None => None
                 | Some last_active =>
                     if decide (datetime_lt last_active week_ago)
                     then Some active_users
                     else Some (active_users ++ [user_data])
                 end
             end
       end)
    acc l = Some r →
  ∃ acc0 kept,
    acc = Some acc0 ∧ r = acc0 ++ kept ∧ kept `sublist_of` l
    ∧ ∀ x, x ∈ kept
           ↔ x ∈ l ∧ is_user_banned dm (user_user_id x) = false
             ∧ user_last_active x ≠ []
             ∧ ∃ last_active,
                 fromisoformat (user_last_active x) = Some last_active
                 ∧ ¬ datetime_lt last_active week_ago.
Proof.
  induction l as [|y l IH]; intros acc r Hr.
  - cbn in Hr. subst acc. exists r, []. rewrite app_nil_r.
    split; [done|]. split; [done|]. split; [done|].
    intros x. split; [by intros ?%elem_of_nil|by intros [?%elem_of_nil _]].
  - cbn [foldl] in Hr. apply IH in Hr as (acc1 & kept & Hacc & -> & Hsub & Hkept).
    destruct acc as [acc0|]; [|done].
    destruct (is_user_banned dm (user_user_id y)) eqn:Hb.
    { injection Hacc as <-. exists acc0, kept.
      split; [done|]. split; [done|]. split; [by apply sublist_cons|].
      intros x. rewrite Hkept, elem_of_cons. split.
      - intros (? & ?). split; [by right|done].
      - intros ([->|?] & Hx); [|done]. destruct Hx as [Hx _]. congruence. }
    destruct (user_last_active y) as [|ch rest] eqn:Hla.
    { injection Hacc as <-. exists acc0, kept.
      split; [done|]. split; [done|]. split; [by apply sublist_cons|].
      intros x. rewrite Hkept, elem_of_cons. split.
      - intros (? & ?). split; [by right|done].
      - intros ([->|?] & Hx); [|done]. destruct Hx as (_ & Hx & _). congruence. }
    rewrite <- Hla in *.
    destruct (fromisoformat (user_last_active y)) as [la|] eqn:Hparse; [|done].
    destruct (decide (datetime_lt la week_ago)) as [Hold|Hnew].
    { injection Hacc as <-. exists acc0, kept.
      split; [done|]. split; [done|]. split; [by apply sublist_cons|].
      intros x. rewrite Hkept, elem_of_cons. split.
      - intros (? & ?). split; [by right|done].
      - intros ([->|?] & Hx); [|done].
        destruct Hx as (_ & _ & la' & Hla' & Hnot). congruence. }
    injection Hacc as <-. exists acc0, (y :: kept).
    split; [done|]. split; [by rewrite <- app_assoc|].
    split; [by apply sublist_skip|].
    intros x. rewrite !elem_of_cons, Hkept. split.
    + intros [->|(? & ?)]; [|split; [by right|done]].
      split; [by left|]. split; [done|]. split; [by rewrite Hla|].
      by exists la.
    + intros ([->|?] & Hx); [by left|by right].
Qed.

(** X12.  The list for a broadcast leaves the banned users out.  When
    [get_all_active_users] returns, its result holds, in the order of the
    store, exactly the users who are not banned and whose time of last
    activity, read back with [datetime.fromisoformat], is not more than
    seven days before the time read, whatever that function returns; a
    user whom [ban_user] has just banned is not in it, also when the file
    write of the ban failed. *)
Theorem broadcast_list_excludes_banned dm now l :
  get_all_active_users fromisoformat dm now = Some l →
  l `sublist_of` dict_values (users dm)
  ∧ (∃ week_ago,
       datetime_sub_days now 7 = Some week_ago
       ∧ ∀ x, x ∈ l
              ↔ x ∈ dict_values (users dm)
                ∧ is_user_banned dm (user_user_id x) = false
                ∧ user_last_active x ≠ []
                ∧ ∃ last_active,
                    fromisoformat (user_last_active x) = Some last_active
                    ∧ ¬ datetime_lt last_active week_ago)
  ∧ (∀ dm0 now0 ok u reason by_,
       dm = (ban_user dm0 now0 ok u reason by_).1 →
       ∀ x, x ∈ l → user_user_id x ≠ u).
Proof.
  unfold get_all_active_users. intros H.
  destruct (datetime_sub_days now 7) as [week_ago|]; [|done].
  apply active_users_loop in H as (acc0 & kept & [= <-] & -> & Hsub & Hkept).
  cbn [app]. split; [done|]. split; [by exists week_ago|].
  intros dm0 now0 ok u reason by_ -> x Hx Hu.
  apply Hkept in Hx as (_ & Hb & _). rewrite Hu in Hb.
  by rewrite is_user_banned_ban in Hb.
Qed.

End store_extras_broadcast.

Section store_extras_broadcast_run.
Import PyStr PyDate DataManager.

Lemma broadcast_list_excludes_banned_witness :
  get_all_active_users (λ _, Some sample_now) sample_users sample_later
  = Some [mkuser 1 (datetime_isoformat sample_now)
            (datetime_isoformat sample_now) (Some (lit "en"))]
  ∧ ∀ x,
      x ∈ [mkuser 1 (datetime_isoformat sample_now)
             (datetime_isoformat sample_now) (Some (lit "en"))] →
      user_user_id x ≠ 2.
Proof.
  assert (H : get_all_active_users (λ _, Some sample_now) sample_users
                sample_later
              = Some [mkuser 1 (datetime_isoformat sample_now)
                        (datetime_isoformat sample_now) (Some (lit "en"))])
    by (by vm_compute).
  split; [exact H|].
  destruct (broadcast_list_excludes_banned (λ _, Some sample_now) sample_users
              sample_later _ H) as (_ & _ & Hban).
  apply (Hban sample_two_users sample_later true 2 (lit "spam") 1). reflexivity.
Defined.

End store_extras_broadcast_run.

Section store_extras_statistics.
Import PyStr PyDate DataManager.
Variable fromisoformat : str → option datetime.

Lemma count_since_bounds stamp since count count' :
  count_since fromisoformat stamp since count = Some count' →
  count <= count' <= count + 1.
Proof.
  unfold count_since. destruct stamp; [intros [= <-]; lia|].
  destruct (fromisoformat _); [|done].
  destruct (decide _); intros [= <-]; lia.
Qed.

(** The counters of the loop over the users. *)
Lemma statistics_user_loop week_ago today_start (l : list user) :
  ∀ a n r e a' n' r' e',
    foldl
      (λ acc user_data,
         match acc with
         | None => None
         | Some (active_users_7d, new_users_today, russian_users,
                 english_users) =>
             match count_since fromisoformat (user_last_active user_data)
                     week_ago active_users_7d with
             | None => None
             | Some active_users_7d =>
                 match count_since fromisoformat (user_created_at user_data)
                         today_start new_users_today with
                 | None => None
                 | Some new_users_today =>
                     let lang := default (lit "en") (user_language user_data) in
                     if decide (lang = lit "ru")
                     then Some (active_users_7d, new_users_today,
                                russian_users + 1, english_users)
                     else Some (active_users_7d, new_users_today,
                                russian_users, english_users + 1)
                 end
             end
         end)
      (Some (a, n, r, e)) l = Some (a', n', r', e') →
    a <= a' <= a + Z.of_nat (length l)
    ∧ n <= n' <= n + Z.of_nat (length l)
    ∧ r' - r
      = Z.of_nat (length (filter (λ x, default (lit "en") (user_language x)
                                       = lit "ru") l))
    ∧ e' - e
      = Z.of_nat (length (filter (λ x, default (lit "en") (user_language x)
                                       ≠ lit "ru") l)).
Proof.
  induction l as [|x l IH]; intros a n r e a' n' r' e' H.
  - cbn in H. injection H as <- <- <- <-. cbn. lia.
  - cbn [foldl] in H.
    destruct (count_since fromisoformat (user_last_active x) week_ago a)
      as [a1|] eqn:Ea.
    2:{ exfalso. clear -H. induction l as [|y l IH]; [done|]. by apply IH. }
    destruct (count_since fromisoformat (user_created_at x) today_start n)
      as [n1|] eqn:En.
    2:{ exfalso. clear -H. induction l as [|y l IH]; [done|]. by apply IH. }
    apply count_since_bounds in Ea, En. cbv zeta in H.
    rewrite !filter_cons.
    destruct (decide (default (lit "en") (user_language x) = lit "ru")) as [Hl|Hl].
    + apply IH in H as (Ha & Hn & Hr & He).
      rewrite decide_False by (intros Hne; by apply Hne).
      cbn [length]. lia.
    + apply IH in H as (Ha & Hn & Hr & He).
      rewrite decide_True by done. cbn [length]. lia.
Qed.

Lemma foldl_count {A} (P : A → Prop) `{∀ x, Decision (P x)} (l : list A) :
  ∀ n, foldl (λ count x, if decide (P x) then count + 1 else count) n l
       = n + Z.of_nat (length (filter P l)).
Proof.
  induction l as [|x l IH]; intros n; cbn [foldl].
  - cbn. lia.
  - rewrite IH, filter_cons. destruct (decide (P x)); cbn [length]; lia.
Qed.

(** X13.  The numbers of [get_bot_statistics] agree with each other and
    with the store.  When it returns them, whatever
    [datetime.fromisoformat] does: the users counted as Russian are those
    whose language is ["ru"], the others are counted as English, and the
    two counts add up to the number of users; the users active in the
    last seven days and the new users of today are at most the number of
    users; the active habits are those whose flag is not off, at most
    the number of habits; the check-ins of today are the records dated
    today, at most the number of check-ins; and the average is taken over
    at least one user. *)
Theorem statistics_are_consistent dm now today st :
  get_bot_statistics fromisoformat dm now today = Some st →
  stats_total_users st = Z.of_nat (length (users dm))
  ∧ stats_russian_users st + stats_english_users st = stats_total_users st
  ∧ stats_russian_users st
    = Z.of_nat (length (filter (λ x, user_language x = Some (lit "ru"))
                          (dict_values (users dm))))
  ∧ 0 <= stats_active_users_7d st <= stats_total_users st
  ∧ 0 <= stats_new_users_today st <= stats_total_users st
  ∧ stats_active_habits st
    = Z.of_nat (length (filter (λ h, habit_active h ≠ Some false)
                          (dict_values (habits dm))))
  ∧ 0 <= stats_active_habits st <= stats_total_habits st
  ∧ stats_checkins_today st
    = Z.of_nat (length (filter (λ c, checkin_date c = isoformat today)
                          (dict_values (checkins dm))))
  ∧ 0 <= stats_checkins_today st <= stats_total_checkins st
  ∧ stats_avg_habits_per_user st
    = (stats_active_habits st, Z.max (stats_total_users st) 1)
  ∧ 1 <= (stats_avg_habits_per_user st).2.
Proof.
  unfold get_bot_statistics. intros H.
  destruct (datetime_sub_days now 7) as [week_ago|]; [|done]. cbv zeta in H.
  destruct (foldl _ (Some (0, 0, 0, 0)) (dict_values (users dm)))
    as [[[[a n] r] e]|] eqn:Eloop; [|done].
  apply statistics_user_loop in Eloop as (Ha & Hn & Hr & He).
  injection H as <-. cbn [stats_total_users stats_russian_users
    stats_english_users stats_active_users_7d stats_new_users_today
    stats_active_habits stats_total_habits stats_checkins_today
    stats_total_checkins stats_avg_habits_per_user snd].
  unfold dict_values in *. rewrite length_fmap in Ha, Hn.
  pose proof (length_filter (λ x, default (lit "en") (user_language x) = lit "ru")
                (users dm).*2) as Hlr.
  assert (Hsplit : (length (filter (λ x, default (lit "en") (user_language x)
                                         = lit "ru") (users dm).*2)
                    + length (filter (λ x, default (lit "en") (user_language x)
                                           ≠ lit "ru") (users dm).*2)
                    = length (users dm))%nat).
  { rewrite <- (length_fmap snd (users dm)).
    generalize ((users dm).*2). intros l. induction l as [|x l IH]; [done|].
    rewrite !filter_cons. destruct (decide (_ = _)) as [Hl|Hl].
    - rewrite decide_False by (intros Hne; by apply Hne). cbn [length]. lia.
    - rewrite decide_True by done. cbn [length]. lia. }
  assert (Hru : filter (λ x, default (lit "en") (user_language x) = lit "ru")
                  (users dm).*2
                = filter (λ x, user_language x = Some (lit "ru")) (users dm).*2).
  { apply list_filter_iff. intros x. destruct (user_language x) as [l|]; cbn.
    - split; [by intros ->|by intros [= ->]].
    - split; [by vm_compute|done]. }
  assert (Hact : filter (λ h, get_active h = true) (habits dm).*2
                 = filter (λ h, habit_active h ≠ Some false) (habits dm).*2).
  { apply list_filter_iff. intros h. unfold get_active.
    destruct (habit_active h) as [[|]|]; cbn; split; done. }
  rewrite foldl_count, <- Hru, <- Hact.
  pose proof (length_filter (λ h, get_active h = true) (habits dm).*2) as Hla.
  pose proof (length_filter (λ c, checkin_date c = isoformat today)
                (checkins dm).*2) as Hlc.
  rewrite length_fmap in Hla. rewrite length_fmap in Hlc.
  repeat apply conj; try done; lia.
Qed.

End store_extras_statistics.

Section store_extras_frequency.
Import PyStr PyDate DataManager.

Lemma statistics_are_consistent_witness :
  ∃ st,
    get_bot_statistics (λ _, Some sample_now) sample_users sample_later
      sample_today = Some st
    ∧ stats_russian_users st + stats_english_users st = stats_total_users st.
Proof.
  destruct (get_bot_statistics (λ _, Some sample_now) sample_users sample_later
              sample_today) as [st|] eqn:E; [|by vm_compute in E].
  exists st. split; [done|].
  by destruct (statistics_are_consistent (λ _, Some sample_now) _ _ _ _ E)
    as (_ & H & _).
Defined.

(** The number of active habits of the frequency [f] among [l]. *)
Lemma frequency_count_loop (l : list habit) :
  ∀ f,
    dict_get
      (foldl
         (λ frequency_count habit,
            if get_active habit then
              dict_set frequency_count (habit_frequency habit)
                (default 0 (dict_get frequency_count (habit_frequency habit))
                 + 1)
            else frequency_count)
         [] l) f
    = if decide (0 < Z.of_nat (length (filter (λ h, get_active h = true
                                                    ∧ habit_frequency h = f) l)))
      then Some (Z.of_nat (length (filter (λ h, get_active h = true
                                                ∧ habit_frequency h = f) l)))
      else None.
Proof.
  induction l as [|h l IH] using rev_ind; intros f; [done|].
  rewrite foldl_app. cbn [foldl].
  pose proof (IH f) as IHf. pose proof (IH (habit_frequency h)) as IHh.
  revert IHf IHh. generalize (foldl
         (λ frequency_count habit,
            if get_active habit then
              dict_set frequency_count (habit_frequency habit)
                (default 0 (dict_get frequency_count (habit_frequency habit))
                 + 1)
            else frequency_count)
         [] l).
  intros fc IHf IHh.
  rewrite filter_app, length_app, filter_cons, filter_nil.
  destruct (get_active h) eqn:Hact.
  - destruct (decide (habit_frequency h = f)) as [Hf|Hf].
    + subst f. rewrite dict_get_set_eq, IHh.
      destruct (decide (true = true ∧ habit_frequency h = habit_frequency h))
        as [_|Hn]; [|by destruct Hn]. cbn [length].
      destruct (decide (0 < Z.of_nat (length (filter _ l)))) as [Hpos|Hzero];
        cbv [default from_option id].
      * rewrite decide_True by lia. f_equal. lia.
      * rewrite decide_True by lia. f_equal. lia.
    + rewrite dict_get_set_ne by done. rewrite IHf.
      destruct (decide (true = true ∧ habit_frequency h = f))
        as [[_ ?]|_]; [done|]. cbn [length].
      by rewrite Nat.add_0_r.
  - rewrite IHf.
    destruct (decide (false = true ∧ habit_frequency h = f))
      as [[? _]|_]; [done|]. cbn [length]. by rewrite Nat.add_0_r.
Qed.

Lemma max_key_loop (v : str → Z) (ks : list str) : ∀ best,
  (foldl (λ best k, if decide (v best < v k) then k else best) best ks = best
   ∨ foldl (λ best k, if decide (v best < v k) then k else best) best ks ∈ ks)
  ∧ v best
    <= v (foldl (λ best k, if decide (v best < v k) then k else best) best ks)
  ∧ ∀ k, k ∈ ks →
         v k
         <= v (foldl (λ best k, if decide (v best < v k) then k else best)
                 best ks).
Proof.
  induction ks as [|k ks IH]; intros best; cbn [foldl].
  - split; [by left|]. split; [done|]. by intros k ?%elem_of_nil.
  - destruct (decide (v best < v k)) as [Hlt|Hge].
    + destruct (IH k) as (Hin & Hle & Hall).
      split; [right; destruct Hin as [->|?]; [by left|by right]|].
      split; [lia|]. intros k' [->|Hk']%elem_of_cons; [done|by apply Hall].
    + destruct (IH best) as (Hin & Hle & Hall).
      split; [destruct Hin as [->|?]; [by left|right; by right]|].
      split; [done|]. intros k' [->|Hk']%elem_of_cons; [lia|by apply Hall].
Qed.

Lemma max_key_spec (d : dict str Z) :
  match max_key d with
  | None => d = []
  | Some k =>
      k ∈ dict_keys d
      ∧ ∀ k', k' ∈ dict_keys d →
              default 0 (dict_get d k') <= default 0 (dict_get d k)
  end.
Proof.
  unfold max_key. destruct (dict_keys d) as [|k ks] eqn:E.
  - unfold dict_keys in E. by apply fmap_nil_inv in E.
  - destruct (max_key_loop (λ k, default 0 (dict_get d k)) ks k)
      as (Hin & Hle & Hall). cbv beta in *.
    split; [destruct Hin as [->|?]; [by left|by right]|].
    intros k' [->|Hk']%elem_of_cons; [done|by apply Hall].
Qed.

(** X14.  The most popular frequency of the statistics is a most
    frequent one.  When [get_bot_statistics] returns, whatever
    [datetime.fromisoformat] does: without an active habit the frequency
    returned is ["daily"]; otherwise it is the frequency of an active
    habit, and no frequency has more active habits than it has. *)
Theorem most_popular_frequency_is_most_frequent
    (fromisoformat : str → option datetime) dm now today st :
  get_bot_statistics fromisoformat dm now today = Some st →
  let active f :=
    Z.of_nat (length (filter (λ h, get_active h = true ∧ habit_frequency h = f)
                        (dict_values (habits dm)))) in
  (stats_active_habits st = 0 →
   stats_most_popular_frequency st = lit "daily")
  ∧ (0 < stats_active_habits st →
     0 < active (stats_most_popular_frequency st)
     ∧ ∀ f, active f <= active (stats_most_popular_frequency st)).
Proof.
  intros H active. unfold get_bot_statistics in H.
  destruct (datetime_sub_days now 7) as [week_ago|]; [|done]. cbv zeta in H.
  destruct (foldl _ (Some (0, 0, 0, 0)) (dict_values (users dm)))
    as [[[[a n] r] e]|]; [|done].
  injection H as <-. cbn [stats_active_habits stats_most_popular_frequency].
  assert (Hget : ∀ f, dict_get (frequency_count dm) f
                      = if decide (0 < active f) then Some (active f) else None).
  { intros f. exact (frequency_count_loop (dict_values (habits dm)) f). }
  assert (Hle : ∀ f, active f
                     <= Z.of_nat (length (filter (λ h, get_active h = true)
                                            (dict_values (habits dm))))).
  { intros f. subst active. cbv beta. apply inj_le.
    generalize (dict_values (habits dm)). intros l.
    induction l as [|h l IH]; [done|]. rewrite !filter_cons.
    destruct (decide (get_active h = true ∧ habit_frequency h = f)) as [[? ?]|].
    - rewrite decide_True by done. cbn [length]. lia.
    - destruct (decide (get_active h = true)); cbn [length]; lia. }
  pose proof (max_key_spec (frequency_count dm)) as Hmax.
  split.
  - intros Hnone. destruct (max_key (frequency_count dm)) as [k|]; [|done].
    exfalso. destruct Hmax as [Hk _].
    assert (Hsome : dict_get (frequency_count dm) k ≠ None).
    { intros Hn. by apply dict_get_None in Hn. }
    rewrite Hget in Hsome. destruct (decide (0 < active k)); [|done].
    specialize (Hle k). lia.
  - intros Hsome.
    assert (∃ f, 0 < active f) as [f0 Hf0].
    { destruct (filter (λ h, get_active h = true) (dict_values (habits dm)))
        as [|h l] eqn:E; [cbn in Hsome; lia|].
      assert (Hh : h ∈ filter (λ h, get_active h = true)
                         (dict_values (habits dm))) by (rewrite E; by left).
      apply list_elem_of_filter in Hh as [Hact Hh].
      exists (habit_frequency h). subst active. cbv beta.
      assert (Hin : h ∈ filter (λ h0, get_active h0 = true
                                       ∧ habit_frequency h0 = habit_frequency h)
                          (dict_values (habits dm))).
      { apply list_elem_of_filter. done. }
      revert Hin.
      generalize (filter (λ h0, get_active h0 = true
                                ∧ habit_frequency h0 = habit_frequency h)
                    (dict_values (habits dm))).
      intros lf Hin. destruct lf; [by apply elem_of_nil in Hin|].
      cbn [length]. lia. }
    destruct (max_key (frequency_count dm)) as [k|].
    + destruct Hmax as [Hk Hall]. cbn [default].
      assert (Hk' : dict_get (frequency_count dm) k ≠ None).
      { intros Hn. by apply dict_get_None in Hn. }
      rewrite Hget in Hk'. destruct (decide (0 < active k)) as [Hpos|]; [|done].
      split; [done|]. intros f.
      destruct (decide (0 < active f)) as [Hf|Hf];
        [|unfold active in *; lia].
      assert (Hfk : f ∈ dict_keys (frequency_count dm)).
      { destruct (decide (f ∈ dict_keys (frequency_count dm))) as [|Hn]; [done|].
        apply dict_get_None in Hn. rewrite Hget in Hn.
        by rewrite decide_True in Hn. }
      specialize (Hall f Hfk). rewrite !Hget in Hall.
      rewrite !decide_True in Hall by done. done.
    + exfalso. pose proof (Hget f0) as Hg. rewrite Hmax in Hg.
      by rewrite decide_True in Hg.
Qed.

Lemma most_popular_frequency_is_most_frequent_witness :
  ∃ st,
    get_bot_statistics (λ _, Some sample_now) sample_store sample_later
      sample_today = Some st
    ∧ stats_most_popular_frequency st = lit "daily"
    ∧ 0 < Z.of_nat (length (filter (λ h, get_active h = true
                                         ∧ habit_frequency h
                                           = stats_most_popular_frequency st)
                              (dict_values (habits sample_store)))).
Proof.
  destruct (get_bot_statistics (λ _, Some sample_now) sample_store sample_later
              sample_today) as [st|] eqn:E; [|by vm_compute in E].
  exists st. split; [done|].
  destruct (most_popular_frequency_is_most_frequent (λ _, Some sample_now)
              _ _ _ _ E) as [_ H].
  split; [by vm_compute in E; injection E as <-|].
  apply H. by vm_compute in E; injection E as <-.
Defined.

End store_extras_frequency.

(** ** The rate guard *)

Section pacing_extras.
Import ThrottlingMiddleware.

(** X15.  [_cleanup_old_entries] removes the times of last acceptance
    that are more than an hour before the time it reads, and nothing
    else: a user has a time stored afterwards exactly when that time was
    stored before and is at most an hour old.  The interval is kept. *)
Theorem cleanup_keeps_the_last_hour s now :
  let s' := _cleanup_old_entries s now in
  rate_limit s' = rate_limit s
  ∧ ∀ u ts, user_requests s' !! u = Some ts
            ↔ user_requests s !! u = Some ts ∧ now - HOUR <= ts.
Proof.
  intros s'. split; [done|]. intros u ts. subst s'. rewrite cleanup_lookup.
  destruct (user_requests s !! u) as [ts'|]; [|by split; [|intros [? _]]].
  destruct (decide (ts' < now - HOUR)); split.
  - done.
  - intros [[= ->] ?]. lia.
  - intros [= ->]. split; [done|lia].
  - by intros [? _].
Qed.

(** X16.  The wait that is announced is honest.  When an update is
    dropped, the wait time sent is positive and ends when the interval
    since the time of last acceptance is over; the same update read
    before that time is dropped again, read at that time or later it is
    handled. *)
Theorem throttling_wait_is_honest s e t_check t_store t_clean w :
  (__call__ s e t_check t_store t_clean).2 = Dropped w →
  0 < w
  ∧ (∀ t t_store' t_clean',
       t < t_check + w →
       ∃ w', (__call__ s e t t_store' t_clean').2 = Dropped w'
             ∧ t + w' = t_check + w)
  ∧ (∀ t t_store' t_clean',
       t_check + w <= t →
       (__call__ s e t t_store' t_clean').2 = Handled).
Proof.
  intros H.
  assert (∃ u, event_user_id e = Some u) as [u Hu].
  { unfold __call__ in H. destruct (event_user_id e); [eauto|done]. }
  destruct (pacing_call s e u t_check t_store t_clean Hu) as (H1 & _).
  destruct (proj1 (H1 w) H) as (last & Hl & Hlt & Hw). subst w.
  repeat apply conj.
  - lia.
  - intros t t_store' t_clean' Ht.
    destruct (pacing_call s e u t t_store' t_clean' Hu) as (G1 & _).
    eexists. split; [apply G1; exists last; split; [done|split; [lia|done]]|lia].
  - intros t t_store' t_clean' Ht.
    destruct (pacing_call s e u t t_store' t_clean' Hu) as (_ & G2 & _).
    apply G2. intros last' Hl'. rewrite Hl in Hl'. injection Hl' as <-. lia.
Qed.

Lemma throttling_wait_is_honest_witness :
  (__call__ (__call__ init sample_event 0 0 0).1 sample_event
     (SECOND - 1) 0 0).2 = Dropped 1
  ∧ (__call__ (__call__ init sample_event 0 0 0).1 sample_event
       SECOND SECOND SECOND).2 = Handled.
Proof.
  destruct (throttling_wait_is_honest (__call__ init sample_event 0 0 0).1
              sample_event (SECOND - 1) 0 0 1) as (_ & _ & H).
  - reflexivity.
  - split; [reflexivity|]. apply H. by vm_compute.
Defined.

Lemma call_rate_limit s e t_check t_store t_clean :
  rate_limit (__call__ s e t_check t_store t_clean).1 = rate_limit s.
Proof.
  unfold __call__. destruct (event_user_id e); [|done].
  by destruct (_is_rate_limited _ _ _).
Qed.

(** What [__call__] leaves of the time of last acceptance of [u], with
    [ts0] a time at which an update of [u] was accepted and [t1] a time
    that the reads to come are not before. *)
Lemma spaced_after_call s c u ts0 t0 :
  0 <= rate_limit s * SECOND <= HOUR →
  t0 <= call_t_check c → call_t_check c <= call_t_store c →
  call_t_store c <= call_t_clean c →
  match user_requests s !! u with
  | Some ts => ts0 <= ts
  | None => ts0 + rate_limit s * SECOND <= t0
  end →
  let r := __call__ s (call_event c) (call_t_check c) (call_t_store c)
             (call_t_clean c) in
  rate_limit r.1 = rate_limit s
  ∧ match user_requests r.1 !! u with
    | Some ts => ts0 <= ts
    | None => ts0 + rate_limit s * SECOND <= call_t_clean c
    end
  ∧ (event_user_id (call_event c) = Some u → r.2 = Handled →
     ts0 + rate_limit s * SECOND <= call_t_check c).
Proof.
  intros HR H1 H2 H3 Hinv r. subst r. unfold __call__.
  destruct (event_user_id (call_event c)) as [v|] eqn:Hv; cbn [fst snd].
  - destruct (_is_rate_limited s v (call_t_check c)) as [w|] eqn:E;
      cbn [fst snd].
    + split; [done|]. split; [|done].
      destruct (user_requests s !! u); lia.
    + pose proof (proj1 (is_rate_limited_None _ _ _) E) as Hok.
      split; [done|].
      assert (Hgap : v = u → ts0 + rate_limit s * SECOND <= call_t_check c).
      { intros ->. destruct (user_requests s !! u) as [ts|] eqn:Hts.
        - specialize (Hok ts eq_refl). lia.
        - lia. }
      split; [|intros [= ->] _; by apply Hgap].
      rewrite cleanup_lookup. cbn [user_requests rate_limit].
      destruct (decide (v = u)) as [->|Hne].
      * rewrite lookup_insert_eq. specialize (Hgap eq_refl).
        destruct (decide (call_t_store c < call_t_clean c - HOUR)); lia.
      * rewrite lookup_insert_ne by done.
        destruct (user_requests s !! u) as [ts|]; [|lia].
        destruct (decide (ts < call_t_clean c - HOUR)); lia.
  - split; [done|]. split; [|done]. destruct (user_requests s !! u); lia.
Qed.

Lemma spaced_later calls : ∀ s u ts0 t0 j cj,
  0 <= rate_limit s * SECOND <= HOUR →
  clock_monotone t0 calls →
  match user_requests s !! u with
  | Some ts => ts0 <= ts
  | None => ts0 + rate_limit s * SECOND <= t0
  end →
  calls !! j = Some cj →
  event_user_id (call_event cj) = Some u →
  run s calls !! j = Some Handled →
  ts0 + rate_limit s * SECOND <= call_t_check cj.
Proof.
  induction calls as [|c calls IH]; intros s u ts0 t0 j cj HR Hmono Hinv Hj Hu Hh;
    [done|].
  destruct Hmono as (H1 & H2 & H3 & Hmono).
  destruct (spaced_after_call s c u ts0 t0 HR H1 H2 H3 Hinv) as (Hr & Hinv' & Hnow).
  cbn [run] in Hh.
  destruct (__call__ s (call_event c) (call_t_check c) (call_t_store c)
              (call_t_clean c)) as [s1 o] eqn:E.
  cbn [fst snd] in *. destruct j as [|j].
  - injection Hj as <-. injection Hh as ->. by apply Hnow.
  - cbn in Hj, Hh. rewrite <- Hr.
    apply (IH s1 u ts0 (call_t_clean c) j cj); rewrite ?Hr; done.
Qed.

(** X17.  With an interval of at most an hour and a clock that does not
    go back, two updates of one user that are both handled are at least
    the interval apart: in every run of [__call__] over a sequence of
    updates, from any state, the test of the later one is read no sooner
    than the interval after the time stored for the earlier one. *)
Theorem throttling_spaces_handled_updates calls : ∀ s t0 i j ci cj u,
  0 <= rate_limit s * SECOND <= HOUR →
  clock_monotone t0 calls →
  (i < j)%nat →
  calls !! i = Some ci → calls !! j = Some cj →
  event_user_id (call_event ci) = Some u →
  event_user_id (call_event cj) = Some u →
  run s calls !! i = Some Handled → run s calls !! j = Some Handled →
  call_t_store ci + rate_limit s * SECOND <= call_t_check cj.
Proof.
  induction calls as [|c calls IH];
    intros s t0 i j ci cj u HR Hmono Hij Hi Hj Hui Huj Hhi Hhj; [done|].
  destruct Hmono as (H1 & H2 & H3 & Hmono).
  cbn [run] in Hhi, Hhj.
  destruct (__call__ s (call_event c) (call_t_check c) (call_t_store c)
              (call_t_clean c)) as [s1 o] eqn:E.
  assert (Hr : rate_limit s1 = rate_limit s).
  { pose proof (call_rate_limit s (call_event c) (call_t_check c)
                  (call_t_store c) (call_t_clean c)) as Hr.
    by rewrite E in Hr. }
  destruct j as [|j]; [lia|]. cbn in Hj, Hhj. destruct i as [|i].
  - injection Hi as <-. injection Hhi as ->. rewrite <- Hr.
    apply (spaced_later calls s1 u (call_t_store c) (call_t_clean c) j cj);
      rewrite ?Hr; try done.
    unfold __call__ in E. rewrite Hui in E.
    destruct (_is_rate_limited s u (call_t_check c)); [discriminate E|].
    injection E as <-. rewrite cleanup_lookup. cbn [user_requests rate_limit].
    rewrite lookup_insert_eq.
    destruct (decide (call_t_store c < call_t_clean c - HOUR)); lia.
  - cbn in Hi, Hhi. rewrite <- Hr.
    apply (IH s1 (call_t_clean c) i j ci cj u); rewrite ?Hr; try done. lia.
Qed.

Lemma throttling_spaces_handled_updates_witness :
  run init sample_calls = [Handled; Dropped 500000; Handled]
  ∧ 0 + rate_limit init * SECOND <= 1500000.
Proof.
  split; [reflexivity|].
  apply (throttling_spaces_handled_updates sample_calls init 0 0%nat 2%nat
           (mkcall sample_event 0 0 0)
           (mkcall sample_event 1500000 1500000 1500000) 7);
    [by vm_compute|repeat split; by vm_compute|lia|reflexivity..].
Defined.

End pacing_extras.

Section flood_extras.
Import AntiFloodMiddleware.

(** What [__call__] does for an update of the user [u]. *)
Lemma flood_call_spec s e u t_pen now t_apply :
  event_user_id e = Some u →
  let r := __call__ s e t_pen now t_apply in
  flood_threshold r.1 = flood_threshold s
  ∧ flood_window r.1 = flood_window s
  ∧ (∀ v, v ≠ u →
       user_message_count r.1 !! v = user_message_count s !! v
       ∧ penalties r.1 !! v = penalties s !! v)
  ∧ ((∃ penalty_end,
        penalties s !! u = Some penalty_end ∧ t_pen < penalty_end
        ∧ r = (s, Penalized))
     ∨ ((∀ penalty_end, penalties s !! u = Some penalty_end →
           penalty_end <= t_pen)
        ∧ user_message_count r.1 !! u = Some (window_after s u now)
        ∧ ((flood_threshold s < Z.of_nat (length (window_after s u now))
            ∧ r.2 = Flood 30
            ∧ penalties r.1 !! u = Some (t_apply + 30 * SECOND))
           ∨ (Z.of_nat (length (window_after s u now)) <= flood_threshold s
              ∧ r.2 = Handled
              ∧ penalties r.1 !! u = None)))).
Proof.
  intros Hu r. subst r. unfold __call__. rewrite Hu.
  destruct (_is_penalized s u t_pen) as [s1 [|]] eqn:Hp.
  - unfold _is_penalized in Hp.
    destruct (penalties s !! u) as [pe|] eqn:Epe; [|by injection Hp].
    destruct (decide (pe <= t_pen)); [by injection Hp|].
    injection Hp as <-. cbn [fst snd].
    split; [done|]. split; [done|]. split; [done|].
    left. exists pe. split; [done|]. split; [lia|done].
  - assert (Hexp : ∀ pe, penalties s !! u = Some pe → pe <= t_pen).
    { unfold _is_penalized in Hp. intros pe Epe. rewrite Epe in Hp.
      destruct (decide (pe <= t_pen)); [done|by injection Hp]. }
    assert (Hother : ∀ v, v ≠ u → penalties s1 !! v = penalties s !! v).
    { unfold _is_penalized in Hp. intros v Hne.
      destruct (penalties s !! u) as [pe|]; [|by injection Hp as <-].
      destruct (decide (pe <= t_pen)); [|by injection Hp].
      injection Hp as <-. cbn. by rewrite lookup_delete_ne. }
    apply is_penalized_false in Hp as (Hpen & Hcnt & Hth & Hwin).
    set (s2 := if decide (is_Some (user_message_count s1 !! u)) then s1
               else with_user_message_count s1
                      (<[u:=[]]> (user_message_count s1))).
    assert (Hs2 : default [] (user_message_count s2 !! u)
                  = default [] (user_message_count s !! u)
                  ∧ penalties s2 = penalties s1
                  ∧ flood_threshold s2 = flood_threshold s
                  ∧ flood_window s2 = flood_window s
                  ∧ ∀ v, v ≠ u →
                      user_message_count s2 !! v = user_message_count s !! v).
    { subst s2. destruct (decide (is_Some (user_message_count s1 !! u))) as [H|H].
      - by rewrite Hcnt.
      - cbn. rewrite lookup_insert_eq. rewrite Hcnt in H.
        apply eq_None_not_Some in H. rewrite H. split_and!; try done.
        intros v Hne. rewrite lookup_insert_ne by done. by rewrite Hcnt. }
    destruct Hs2 as (Hw2 & Hp2 & Hth2 & Hwin2 & Hc2). clearbody s2.
    cbn [user_message_count with_user_message_count flood_window
         flood_threshold penalties].
    rewrite !lookup_insert_eq. cbn [default]. rewrite Hw2, Hwin2, Hth2.
    fold (window_after s u now).
    destruct (decide (flood_threshold s < _)) as [Hlt|Hge].
    + unfold _apply_penalty.
      cbn [penalties with_user_message_count with_penalties
           user_message_count fst snd flood_threshold flood_window].
      rewrite Hp2, Hpen.
      destruct (decide (is_Some None)) as [[? ?]|_]; [done|].
      split; [done|]. split; [done|]. split.
      * intros v Hne. rewrite !lookup_insert_ne by done.
        split; [by apply Hc2|by apply Hother].
      * right. split; [done|]. rewrite !lookup_insert_eq.
        split; [done|]. left. done.
    + cbn [fst snd user_message_count with_user_message_count penalties
           flood_threshold flood_window].
      split; [done|]. split; [done|]. split.
      * intros v Hne. rewrite !lookup_insert_ne by done. rewrite Hp2.
        split; [by apply Hc2|by apply Hother].
      * right. split; [done|]. rewrite !lookup_insert_eq.
        split; [done|]. right. rewrite Hp2.
        split; [apply Z.nlt_ge in Hge; exact Hge|done].
Qed.

(** X18.  A penalty is served.  After an update has brought the user a
    penalty of [d] seconds from the time [t_apply], every update of the
    user read before the end of the penalty is dropped and changes
    nothing, not even the window; the first one read at the end or later
    is not dropped for the penalty any more. *)
Theorem flood_penalty_is_served s e t_pen now t_apply d :
  (__call__ s e t_pen now t_apply).2 = Flood d →
  let s1 := (__call__ s e t_pen now t_apply).1 in
  let penalty_end := t_apply + d * SECOND in
  ∀ t_pen' now' t_apply',
    (t_pen' < penalty_end →
     __call__ s1 e t_pen' now' t_apply' = (s1, Penalized))
    ∧ (penalty_end <= t_pen' →
       (__call__ s1 e t_pen' now' t_apply').2 ≠ Penalized).
Proof.
  intros H s1 penalty_end t_pen' now' t_apply'.
  destruct (call_flood _ _ _ _ _ _ H) as (u & Hu & -> & _ & _ & Hpen).
  fold s1 in Hpen. subst penalty_end.
  destruct (flood_call_spec s1 e u t_pen' now' t_apply' Hu)
    as (_ & _ & _ & [(pe & Hpe & Hlt & Hr)|(Hexp & _ & Hout)]).
  - rewrite Hpen in Hpe. injection Hpe as <-. split; [done|]. intros. lia.
  - specialize (Hexp _ Hpen). split; [intros; lia|]. intros _.
    destruct Hout as [(_ & -> & _)|(_ & -> & _)]; done.
Qed.

Lemma flood_penalty_is_served_witness :
  __call__ sample_flooded sample_event (34 * SECOND) (34 * SECOND) (34 * SECOND)
  = (sample_flooded, Penalized)
  ∧ (__call__ sample_flooded sample_event
       (35 * SECOND) (35 * SECOND) (35 * SECOND)).2 ≠ Penalized.
Proof.
  assert (H : (__call__ sample_before_flood sample_event
                 (5 * SECOND) (5 * SECOND) (5 * SECOND)).2 = Flood 30)
    by (vm_compute; reflexivity).
  destruct (flood_penalty_is_served sample_before_flood sample_event
              (5 * SECOND) (5 * SECOND) (5 * SECOND) 30 H
              (34 * SECOND) (34 * SECOND) (34 * SECOND)) as [H1 _].
  destruct (flood_penalty_is_served sample_before_flood sample_event
              (5 * SECOND) (5 * SECOND) (5 * SECOND) 30 H
              (35 * SECOND) (35 * SECOND) (35 * SECOND)) as [_ H2].
  split; [apply H1; by vm_compute|apply H2; by vm_compute].
Defined.

(** X19.  [__call__] touches the calling user only: the window and the
    penalty of every other user, the threshold and the length of the
    window are the same after an update as before, whatever becomes of
    the update. *)
Theorem flood_guard_is_per_user s e u t_pen now t_apply :
  event_user_id e = Some u →
  let s' := (__call__ s e t_pen now t_apply).1 in
  flood_threshold s' = flood_threshold s
  ∧ flood_window s' = flood_window s
  ∧ ∀ v, v ≠ u →
      user_message_count s' !! v = user_message_count s !! v
      ∧ penalties s' !! v = penalties s !! v.
Proof.
  intros Hu s'.
  destruct (flood_call_spec s e u t_pen now t_apply Hu) as (H1 & H2 & H3 & _).
  done.
Qed.

Lemma flood_guard_is_per_user_witness :
  user_message_count
    (__call__ sample_flooded (mkevent Message (Some 8)) 0 0 0).1 !! 7
  = user_message_count sample_flooded !! 7.
Proof.
  destruct (flood_guard_is_per_user sample_flooded (mkevent Message (Some 8))
              8 0 0 0 eq_refl) as (_ & _ & H).
  destruct (H 7) as [Hc _]; [lia|]. exact Hc.
Defined.

(** X20.  An update is handled only within the threshold: when
    [__call__] lets the update of a user through, the window stored for
    the user ends with the time of the update, holds at most
    [flood_threshold] times, each at most [flood_window] seconds before
    that of the update, and the user has no penalty pending. *)
Theorem flood_handled_within_threshold s e u t_pen now t_apply :
  event_user_id e = Some u →
  (__call__ s e t_pen now t_apply).2 = Handled →
  let s' := (__call__ s e t_pen now t_apply).1 in
  ∃ window,
    user_message_count s' !! u = Some (window ++ [now])
    ∧ Z.of_nat (length (window ++ [now])) <= flood_threshold s
    ∧ Forall (λ msg_time, now - msg_time <= flood_window s * SECOND) window
    ∧ window `sublist_of` default [] (user_message_count s !! u)
    ∧ penalties s' !! u = None.
Proof.
  intros Hu Hh s'.
  destruct (flood_call_spec s e u t_pen now t_apply Hu)
    as (_ & _ & _ & [(pe & _ & _ & Hr)|(_ & Hw & Hout)]).
  - rewrite Hr in Hh. done.
  - destruct Hout as [(_ & Ho & _)|(Hlen & _ & Hpen)]; [by rewrite Ho in Hh|].
    eexists. split; [exact Hw|]. split; [exact Hlen|].
    split; [|split; [apply sublist_filter|done]].
    apply Forall_forall. intros x Hx. by apply list_elem_of_filter in Hx as [? _].
Qed.

Lemma flood_handled_within_threshold_witness :
  ∃ window,
    user_message_count (__call__ init sample_event 0 0 0).1 !! 7
    = Some (window ++ [0])
    ∧ Z.of_nat (length (window ++ [0])) <= flood_threshold init
    ∧ Forall (λ msg_time, 0 - msg_time <= flood_window init * SECOND) window
    ∧ window `sublist_of` default [] (user_message_count init !! 7)
    ∧ penalties (__call__ init sample_event 0 0 0).1 !! 7 = None.
Proof.
  apply (flood_handled_within_threshold init sample_event 7 0 0 0);
    [reflexivity|vm_compute; reflexivity].
Defined.

Lemma filter_none {A} (P : A → Prop) `{∀ x, Decision (P x)} (l : list A) :
  Forall (λ x, ¬ P x) l → filter P l = [].
Proof.
  induction 1 as [|x l Hx _ IH]; [done|].
  rewrite filter_cons. by rewrite decide_False.
Qed.

(** X21.  After the penalty the user starts afresh.  The window is not
    emptied when a penalty is set, but a penalty lasts longer than the
    window: when the window is shorter than the penalty, the times stored
    for the user are not after the time of the update that brought the
    penalty, and the clock does not go back, the first update of the user
    read once the penalty is over is handled, the penalty is removed, and
    the window stored holds the time of that update alone. *)
Theorem flood_fresh_start_after_penalty
    s e u t_pen now t_apply d t_pen' now' t_apply' :
  event_user_id e = Some u →
  (__call__ s e t_pen now t_apply).2 = Flood d →
  flood_window s < d → 1 <= flood_threshold s →
  Forall (λ msg_time, msg_time <= now)
    (default [] (user_message_count s !! u)) →
  now <= t_apply → t_apply + d * SECOND <= t_pen' → t_pen' <= now' →
  let s1 := (__call__ s e t_pen now t_apply).1 in
  let r := __call__ s1 e t_pen' now' t_apply' in
  r.2 = Handled
  ∧ user_message_count r.1 !! u = Some [now']
  ∧ penalties r.1 !! u = None.
Proof.
  intros Hu H Hwin Hth Hpast Hclock1 Hover Hclock2 s1 r.
  destruct (call_flood _ _ _ _ _ _ H) as (u' & Hu' & -> & Hcount & _ & Hpen).
  rewrite Hu in Hu'. injection Hu' as <-. fold s1 in Hcount, Hpen.
  destruct (flood_call_spec s e u t_pen now t_apply Hu) as (Hth1 & Hwin1 & _).
  fold s1 in Hth1, Hwin1.
  assert (Hfresh : window_after s1 u now' = [now']).
  { unfold window_after at 1. rewrite Hcount, Hwin1. cbn [default].
    rewrite filter_none; [done|]. unfold id, window_after.
    apply Forall_app. split.
    - apply Forall_forall. intros ts Hts.
      apply list_elem_of_filter in Hts as [_ Hts].
      pose proof (proj1 (Forall_forall _ _) Hpast ts Hts) as Hle.
      cbv beta in Hle. unfold SECOND in *. lia.
    - apply Forall_singleton. unfold SECOND in *. lia. }
  destruct (flood_call_spec s1 e u t_pen' now' t_apply' Hu)
    as (_ & _ & _ & [(pe & Hpe & Hlt & _)|(_ & Hw & Hout)]); subst r.
  - rewrite Hpen in Hpe. injection Hpe as <-. lia.
  - rewrite Hfresh in Hw, Hout. cbn [length] in Hout.
    destruct Hout as [(Hover' & _)|(_ & Ho & Hp)]; [lia|done].
Qed.

Lemma flood_fresh_start_after_penalty_witness :
  (__call__ sample_flooded sample_event
     (35 * SECOND) (35 * SECOND) (35 * SECOND)).2 = Handled
  ∧ user_message_count
      (__call__ sample_flooded sample_event
         (35 * SECOND) (35 * SECOND) (35 * SECOND)).1 !! 7
    = Some [35 * SECOND]
  ∧ penalties
      (__call__ sample_flooded sample_event
         (35 * SECOND) (35 * SECOND) (35 * SECOND)).1 !! 7 = None.
Proof.
  apply (flood_fresh_start_after_penalty sample_before_flood
           sample_event 7 (5 * SECOND) (5 * SECOND) (5 * SECOND) 30
           (35 * SECOND) (35 * SECOND) (35 * SECOND)).
  - reflexivity.
  - vm_compute. reflexivity.
  - by vm_compute.
  - by vm_compute.
  - assert (default [] (user_message_count sample_before_flood !! 7)
            = take 5 sample_times) as -> by (vm_compute; reflexivity).
    repeat (apply Forall_cons; split; [by vm_compute|]). apply Forall_nil_2.
  - by vm_compute.
  - by vm_compute.
  - by vm_compute.
Defined.

End flood_extras.

Section flood_runs.
Import AntiFloodMiddleware.

Lemma filter_filter_later (now τ w : Z) (l : list Z) :
  now <= τ →
  filter (λ ts, τ - ts <= w) (filter (λ ts, now - ts <= w) l)
  = filter (λ ts, τ - ts <= w) l.
Proof.
  intros Hle. induction l as [|x l IH]; [done|].
  rewrite !filter_cons. destruct (decide (now - x <= w)) as [H1|H1].
  - rewrite filter_cons. destruct (decide (τ - x <= w)); by rewrite IH.
  - rewrite decide_False by lia. done.
Qed.

(** The handled updates of [u] that a later update can still have in its
    window are among the times stored for [u]. *)
Lemma flood_history_step s c u t0 hist :
  t0 <= call_t_pen c → call_t_pen c <= call_now c →
  call_now c <= call_t_apply c →
  (∀ τ, t0 <= τ →
     filter (λ ts, τ - ts <= flood_window s * SECOND) hist
     ⊆+ filter (λ ts, τ - ts <= flood_window s * SECOND)
          (default [] (user_message_count s !! u))) →
  let r := __call__ s (call_event c) (call_t_pen c) (call_now c)
             (call_t_apply c) in
  let hist' := hist ++ handled_times u [c] [r.2] in
  flood_threshold r.1 = flood_threshold s
  ∧ flood_window r.1 = flood_window s
  ∧ (∀ τ, call_t_apply c <= τ →
       filter (λ ts, τ - ts <= flood_window s * SECOND) hist'
       ⊆+ filter (λ ts, τ - ts <= flood_window s * SECOND)
            (default [] (user_message_count r.1 !! u)))
  ∧ (event_user_id (call_event c) = Some u → r.2 = Handled →
     Z.of_nat (length (filter (λ ts, call_now c - ts
                                     <= flood_window s * SECOND) hist'))
     <= flood_threshold s).
Proof.
  intros H1 H2 H3 Hinv r hist'. subst r hist'.
  set (W := flood_window s * SECOND) in *.
  destruct (event_user_id (call_event c)) as [v|] eqn:Hv.
  - destruct (flood_call_spec s (call_event c) v (call_t_pen c) (call_now c)
                (call_t_apply c) Hv) as (Hth & Hwin & Hother & Hcase).
    split; [done|]. split; [done|].
    destruct (decide (v = u)) as [->|Hne].
    + destruct Hcase as [(pe & _ & _ & Hr)|(_ & Hw & Hout)].
      * rewrite Hr. cbn [fst snd handled_times]. rewrite app_nil_r.
        split; [|done]. intros τ Hτ. apply Hinv. lia.
      * rewrite Hw. cbn [default]. unfold id, window_after. fold W.
        assert (Hstored : ∀ τ, call_now c <= τ →
                  filter (λ ts, τ - ts <= W) hist
                  ⊆+ filter (λ ts, τ - ts <= W)
                       (filter (λ ts, call_now c - ts <= W)
                          (default [] (user_message_count s !! u)))).
        { intros τ Hτ. rewrite filter_filter_later by done. apply Hinv. lia. }
        destruct Hout as [(_ & Ho & _)|(Hlen & Ho & _)]; rewrite Ho;
          cbn [handled_times].
        -- rewrite app_nil_r. split; [|done]. intros τ Hτ.
           rewrite filter_app. etrans; [apply Hstored; lia|].
           by apply submseteq_inserts_r.
        -- rewrite decide_True by done. split.
           ++ intros τ Hτ. rewrite !filter_app.
              apply submseteq_app; [apply Hstored; lia|done].
           ++ intros _ _. unfold window_after in Hlen. fold W in Hlen.
              rewrite length_app in Hlen. cbn [length] in Hlen.
              rewrite filter_app, length_app.
              pose proof (submseteq_length _ _ (Hinv (call_now c) ltac:(lia))) as Hl1.
              assert (Hl2 : Z.of_nat (length (filter (λ ts, call_now c - ts <= W)
                                                [call_now c])) <= 1).
              { rewrite filter_cons, filter_nil. destruct (decide _); cbn; lia. }
              lia.
    + destruct (Hother u) as [Hc _]; [done|]. rewrite Hc.
      assert (Hh : handled_times u [c]
                     [(__call__ s (call_event c) (call_t_pen c) (call_now c)
                         (call_t_apply c)).2] = []).
      { cbn [handled_times]. destruct (_.2); [|done..].
        rewrite Hv. rewrite decide_False by congruence. done. }
      rewrite Hh, app_nil_r. split; [|intros [= ?]; done].
      intros τ Hτ. apply Hinv. lia.
  - unfold __call__. rewrite Hv. cbn [fst snd handled_times]. rewrite Hv.
    rewrite decide_False by done. rewrite app_nil_r.
    split; [done|]. split; [done|]. split; [|done].
    intros τ Hτ. apply Hinv. lia.
Qed.

Lemma handled_times_cons u c calls o outcomes :
  handled_times u (c :: calls) (o :: outcomes)
  = handled_times u [c] [o] ++ handled_times u calls outcomes.
Proof.
  cbn [handled_times]. destruct o; [|done..].
  by destruct (decide (event_user_id (call_event c) = Some u)).
Qed.

Lemma flood_history_run calls : ∀ s u t0 hist n c,
  clock_monotone t0 calls →
  (∀ τ, t0 <= τ →
     filter (λ ts, τ - ts <= flood_window s * SECOND) hist
     ⊆+ filter (λ ts, τ - ts <= flood_window s * SECOND)
          (default [] (user_message_count s !! u))) →
  calls !! n = Some c →
  event_user_id (call_event c) = Some u →
  run_calls s calls !! n = Some Handled →
  Z.of_nat
    (length
       (filter (λ ts, call_now c - ts <= flood_window s * SECOND)
          (hist ++ handled_times u (take (S n) calls)
                     (take (S n) (run_calls s calls)))))
  <= flood_threshold s.
Proof.
  induction calls as [|c0 calls IH]; intros s u t0 hist n c Hmono Hinv Hn Hu Hh;
    [done|].
  destruct Hmono as (H1 & H2 & H3 & Hmono).
  destruct (flood_history_step s c0 u t0 hist H1 H2 H3 Hinv)
    as (Hth & Hwin & Hinv' & Hnow).
  cbn [run_calls] in *.
  destruct (__call__ s (call_event c0) (call_t_pen c0) (call_now c0)
              (call_t_apply c0)) as [s1 o] eqn:E.
  cbn [fst snd] in *. rewrite !firstn_cons, handled_times_cons, app_assoc.
  destruct n as [|n].
  - injection Hn as <-. injection Hh as ->.
    rewrite !take_0. cbn [handled_times]. rewrite app_nil_r. by apply Hnow.
  - cbn in Hn, Hh. rewrite <- Hth, <- Hwin.
    apply (IH s1 u (call_t_apply c0)); rewrite ?Hwin; done.
Qed.

(** X22.  With a clock that does not go back, the guard lets at most
    [flood_threshold] updates of a user through within [flood_window]
    seconds: in every run of [__call__] over a sequence of updates, from
    any state, when an update of a user is handled, the updates of that
    user handled so far in the run, this one included, that are at most
    [flood_window] seconds before it are at most [flood_threshold]. *)
Theorem flood_guard_bounds_the_handled s t0 calls u n c :
  clock_monotone t0 calls →
  calls !! n = Some c →
  event_user_id (call_event c) = Some u →
  run_calls s calls !! n = Some Handled →
  Z.of_nat
    (length
       (filter (λ ts, call_now c - ts <= flood_window s * SECOND)
          (handled_times u (take (S n) calls)
             (take (S n) (run_calls s calls)))))
  <= flood_threshold s.
Proof.
  intros Hmono Hn Hu Hh.
  apply (flood_history_run calls s u t0 [] n c); try done.
  intros τ _. rewrite filter_nil. apply submseteq_nil_l.
Qed.

Lemma flood_guard_bounds_the_handled_witness :
  run_calls init sample_calls
  = [Handled; Handled; Handled; Handled; Handled; Flood 30; Penalized]
  ∧ Z.of_nat
      (length
         (filter (λ ts, 4 * SECOND - ts <= flood_window init * SECOND)
            (handled_times 7 (take 5 sample_calls)
               (take 5 (run_calls init sample_calls)))))
    <= flood_threshold init.
Proof.
  split; [reflexivity|].
  apply (flood_guard_bounds_the_handled init 0 sample_calls 7 4
           (mkcall sample_event (4 * SECOND) (4 * SECOND) (4 * SECOND)));
    [|reflexivity..].
  repeat split; by vm_compute.
Defined.

End flood_runs.

(** ** The handlers of the dialogue *)

Section dialogue_extras.
Import PyStr PyDate DataManager Keyboards Commands.

Lemma split_nonempty sep s : split sep s ≠ [].
Proof.
  destruct s as [|c s]; cbn [split]; [done|].
  destruct (decide (c = sep)); [done|]. by destruct (split sep s).
Qed.

Lemma split_no_sep sep s : sep ∉ s → split sep s = [s].
Proof.
  induction s as [|c s IH]; intros Hs; cbn [split]; [done|].
  apply not_elem_of_cons in Hs as [Hc Hs].
  rewrite decide_False by done. by rewrite IH.
Qed.

Lemma split_app sep a b :
  sep ∉ a → split sep (a ++ sep :: b) = a :: split sep b.
Proof.
  induction a as [|c a IH]; intros Ha; cbn [split app].
  - by rewrite decide_True.
  - apply not_elem_of_cons in Ha as [Hc Ha].
    rewrite decide_False by done. by rewrite IH.
Qed.

Lemma startswith_app s prefix :
  startswith s prefix = true → ∃ rest, s = prefix ++ rest.
Proof.
  revert s. induction prefix as [|p prefix IH]; intros s H.
  - by exists s.
  - destruct s as [|c s]; [done|]. cbn [startswith] in H.
    apply andb_true_iff in H as [Hc H]. apply bool_decide_eq_true in Hc as ->.
    destruct (IH _ H) as [rest ->]. by exists rest.
Qed.

(** X23.  The identifier of a habit goes through a button and back.  The
    keyboard [get_habits_keyboard] builds has one button for each habit,
    in their order, with the data [action_id], and the button to cancel
    last; the handlers read their argument with
    [callback.data.split("_")[1]], which gives the identifier back when
    neither the action nor the identifier holds an underscore, and only
    the part of the identifier before its first underscore otherwise.  For
    data that start with ["checkin_"] or ["delete_"], as the handlers are
    registered for, the argument is always there. *)
Theorem callback_data_round_trip :
  (∀ cancel_text habits action,
     keyboard_data (get_habits_keyboard cancel_text habits action)
     = ((λ h, action ++ [95%N] ++ habit_id h) <$> habits) ++ [lit "cancel"])
  ∧ (∀ action id,
       95%N ∉ action → 95%N ∉ id →
       callback_arg (action ++ [95%N] ++ id) = Some id)
  ∧ (∀ action id rest,
       95%N ∉ action → 95%N ∉ id →
       callback_arg (action ++ [95%N] ++ id ++ [95%N] ++ rest) = Some id)
  ∧ (∀ data,
       startswith data (lit "checkin_") = true
       ∨ startswith data (lit "delete_") = true →
       is_Some (callback_arg data)).
Proof.
  repeat apply conj.
  - intros cancel_text habits action. unfold keyboard_data, get_habits_keyboard.
    cbv zeta. rewrite concat_app, fmap_app. f_equal.
    induction habits as [|h habits IH]; [done|].
    cbn [fmap list_fmap concat app callback_data]. f_equal. exact IH.
  - intros action id Ha Hid. unfold callback_arg. cbn [app].
    rewrite split_app by done. by rewrite split_no_sep.
  - intros action id rest Ha Hid. unfold callback_arg. cbn [app].
    rewrite split_app by done. by rewrite split_app.
  - intros data [H|H]; apply startswith_app in H as [rest ->]; unfold callback_arg.
    + change (lit "checkin_" ++ rest) with (lit "checkin" ++ 95%N :: rest).
      rewrite split_app by (by vm_compute; intros H; repeat (apply elem_of_cons in H as [H|H]; [done|]); by apply elem_of_nil in H).
      cbn [lookup list_lookup]. pose proof (split_nonempty 95%N rest).
      destruct (split 95%N rest); [done|by eexists].
    + change (lit "delete_" ++ rest) with (lit "delete" ++ 95%N :: rest).
      rewrite split_app by (by vm_compute; intros H; repeat (apply elem_of_cons in H as [H|H]; [done|]); by apply elem_of_nil in H).
      cbn [lookup list_lookup]. pose proof (split_nonempty 95%N rest).
      destruct (split 95%N rest); [done|by eexists].
Qed.

Lemma frequency_map_values k f :
  dict_get frequency_map k = Some f → f ∈ FREQUENCIES ∧ f ≠ [].
Proof.
  intros H. apply dict_get_Some_elem in H. unfold frequency_map in H.
  repeat (apply elem_of_cons in H as [[= _ ->]|H];
          [split; [unfold FREQUENCIES; set_solver|done]|]).
  by apply elem_of_nil in H.
Qed.

(** X24.  The handler of the frequency, for a message with a text and
    whatever [str.lower] does.  A text that, stripped and lowered, is no
    key of [frequency_map] is answered with the error and changes
    neither the store nor the dialogue, so that the user can answer
    again.  For a key, the frequency passed to [add_habit] is the value
    of the key, one of the three of the enumeration, the name is the one
    the dialogue holds, and the dialogue is over whether or not the habit
    could be saved; without a name in the dialogue the handler raises
    and creates nothing. *)
Theorem frequency_handler (lower : str → str) dm uuid now ok u text state :
  let r := process_habit_frequency lower dm uuid now ok u (Some text) state in
  match dict_get frequency_map (lower (strip text)) with
  | None => r = Some (dm, state, invalid_frequency_error)
  | Some frequency =>
      frequency ∈ FREQUENCIES
      ∧ match fsm_habit_name state with
        | None => r = None
        | Some name =>
            r = Some ((add_habit dm uuid now ok u name frequency).1,
                      mkfsm None None,
                      if ok then habit_created_success name frequency
                      else habit_creation_error)
        end
  end.
Proof.
  intros r. subst r. unfold process_habit_frequency. cbv zeta.
  destruct (dict_get frequency_map (lower (strip text))) as [f|] eqn:E; [|done].
  destruct (frequency_map_values _ _ E) as [Hin Hne]. split; [done|].
  destruct f as [|c f]; [done|].
  destruct (fsm_habit_name state); [|done]. by destruct ok.
Qed.

(** X25.  Every habit the dialogue creates is a valid one.  When the
    handler of the name has taken a text and moved the dialogue on, and
    the handler of the frequency then answers that the habit is created,
    the habit stored under the identifier drawn belongs to the user, is
    active, has the stripped text as its name, of 2 to 50 characters, and
    one of the three frequencies of the enumeration; and the dialogue is
    over. *)
Theorem dialogue_creates_valid_habit (lower : str → str) dm uuid now ok u
    text1 text2 st st1 dm' st2 name frequency :
  process_habit_name (Some text1) st = Some (st1, add_habit_frequency_prompt) →
  process_habit_frequency lower dm uuid now ok u (Some text2) st1
  = Some (dm', st2, habit_created_success name frequency) →
  name = strip text1
  ∧ (2 <= length name <= 50)%nat
  ∧ frequency ∈ FREQUENCIES
  ∧ get_habit dm' u uuid
    = Some (mkhabit uuid u name frequency (datetime_isoformat now)
              (Some true) None)
  ∧ fsm_state st1 = Some waiting_for_frequency
  ∧ st2 = mkfsm None None.
Proof.
  intros H1 H2. unfold process_habit_name in H1.
  destruct (decide (length (strip text1) < 2 ∨ 50 < length (strip text1))%nat)
    as [|Hlen]; [done|].
  injection H1 as <-. unfold process_habit_frequency in H2. cbv zeta in H2.
  destruct (dict_get frequency_map (lower (strip text2))) as [f|] eqn:E;
    [|done].
  destruct (frequency_map_values _ _ E) as [Hf Hne].
  destruct f as [|c f]; [done|]. cbn [fsm_habit_name] in H2.
  destruct ok; [|done]. injection H2 as <- <- <- <-.
  repeat apply conj; try done; try lia.
  unfold add_habit, get_habit. cbv zeta. cbn [fst habits with_habits].
  rewrite dict_get_set_eq. cbn [habit_user_id]. by rewrite decide_True.
Qed.

Lemma dialogue_creates_valid_habit_witness :
  lit "Read" = strip (lit " Read ")
  ∧ (2 <= length (lit "Read") <= 50)%nat
  ∧ lit "daily" ∈ FREQUENCIES
  ∧ get_habit sample_store 1 sample_habit = Some sample_record
  ∧ fsm_state (mkfsm (Some waiting_for_frequency) (Some (lit "Read")))
    = Some waiting_for_frequency
  ∧ mkfsm None None = mkfsm None None.
Proof.
  apply (dialogue_creates_valid_habit ascii_lower init sample_habit sample_now
           true 1 (lit " Read ") (lit " Daily")
           (cmd_add_habit (mkfsm None None))
           (mkfsm (Some waiting_for_frequency) (Some (lit "Read")))
           sample_store (mkfsm None None) (lit "Read") (lit "daily"));
    reflexivity.
Defined.

(** X26.  The handler of a check-in, the date being the same at both of
    its reads: a user who has checked in today is told so and nothing is
    stored; when the key of the habit and of today holds a check-in of
    another user the answer is the error, not that of a second check-in,
    and nothing is stored; when the key is free the check-in is recorded,
    for any identifier, also one that is no habit of the user or no habit
    at all, the answer then naming the habit ["Unknown"], and it is the
    error when the file write failed although the check-in is kept. *)
Theorem checkin_handler dm today now ok quote u data id :
  callback_arg data = Some id →
  let r := process_habit_checkin dm today today now ok quote u data in
  let key := checkin_key id (isoformat today) in
  (is_checked_in_today dm today u id = true →
   r = Some (dm, already_checked_in))
  ∧ (∀ c, dict_get (checkins dm) key = Some c → checkin_user_id c ≠ u →
       r = Some (dm, checkin_error))
  ∧ (dict_get (checkins dm) key = None →
     let dm' := (record_checkin dm today now ok u id).1 in
     is_checked_in_today dm' today u id = true
     ∧ r = Some (dm',
                 if ok then
                   checkin_success
                     match get_habit dm u id with
                     | Some h => habit_name h
                     | None => lit "Unknown"
                     end
                     match quote with
                     | Some (c :: q) => Some (c :: q)
                     | _ => None
                     end
                 else checkin_error)).
Proof.
  intros Hid r key. subst r key. unfold process_habit_checkin. rewrite Hid.
  cbv zeta. repeat apply conj.
  - by intros ->.
  - intros c Hc Hu.
    assert (is_checked_in_today dm today u id = false) as ->.
    { unfold is_checked_in_today. cbv zeta. rewrite Hc.
      by apply bool_decide_eq_false. }
    rewrite record_checkin_eq. cbv zeta.
    by rewrite (proj2 (dict_mem_true _ _) (mk_is_Some _ _ Hc)).
  - intros Hfree. split; [by apply record_checkin_checked_in|].
    assert (is_checked_in_today dm today u id = false) as ->.
    { unfold is_checked_in_today. cbv zeta. by rewrite Hfree. }
    rewrite record_checkin_eq. cbv zeta.
    rewrite (proj2 (dict_mem_false _ _) Hfree).
    destruct ok; [|done]. done.
Qed.

Lemma checkin_handler_witness :
  process_habit_checkin init sample_today sample_today sample_now true None 1
    (lit "checkin_h1")
  = Some (sample_checked, checkin_success (lit "Unknown") None).
Proof.
  destruct (checkin_handler init sample_today sample_now true None 1
              (lit "checkin_h1") sample_habit) as (_ & _ & H).
  - reflexivity.
  - destruct H as [_ H]; [reflexivity|]. exact H.
Defined.

(** X27.  The handler of a deletion: for an identifier that is no habit
    of the user, another user's habit included, the answer is that the
    habit is not found and the store stays as it is; for a habit of the
    user the habit is deleted as by [delete_habit] and the answer names
    it, or is the error when the file write failed; and the same button
    pressed again deletes the habit again, with the same answer of
    success: a habit that is deleted is never answered as not found. *)
Theorem deletion_handler dm now now' ok u data id :
  callback_arg data = Some id →
  let r := process_habit_deletion dm now ok u data in
  (get_habit dm u id = None → r = Some (dm, habit_not_found))
  ∧ (∀ h, get_habit dm u id = Some h →
       let dm' := (delete_habit dm now ok u id).1 in
       r = Some (dm',
                 if ok then habit_deleted_success (habit_name h)
                 else habit_deletion_error)
       ∧ ∃ dm'',
           process_habit_deletion dm' now' true u data
           = Some (dm'', habit_deleted_success (habit_name h))).
Proof.
  intros Hid r. subst r. unfold process_habit_deletion. rewrite Hid. split.
  - by intros ->.
  - intros h Hh. cbv zeta. rewrite Hh.
    assert (Hdm' : delete_habit dm now ok u id
                   = (with_habits dm
                        (dict_set (habits dm) id
                           (mkhabit (habit_id h) (habit_user_id h)
                              (habit_name h) (habit_frequency h)
                              (habit_created_at h) (Some false)
                              (Some (datetime_isoformat now)))), ok)).
    { unfold delete_habit. rewrite Hh. by destruct ok. }
    assert (Hu : habit_user_id h = u).
    { unfold get_habit in Hh. destruct (dict_get (habits dm) id); [|done].
      destruct (decide _) as [Hu|]; [|done]. by injection Hh as <-. }
    rewrite Hdm'. cbn [fst]. split; [by destruct ok|].
    unfold delete_habit, get_habit. cbn [habits with_habits].
    rewrite dict_get_set_eq. cbn [habit_user_id habit_name].
    rewrite decide_True by done. cbn [habit_name]. by eexists.
Qed.

Lemma deletion_handler_witness :
  process_habit_deletion sample_store sample_now true 2 (lit "delete_h1")
  = Some (sample_store, habit_not_found).
Proof.
  destruct (deletion_handler sample_store sample_now sample_later true 2
              (lit "delete_h1") sample_habit) as [H _].
  - reflexivity.
  - apply H. reflexivity.
Defined.

End dialogue_extras.

(** ** The quote client *)

Section quote_extras.
Import PyStr QuoteAPIClient.

Lemma get_random_quote_fetched s t_valid c q t_exp t_cached fallback :
  _is_cache_valid s (lit "random_quote") t_valid = false →
  get_random_quote s t_valid (Returns (Some (c :: q))) t_exp t_cached fallback
  = (mk (dict_set (cache s) (lit "random_quote")
           (mkitem (c :: q) (t_exp + QUOTE_CACHE_DURATION * SECOND) t_cached)),
     Some (c :: q)).
Proof. intros H. unfold get_random_quote. cbv zeta. by rewrite H. Qed.

(** X28.  A quote that was fetched is served from the cache for twelve
    hours.  When the cache is not valid and the request returns a quote
    that is not empty, [get_random_quote] returns this quote; every call
    whose validity check is read less than [QUOTE_CACHE_DURATION] seconds
    after the time read for the expiry returns the same quote and leaves
    the client as it is, whatever the request would become; from that
    time on the cache is not valid any more, so that the quote is
    requested again. *)
Theorem quote_is_cached s t_valid quote t_exp t_cached fallback :
  quote ≠ [] →
  _is_cache_valid s (lit "random_quote") t_valid = false →
  let r := get_random_quote s t_valid (Returns (Some quote)) t_exp t_cached
             fallback in
  let expiry := t_exp + QUOTE_CACHE_DURATION * SECOND in
  r.2 = Some quote
  ∧ ∀ t_valid' fetched' t_exp' t_cached' fallback',
      (t_valid' < expiry →
       get_random_quote r.1 t_valid' fetched' t_exp' t_cached' fallback'
       = (r.1, Some quote))
      ∧ (expiry <= t_valid' →
         _is_cache_valid r.1 (lit "random_quote") t_valid' = false).
Proof.
  intros Hq Hinvalid r expiry. destruct quote as [|c q]; [done|].
  subst r. rewrite get_random_quote_fetched by done. cbn [fst snd].
  split; [done|]. intros t_valid' fetched' t_exp' t_cached' fallback'.
  unfold get_random_quote, _is_cache_valid. cbv zeta. cbn [cache].
  rewrite dict_get_set_eq. cbn [expires_at data fmap option_fmap option_map].
  fold expiry. split; intros Ht.
  - by rewrite bool_decide_eq_true_2.
  - apply bool_decide_eq_false_2. lia.
Qed.

Lemma quote_is_cached_witness :
  (get_random_quote init 0 (Returns (Some (lit "Keep going."))) 0 0
     (lit "Dream it. Wish it. Do it.")).2 = Some (lit "Keep going.")
  ∧ ∀ t_valid' fetched' t_exp' t_cached' fallback',
      (t_valid' < 0 + QUOTE_CACHE_DURATION * SECOND →
       get_random_quote
         (get_random_quote init 0 (Returns (Some (lit "Keep going."))) 0 0
            (lit "Dream it. Wish it. Do it.")).1
         t_valid' fetched' t_exp' t_cached' fallback'
       = ((get_random_quote init 0 (Returns (Some (lit "Keep going."))) 0 0
             (lit "Dream it. Wish it. Do it.")).1,
          Some (lit "Keep going.")))
      ∧ (0 + QUOTE_CACHE_DURATION * SECOND <= t_valid' →
         _is_cache_valid
           (get_random_quote init 0 (Returns (Some (lit "Keep going."))) 0 0
              (lit "Dream it. Wish it. Do it.")).1
           (lit "random_quote") t_valid' = false).
Proof.
  apply (quote_is_cached init 0 (lit "Keep going.") 0 0
           (lit "Dream it. Wish it. Do it.")); [by vm_compute|reflexivity].
Defined.



End quote_extras.
